(** * Finance tracker backend: request pipeline, cache layer and analytics

    A shallow embedding of the Express handlers and middleware of the
    backend (controllers/transactionController.js, middleware/auth.js,
    middleware/cache.js, config/redis.js, controllers/categoryController.js,
    controllers/analyticsController.js, routes/transactions.js,
    routes/categories.js, routes/admin.js) and of the two places of the
    client that meet them (the request interceptor of utils/apiPath.js and
    the permission helper of the auth context), together with the properties
    the specification states about them and further properties of the code.

    Conventions.
    - A JavaScript number that the code obtains from [parseInt] or from an
      integer literal is [NaN] or the integer read, [Num z].  That is the
      double the code holds as long as the integer is below 2^53 in absolute
      value; above, the double is the integer rounded, and as rounding is
      monotone and fixes 1, 24 and 100 the clamps and comparisons made by
      the code come out the same.  Statements about the value of a page, an
      offset or a number of pages assume the bound.
    - Amounts at rest are exact: the columns are DECIMAL(12,2), and the
      store keeps them in hundredths.  Amounts the code computes with are
      doubles ([JS.double], IEEE 754 binary64 as the Standard Library
      specifies it): a total arrives as the text of a NUMERIC value and is
      read by [parseFloat], and sums and differences are those of doubles.
    - A query-string parameter is [option string]: [None] is [undefined]
      (parameter absent).
    - The path parameter [:id] and the [userId] of a token are given as the
      integer the database reads the text as; a text the database does not
      read as an INTEGER is stood for by an integer outside the INTEGER
      range, and [None] is [undefined], sent as NULL.  Where JavaScript
      reads the same text itself ([parseInt(id)] in routes/admin.js), the
      text is an argument of its own.
    - A handler returns the response it sends together with the new store.
      A statement that the database rejects (a parameter that is no INTEGER,
      an amount that does not fit the column, text that is no date, NaN in
      the text of the statement) throws: the [catch] of the handler answers
      500 and nothing is written.  The date in the body of a transaction,
      which the validator has checked, is taken to be one the database
      reads; a failing connection is not modelled.
    - [req.user] is present: every route mounts [authenticateToken] first.
    - Where an answer depends on what PostgreSQL decides about text (the
      order of two dates, whether a text is a date, the cast of a parameter
      to INTEGER), that decision is a parameter of the model. *)

From Stdlib Require Import ZArith QArith String Ascii List Bool Lia.
From Stdlib Require SpecFloat.
From stdpp Require Import base numbers list strings gmap pretty.

Local Open Scope string_scope.
Local Open Scope Z_scope.

(** ** JavaScript values and built-ins used by the handlers *)

Module JS.

Inductive number := NaN | Num (z : Z).

Global Instance number_eq_dec : EqDecision number.
Proof. solve_decision. Defined.

(** [Math.max] and [Math.min] on two arguments: NaN is contagious. *)
Definition Math_max (a b : number) : number :=
  match a, b with
  | Num x, Num y => Num (Z.max x y)
  | _, _ => NaN
  end.

Definition Math_min (a b : number) : number :=
  match a, b with
  | Num x, Num y => Num (Z.min x y)
  | _, _ => NaN
  end.

(** A value that is either a number literal (a destructuring default) or a
    string (what the query-string parser delivers). *)
Inductive value := VNum (n : Z) | VStr (s : string).

Definition ToString (v : value) : string :=
  match v with
  | VNum n => pretty n
  | VStr s => s
  end.

(** [const { p = d } = req.query]: the default applies only to [undefined]. *)
Definition with_default (q : option string) (d : value) : value :=
  match q with
  | Some s => VStr s
  | None => d
  end.

(** [x || d] on an optional string: [undefined] and the empty string are
    falsy. *)
Definition or_else (q : option string) (d : string) : string :=
  match q with
  | Some (String c s) => String c s
  | _ => d
  end.

(** Truthiness of an optional string, as in [if (category)]. *)
Definition truthy (q : option string) : bool :=
  match q with
  | Some (String _ _) => true
  | _ => false
  end.

(** [s.toLowerCase()] and [s.toUpperCase()], on the letters a-z and A-Z. *)
Definition lower_char (c : ascii) : ascii :=
  let n := nat_of_ascii c in
  if ((65 <=? n) && (n <=? 90))%nat then ascii_of_nat (n + 32) else c.

Definition upper_char (c : ascii) : ascii :=
  let n := nat_of_ascii c in
  if ((97 <=? n) && (n <=? 122))%nat then ascii_of_nat (n - 32) else c.

Fixpoint map_chars (f : ascii → ascii) (s : string) : string :=
  match s with
  | EmptyString => EmptyString
  | String c s' => String (f c) (map_chars f s')
  end.

Definition toLowerCase := map_chars lower_char.
Definition toUpperCase := map_chars upper_char.

(** [a < b] and [a > b] on numbers: false as soon as one side is NaN. *)
Definition lt (a b : number) : bool :=
  match a, b with
  | Num x, Num y => x <? y
  | _, _ => false
  end.

(** White space skipped by [parseInt] (the code units below 256). *)
Definition isStrWhiteSpaceChar (c : ascii) : bool :=
  let n := nat_of_ascii c in
  ((9 <=? n) && (n <=? 13) || (n =? 32) || (n =? 160))%nat.

Fixpoint trimStart (s : string) : string :=
  match s with
  | String c s' => if isStrWhiteSpaceChar c then trimStart s' else s
  | EmptyString => EmptyString
  end.

(** Value of a character as a digit, for radices up to 36. *)
Definition digitValue (c : ascii) : option Z :=
  let n := Z.of_nat (nat_of_ascii c) in
  if (48 <=? n) && (n <=? 57) then Some (n - 48)
  else if (97 <=? n) && (n <=? 122) then Some (n - 87)
  else if (65 <=? n) && (n <=? 90) then Some (n - 55)
  else None.

(** The longest prefix of [s] made of digits of radix [R]. *)
Fixpoint radixDigits (R : Z) (s : string) : list Z :=
  match s with
  | String c s' =>
      match digitValue c with
      | Some d => if d <? R then d :: radixDigits R s' else []
      | None => []
      end
  | EmptyString => []
  end.

Definition digitsValue (R : Z) (ds : list Z) : Z :=
  fold_left (fun acc d => acc * R + d) ds 0.

(** [parseInt(string)] with no radix argument (ECMA-262, 19.2.5). *)
Definition parseInt_string (s : string) : number :=
  let s1 := trimStart s in
  let '(sign, s2) :=
    match s1 with
    | String "-" r => (-1, r)
    | String "+" r => (1, r)
    | _ => (1, s1)
    end in
  let '(R, s3) :=
    match s2 with
    | String "0" (String "x" r) => (16, r)
    | String "0" (String "X" r) => (16, r)
    | _ => (10, s2)
    end in
  match radixDigits R s3 with
  | [] => NaN
  | ds => Num (sign * digitsValue R ds)
  end.

Definition parseInt (v : value) : number := parseInt_string (ToString v).

(** The numbers amounts are computed with: IEEE 754 binary64, with the
    operations of the Standard Library's specification of floating-point
    arithmetic (rounding to nearest, ties to even). *)
Definition double : Type := SpecFloat.spec_float.

Definition zero : double := SpecFloat.S754_zero false.

(** [a + b] and [a - b]. *)
Definition plus : double → double → double := SpecFloat.SFadd 53 1024.
Definition minus : double → double → double := SpecFloat.SFsub 53 1024.

(** The double nearest to [m / 100]. *)
Definition nearest_hundredths (negative : bool) (m : positive) : double :=
  let '(mz, ez, lz) := SpecFloat.SFdiv_core_binary 53 1024 (Zpos m) 0 100 0 in
  SpecFloat.binary_round_aux 53 1024 negative mz ez lz.

(** [parseFloat(text)] for the text of a NUMERIC value with two decimals,
    which the driver delivers as a string; the value is given in
    hundredths. *)
Definition parseFloat (hundredths : Z) : double :=
  match hundredths with
  | Z0 => zero
  | Zpos m => nearest_hundredths false m
  | Zneg m => nearest_hundredths true m
  end.

(** [s.includes(t)]. *)
Fixpoint includes (s t : string) : bool :=
  String.prefix t s ||
  match s with
  | String _ s' => includes s' t
  | EmptyString => false
  end.

End JS.

Import JS.

(** ** The request *)

Inductive Role := admin | user | read_only.

(** A row of [users] as [authenticateToken] selects it
    ([SELECT id, email, name, role]); it becomes [req.user]. *)
Record User := {
  user_id : Z;
  user_email : string;
  user_name : string;
  user_role : Role
}.

(** [req.query], with the parameters the handlers read. *)
Record Query := {
  q_page : option string;
  q_limit : option string;
  q_category : option string;
  q_type : option string;
  q_search : option string;
  q_start_date : option string;
  q_end_date : option string;
  q_sort_by : option string;
  q_sort_order : option string;
  q_user_id : option string;
  q_period : option string;
  q_months : option string
}.

Definition empty_query : Query :=
  {| q_page := None; q_limit := None; q_category := None; q_type := None;
     q_search := None; q_start_date := None; q_end_date := None;
     q_sort_by := None; q_sort_order := None; q_user_id := None;
     q_period := None; q_months := None |}.

(** A decimal numeral, [dec_units] times 10 to the minus [dec_scale]: what
    [req.body.amount] is when it reaches the statement as a parameter. *)
Record Decimal := {
  dec_units : Z;
  dec_scale : nat
}.

(** An amount with two decimals, given in hundredths. *)
Definition hundredths (z : Z) : Decimal := {| dec_units := z; dec_scale := 2 |}.

(** [req.body]: the fields the transaction and category handlers read. *)
Record Body := {
  b_amount : Decimal;
  b_description : string;
  b_type : string;
  b_category_id : Z;
  b_date : string;
  b_name : string;
  b_color : option string
}.

Record Request := {
  req_user : User;                 (* set by authenticateToken *)
  req_route_path : string;         (* req.route.path, set by the router *)
  req_params_id : option Z;        (* req.params.id *)
  req_query : Query;
  req_body : Body;
  req_errors : list string         (* validationResult(req).array() *)
}.

(** ** The relational store *)

Record Category := {
  cat_id : Z;
  cat_name : string;
  cat_type : string;
  cat_color : option string
}.

Record Transaction := {
  tx_id : Z;
  tx_user_id : Z;
  tx_category_id : Z;
  tx_amount : Z;
  tx_description : string;
  tx_type : string;
  tx_date : string
}.

Record DB := {
  db_users : list User;
  db_categories : list Category;
  db_transactions : list Transaction;
  db_transactions_seq : Z          (* next value of the SERIAL id *)
}.

(** ** Responses *)

(** The [pagination] object of the list answer. *)
Record PageInfo := {
  currentPage : number;
  totalPages : number;
  totalCount : Z;
  limit : number;
  hasNextPage : bool;
  hasPrevPage : bool
}.

Inductive Data :=
  | DTransaction (t : Transaction) (c : option Category)
  | DTransactions (rows : list (Transaction * option Category)) (p : PageInfo)
  | DCategory (c : Category)
  | DOpaque (s : string).          (* a payload of another handler *)

(** The JSON envelope [{success, message, errors, data}]. *)
Record Json := {
  success : option bool;
  message : option string;
  errors : list string;
  data : option Data
}.

Record Response := {
  statusCode : Z;
  json : Json
}.

(** [res.status(code).json({ success: false, message })]. *)
Definition fail (code : Z) (msg : string) : Response :=
  {| statusCode := code;
     json := {| success := Some false; message := Some msg;
                errors := []; data := None |} |}.

(** The answer of the [catch] of a handler: a statement was rejected. *)
Definition internal_error : Response := fail 500 "Internal server error".

Definition validation_failed (errs : list string) : Response :=
  {| statusCode := 400;
     json := {| success := Some false; message := Some "Validation failed";
                errors := errs; data := None |} |}.

Definition ok (code : Z) (msg : option string) (d : option Data) : Response :=
  {| statusCode := code;
     json := {| success := Some true; message := msg;
                errors := []; data := d |} |}.

(** What a middleware does: call [next()] or answer. *)
Inductive Gate := Next | Send (r : Response).

(** ** SQL statements of the handlers *)

Module Sql.

(** A statement parameter taken from [req.params]: [undefined] is sent as
    NULL, and [col = NULL] holds for no row. *)
Definition matches (col : Z) (param : option Z) : Prop := param = Some col.

Global Instance matches_dec col param : Decision (matches col param).
Proof. unfold matches. apply _. Defined.

(** [col != $n]: with NULL the comparison is not true either. *)
Definition differs (col : Z) (param : option Z) : Prop :=
  match param with
  | Some i => col ≠ i
  | None => False
  end.

Global Instance differs_dec col param : Decision (differs col param).
Proof. destruct param; simpl; apply _. Defined.

(** What PostgreSQL reads as INTEGER.  A statement with a parameter outside
    this range is rejected; so is one whose parameter is no integer at all,
    and such a text is stood for by an integer out of range. *)
Definition int4 (z : Z) : bool :=
  (-2147483648 <=? z) && (z <=? 2147483647).

(** A parameter taken from [req.params] that a statement accepts where it
    expects an INTEGER ([undefined] is sent as NULL, which is accepted). *)
Definition readable (id : option Z) : bool :=
  match id with
  | Some z => int4 z
  | None => true
  end.

(** The column [amount DECIMAL(12, 2)] keeps amounts in hundredths: a
    value with more decimals is rounded to two, ties away from zero, and a
    value that then needs more than ten digits before the point is
    rejected. *)
Definition numeric_12_2 (d : Decimal) : Z :=
  let num := dec_units d * 100 in
  let den := 10 ^ Z.of_nat (dec_scale d) in
  Z.sgn num * ((2 * Z.abs num + den) / (2 * den)).

Definition decimal_12_2 (d : Decimal) : bool :=
  Z.abs (numeric_12_2 d) <? 10 ^ 12.

(** [SELECT ... FROM transactions WHERE id = $1]. *)
Definition transactions_by_id (db : DB) (id : option Z) : list Transaction :=
  filter (fun t => matches (tx_id t) id) (db_transactions db).

(** [... WHERE id = $1 AND user_id = $2]. *)
Definition transactions_by_id_user (db : DB) (id : option Z) (uid : Z)
  : list Transaction :=
  filter (fun t => matches (tx_id t) id ∧ tx_user_id t = uid) (db_transactions db).

(** [SELECT id, type FROM categories WHERE id = $1]. *)
Definition categories_by_id (db : DB) (id : option Z) : list Category :=
  filter (fun c => matches (cat_id c) id) (db_categories db).

(** [SELECT id FROM categories WHERE name = $1 AND id != $2]. *)
Definition categories_by_name_except (db : DB) (name : string) (id : option Z)
  : list Category :=
  filter (fun c => cat_name c = name ∧ differs (cat_id c) id) (db_categories db).

(** [SELECT COUNT( * ) FROM transactions WHERE category_id = $1]. *)
Definition count_transactions_of_category (db : DB) (id : option Z) : Z :=
  Z.of_nat (length (filter (fun t => matches (tx_category_id t) id)
                           (db_transactions db))).

(** [SELECT id, email, name, role FROM users WHERE id = $1]; an
    [undefined] parameter is sent as NULL and matches nothing. *)
Definition users_by_id (db : DB) (id : option Z) : list User :=
  match id with
  | Some i => filter (fun u => user_id u = i) (db_users db)
  | None => []
  end.

(** [t LEFT JOIN categories c ON t.category_id = c.id]. *)
Definition left_join_category (db : DB) (t : Transaction) : option Category :=
  head (categories_by_id db (Some (tx_category_id t))).

(** [INSERT INTO transactions (...) VALUES (...) RETURNING id]. *)
Definition insert_transaction (db : DB) (uid : Z) (b : Body) : DB * Transaction :=
  let t := {| tx_id := db_transactions_seq db; tx_user_id := uid;
              tx_category_id := b_category_id b;
              tx_amount := numeric_12_2 (b_amount b);
              tx_description := b_description b; tx_type := b_type b;
              tx_date := b_date b |} in
  ({| db_users := db_users db; db_categories := db_categories db;
      db_transactions := db_transactions db ++ [t];
      db_transactions_seq := db_transactions_seq db + 1 |}, t).

(** [UPDATE transactions SET amount, description, type, category_id, date
    WHERE id = $6]. *)
Definition update_transaction (db : DB) (id : option Z) (b : Body) : DB :=
  {| db_users := db_users db; db_categories := db_categories db;
     db_transactions :=
       map (fun t => if decide (matches (tx_id t) id)
                     then {| tx_id := tx_id t; tx_user_id := tx_user_id t;
                             tx_category_id := b_category_id b;
                             tx_amount := numeric_12_2 (b_amount b);
                             tx_description := b_description b;
                             tx_type := b_type b; tx_date := b_date b |}
                     else t) (db_transactions db);
     db_transactions_seq := db_transactions_seq db |}.

(** [DELETE FROM transactions WHERE id = $1]. *)
Definition delete_transaction (db : DB) (id : option Z) : DB :=
  {| db_users := db_users db; db_categories := db_categories db;
     db_transactions :=
       filter (fun t => ¬ matches (tx_id t) id) (db_transactions db);
     db_transactions_seq := db_transactions_seq db |}.

(** [UPDATE categories SET name = $1, type = $2, color = $3 WHERE id = $4]. *)
Definition update_category (db : DB) (id : option Z) (b : Body) : DB :=
  {| db_users := db_users db;
     db_categories :=
       map (fun c => if decide (matches (cat_id c) id)
                     then {| cat_id := cat_id c; cat_name := b_name b;
                             cat_type := b_type b; cat_color := b_color b |}
                     else c) (db_categories db);
     db_transactions := db_transactions db;
     db_transactions_seq := db_transactions_seq db |}.

(** [DELETE FROM categories WHERE id = $1]. *)
Definition delete_category (db : DB) (id : option Z) : DB :=
  {| db_users := db_users db;
     db_categories :=
       filter (fun c => ¬ matches (cat_id c) id) (db_categories db);
     db_transactions := db_transactions db;
     db_transactions_seq := db_transactions_seq db |}.

End Sql.

(** ** middleware/auth.js *)

Module Auth.

(** What [jsonwebtoken.verify(token, JWT_SECRET)] finds in a token string:
    the library decodes, then checks the signature, then the not-before
    claim, then the expiry.  [NotActive] is a token signed with the secret
    whose not-before claim lies ahead; [Signed] is a token signed with the
    secret and active, with its expiry and the [userId] it carries (an id
    that is no integer is stood for by one out of the INTEGER range). *)
Inductive TokenStatus :=
  | Malformed
  | BadSignature
  | NotActive
  | Signed (expired : bool) (userId : option Z).

(** The [name] of the error thrown. *)
Inductive JwtError := JsonWebTokenError | TokenExpiredError | NotBeforeError.

(** [jwt.verify]: the decoded [userId] claim, or the error thrown. *)
Definition jwt_verify (st : TokenStatus) : JwtError + option Z :=
  match st with
  | Malformed | BadSignature => inl JsonWebTokenError
  | NotActive => inl NotBeforeError
  | Signed true _ => inl TokenExpiredError
  | Signed false uid => inr uid
  end.

(** [s.split(' ')], with the piece being read as accumulator. *)
Fixpoint split_go (s : string) (cur : string) : list string :=
  match s with
  | EmptyString => [String.rev cur]
  | String c s' =>
      if Ascii.eqb c " " then String.rev cur :: split_go s' EmptyString
      else split_go s' (String c cur)
  end.

Definition split_space (s : string) : list string := split_go s EmptyString.

(** [authHeader && authHeader.split(' ')[1]], then [if (!token)]: the
    token, when there is a non-empty one. *)
Definition bearer_token (authHeader : option string) : option string :=
  match authHeader with
  | Some (String c s) =>
      match split_space (String c s) !! 1%nat with
      | Some (String d t) => Some (String d t)
      | _ => None
      end
  | _ => None
  end.

Inductive AuthResult :=
  | Attached (u : User)          (* req.user = row; next() *)
  | Rejected (r : Response).

(** [authenticateToken]: the two names the [catch] knows are answered 401,
    any other error (a token not yet active, a user id the statement
    rejects) 500. *)
Definition authenticateToken (inspect : string → TokenStatus) (db : DB)
    (authHeader : option string) : AuthResult :=
  match bearer_token authHeader with
  | None => Rejected (fail 401 "Access token is required")
  | Some token =>
      match jwt_verify (inspect token) with
      | inl JsonWebTokenError => Rejected (fail 401 "Invalid token")
      | inl TokenExpiredError => Rejected (fail 401 "Token expired")
      | inl NotBeforeError => Rejected (fail 500 "Authentication failed")
      | inr userId =>
          if negb (Sql.readable userId)
          then Rejected (fail 500 "Authentication failed")
          else
            match Sql.users_by_id db userId with
            | [] => Rejected (fail 401 "Invalid token - user not found")
            | row :: _ => Attached row
            end
      end
  end.

Definition role_eqb (a b : Role) : bool :=
  match a, b with
  | admin, admin | user, user | read_only, read_only => true
  | _, _ => false
  end.

(** [requireRole(allowedRoles)], after [authenticateToken] has set
    [req.user] (the 401 answer for a missing [req.user] cannot occur then). *)
Definition requireRole (allowedRoles : list Role) (req : Request) : Gate :=
  if existsb (role_eqb (user_role (req_user req))) allowedRoles
  then Next
  else Send (fail 403 "Insufficient permissions").

Definition requireAdmin := requireRole [admin].
Definition requireUserOrAdmin := requireRole [user; admin].
Definition requireAnyRole := requireRole [admin; user; read_only].

Definition checkDataOwnership (db : DB) (req : Request) : Gate :=
  if role_eqb (user_role (req_user req)) admin then Next
  else
    let id := req_params_id req in
    let userId := user_id (req_user req) in
    if includes (req_route_path req) "/transactions" then
      match id with
      | Some _ =>
          if negb (Sql.readable id)
          then Send (fail 500 "Access verification failed")
          else
            match Sql.transactions_by_id db id with
            | [] => Send (fail 404 "Transaction not found")
            | row :: _ =>
                if decide (tx_user_id row ≠ userId)
                then Send (fail 403 "Access denied - not your transaction")
                else Next
            end
      | None => Next
      end
    else Next.

End Auth.

(** ** controllers/transactionController.js *)

Module TransactionController.

(** [req.user.role === 'admin' ? null : req.user.id]. *)
Definition scope_user (req : Request) : option Z :=
  if Auth.role_eqb (user_role (req_user req)) admin then None
  else Some (user_id (req_user req)).

(** [if (userId)]: [null] and [0] are falsy. *)
Definition truthy_id (userId : option Z) : bool :=
  match userId with
  | Some u => negb (u =? 0)
  | None => false
  end.

(** The existence check shared by the handlers: [WHERE id = $1], with
    [AND user_id = $2] appended when [userId] is truthy. *)
Definition select_existing (db : DB) (req : Request) : list Transaction :=
  let userId := scope_user req in
  if truthy_id userId
  then Sql.transactions_by_id_user db (req_params_id req) (default 0 userId)
  else Sql.transactions_by_id db (req_params_id req).

Definition getTransaction (db : DB) (req : Request) : Response :=
  if negb (Sql.readable (req_params_id req)) then internal_error
  else
    match select_existing db req with
    | [] => fail 404 "Transaction not found"
    | row :: _ =>
        ok 200 None (Some (DTransaction row (Sql.left_join_category db row)))
    end.

(** The category check of create and update, once its statement has been
    accepted. *)
Definition check_category (db : DB) (b : Body) : option Response :=
  match Sql.categories_by_id db (Some (b_category_id b)) with
  | [] => Some (fail 400 "Invalid category ID")
  | c :: _ =>
      if decide (cat_type c ≠ b_type b)
      then Some (fail 400 "Category type does not match transaction type")
      else None
  end.

(** [createTransaction].  The validators let through a [category_id] beyond
    INTEGER and an amount beyond the column, which the statements reject, as
    the INSERT does once the sequence of the SERIAL key is exhausted. *)
Definition createTransaction (db : DB) (req : Request) : DB * Response :=
  match req_errors req with
  | _ :: _ => (db, validation_failed (req_errors req))
  | [] =>
      if negb (Sql.int4 (b_category_id (req_body req))) then (db, internal_error)
      else
        match check_category db (req_body req) with
        | Some r => (db, r)
        | None =>
            if negb (Sql.decimal_12_2 (b_amount (req_body req))
                     && Sql.int4 (db_transactions_seq db))
            then (db, internal_error)
            else
              let '(db', t) :=
                Sql.insert_transaction db (user_id (req_user req)) (req_body req) in
              (db', ok 201 (Some "Transaction created successfully")
                       ((fun t' => DTransaction t' (Sql.left_join_category db' t'))
                          <$> head (Sql.transactions_by_id db' (Some (tx_id t)))))
        end
  end.

Definition updateTransaction (db : DB) (req : Request) : DB * Response :=
  match req_errors req with
  | _ :: _ => (db, validation_failed (req_errors req))
  | [] =>
      if negb (Sql.readable (req_params_id req)) then (db, internal_error)
      else
        match select_existing db req with
        | [] => (db, fail 404 "Transaction not found")
        | _ :: _ =>
            if negb (Sql.int4 (b_category_id (req_body req)))
            then (db, internal_error)
            else
              match check_category db (req_body req) with
              | Some r => (db, r)
              | None =>
                  if negb (Sql.decimal_12_2 (b_amount (req_body req)))
                  then (db, internal_error)
                  else
                    let db' := Sql.update_transaction db (req_params_id req)
                                 (req_body req) in
                    (db', ok 200 (Some "Transaction updated successfully")
                             ((fun t => DTransaction t (Sql.left_join_category db' t))
                                <$> head (Sql.transactions_by_id db'
                                            (req_params_id req))))
              end
        end
  end.

Definition deleteTransaction (db : DB) (req : Request) : DB * Response :=
  if negb (Sql.readable (req_params_id req)) then (db, internal_error)
  else
    match select_existing db req with
    | [] => (db, fail 404 "Transaction not found")
    | _ :: _ =>
        (Sql.delete_transaction db (req_params_id req),
         ok 200 (Some "Transaction deleted successfully") None)
    end.

End TransactionController.

(** ** controllers/categoryController.js *)

Module CategoryController.

Definition updateCategory (db : DB) (req : Request) : DB * Response :=
  match req_errors req with
  | _ :: _ => (db, validation_failed (req_errors req))
  | [] =>
      if negb (Sql.readable (req_params_id req))
      then (db, internal_error)
      else
        match Sql.categories_by_id db (req_params_id req) with
        | [] => (db, fail 404 "Category not found")
        | _ :: _ =>
            match Sql.categories_by_name_except db (b_name (req_body req))
                    (req_params_id req) with
            | _ :: _ =>
                (db, fail 409 "Another category with this name already exists")
            | [] =>
                let db' := Sql.update_category db (req_params_id req)
                             (req_body req) in
                (db', ok 200 (Some "Category updated successfully")
                         (DCategory <$> head (Sql.categories_by_id db'
                                                (req_params_id req))))
            end
        end
  end.

Definition deleteCategory (db : DB) (req : Request) : DB * Response :=
  if negb (Sql.readable (req_params_id req))
  then (db, internal_error)
  else
    match Sql.categories_by_id db (req_params_id req) with
    | [] => (db, fail 404 "Category not found")
    | _ :: _ =>
        if 0 <? Sql.count_transactions_of_category db (req_params_id req)
        then (db, fail 400 "Cannot delete category that is being used in transactions")
        else (Sql.delete_category db (req_params_id req),
              ok 200 (Some "Category deleted successfully") None)
    end.

End CategoryController.

(** ** transactionController.getTransactions: pagination *)

Module Pagination.

(** [const pageNum = Math.max(1, parseInt(page))] with [page = 1].  The
    numbers of this module are the integers read; they are the doubles of
    the code below 2^53, and past that bound the clamps still come out the
    same (see the conventions). *)
Definition pageNum (q : Query) : number :=
  Math_max (Num 1) (parseInt (with_default (q_page q) (VNum 1))).

(** [const limitNum = Math.min(100, Math.max(1, parseInt(limit)))] with
    [limit = 10]. *)
Definition limitNum (q : Query) : number :=
  Math_min (Num 100) (Math_max (Num 1) (parseInt (with_default (q_limit q) (VNum 10)))).

(** [const offset = (pageNum - 1) * limitNum]. *)
Definition offset (q : Query) : number :=
  match pageNum q, limitNum q with
  | Num p, Num l => Num ((p - 1) * l)
  | _, _ => NaN
  end.

(** The clamping property of the specification, as a decidable check. *)
Definition page_ok (n : number) : bool :=
  match n with Num p => 1 <=? p | NaN => false end.

Definition limit_ok (n : number) : bool :=
  match n with Num l => (1 <=? l) && (l <=? 100) | NaN => false end.

End Pagination.

(** ** transactionController.getTransactions: the query and the answer *)

Module TransactionList.

Import Pagination.

(** A statement parameter. *)
Inductive Param := PNumber (n : number) | PString (s : string).

(** The two statements of the handler, by the pieces the code assembles:
    the WHERE clause, the validated ORDER BY column and direction, and the
    parameters (those of the count statement are [queryParams] without the
    last two). *)
Record ListQuery := {
  whereClause : string;
  sortColumn : string;
  sortOrderValue : string;
  limitPlaceholder : string;
  offsetPlaceholder : string;
  queryParams : list Param
}.

(** [req.user.role === 'admin' ? req.query.user_id || req.user.id
    : req.user.id]. *)
Definition target_user (req : Request) : Param :=
  match user_role (req_user req), q_user_id (req_query req) with
  | admin, Some (String c s) => PString (String c s)
  | _, _ => PNumber (Num (user_id (req_user req)))
  end.

(** One optional filter: [if (v) { paramCount++; whereConditions.push(...);
    queryParams.push(...) }]. *)
Definition add_filter (v : option string) (column : string)
    (wrap : string → string)
    (acc : list string * list Param) : list string * list Param :=
  if truthy v
  then ((acc.1 ++ [column +:+ "$" +:+ pretty (Z.of_nat (length acc.2) + 1)])%list,
        (acc.2 ++ [PString (wrap (or_else v ""))])%list)
  else acc.

Fixpoint join (sep : string) (l : list string) : string :=
  match l with
  | [] => ""
  | [x] => x
  | x :: rest => x +:+ sep +:+ join sep rest
  end.

Definition validSortColumns : list string :=
  ["date"; "amount"; "description"; "type"; "created_at"].

Definition validSortOrders : list string := ["asc"; "desc"].

Definition list_query (req : Request) : ListQuery :=
  let q := req_query req in
  let filters :=
    add_filter (q_end_date q) "t.date <= " id
      (add_filter (q_start_date q) "t.date >= " id
         (add_filter (q_search q) "t.description ILIKE "
                     (fun s => "%" +:+ s +:+ "%")
            (add_filter (q_type q) "t.type = " id
               (add_filter (q_category q) "t.category_id = " id
                  (["t.user_id = $1"], [target_user req]))))) in
  let paramCount := Z.of_nat (length filters.2) in
  let sort_by := ToString (with_default (q_sort_by q) (VStr "date")) in
  let sort_order := ToString (with_default (q_sort_order q) (VStr "desc")) in
  {| whereClause := join " AND " filters.1;
     sortColumn :=
       if bool_decide (sort_by ∈ validSortColumns) then sort_by else "date";
     sortOrderValue :=
       if bool_decide (toLowerCase sort_order ∈ validSortOrders)
       then toUpperCase sort_order else "DESC";
     limitPlaceholder := "$" +:+ pretty (paramCount + 1);
     offsetPlaceholder := "$" +:+ pretty (paramCount + 2);
     queryParams :=
       (filters.2 ++ [PNumber (limitNum q); PNumber (offset q)])%list |}.

(** [Math.ceil(totalCount / limitNum)], for the values [limitNum] takes
    (NaN, or an integer from 1 to 100) and a count below 2^46, where the
    rounding of the quotient does not reach the next integer. *)
Definition pages (totalCount : Z) (limitNum : number) : number :=
  match limitNum with
  | Num l => Num ((totalCount + l - 1) / l)
  | NaN => NaN
  end.

(** [getTransactions]: [run] is the database, which answers the two
    statements with the rows and the total, or throws. *)
Definition getTransactions
    (run : ListQuery → option (list (Transaction * option Category) * Z))
    (req : Request) : Response :=
  let q := req_query req in
  match run (list_query req) with
  | None => fail 500 "Internal server error"
  | Some (rows, total) =>
      let totalPages := pages total (limitNum q) in
      ok 200 None
         (Some (DTransactions rows
                  {| currentPage := pageNum q; totalPages := totalPages;
                     totalCount := total; limit := limitNum q;
                     hasNextPage := lt (pageNum q) totalPages;
                     hasPrevPage := lt (Num 1) (pageNum q) |}))
  end.

End TransactionList.

(** ** config/redis.js *)

Module Redis.

Record Entry := {
  entry_value : Json;            (* JSON.stringify(data), parsed back on read *)
  entry_ttl : Z                  (* seconds *)
}.

(** The module-level [client]: [isOpen] is [client && client.isOpen];
    [faulty] makes every command reject, which the helpers catch. *)
Record Client := {
  isOpen : bool;
  faulty : bool;
  store : gmap string Entry
}.

Definition with_store (c : Client) (m : gmap string Entry) : Client :=
  {| isOpen := isOpen c; faulty := faulty c; store := m |}.

(** Glob matching of [KEYS pattern]: [*] is any run of characters, [?] any
    one character, the rest is literal (the patterns built by the code
    contain neither brackets nor backslashes). *)
Fixpoint glob (pattern key : string) : bool :=
  match pattern with
  | EmptyString =>
      match key with EmptyString => true | _ => false end
  | String c p' =>
      if Ascii.eqb c "*" then
        (fix star (k : string) : bool :=
           glob p' k ||
           match k with
           | String _ k' => star k'
           | EmptyString => false
           end) key
      else
        match key with
        | String d k' => (Ascii.eqb c "?" || Ascii.eqb c d) && glob p' k'
        | EmptyString => false
        end
  end.

Definition setCache (c : Client) (key : string) (d : Json) (expiration : Z)
  : Client * bool :=
  if negb (isOpen c) then (c, false)
  else if faulty c then (c, false)
  else (with_store c (<[key := {| entry_value := d; entry_ttl := expiration |}]> (store c)),
        true).

Definition getCache (c : Client) (key : string) : option Json :=
  if negb (isOpen c) then None
  else if faulty c then None
  else entry_value <$> store c !! key.

Definition deleteCache (c : Client) (key : string) : Client * bool :=
  if negb (isOpen c) then (c, false)
  else if faulty c then (c, false)
  else (with_store c (delete key (store c)), true).

Definition deleteCachePattern (c : Client) (pattern : string) : Client * bool :=
  if negb (isOpen c) then (c, false)
  else if faulty c then (c, false)
  else (with_store c (filter (fun kv => glob pattern kv.1 = false) (store c)), true).

End Redis.

(** ** middleware/cache.js *)

Module Cache.

Import Redis.

(** [data.success !== false]. *)
Definition success_not_false (d : Json) : bool :=
  match success d with
  | Some false => false
  | _ => true
  end.

(** [cacheMiddleware(keyGenerator, expiration)]; [next] is the rest of the
    route, which answers through the wrapped [res.json]. *)
Definition cacheMiddleware (keyGenerator : Request → string) (expiration : Z)
    (next : Request → Response) (c : Client) (req : Request)
  : Client * Response :=
  let cacheKey := keyGenerator req in
  match getCache c cacheKey with
  | Some cachedData => (c, {| statusCode := 200; json := cachedData |})
  | None =>
      let r := next req in
      if (statusCode r =? 200) && success_not_false (json r)
      then ((setCache c cacheKey (json r) expiration).1, r)
      else (c, r)
  end.

Definition analyticsKeyGenerator (req : Request) : string :=
  let userId := user_id (req_user req) in
  let period := with_default (q_period (req_query req)) (VStr "month") in
  "analytics:" +:+ pretty userId +:+ ":" +:+ ToString period.

Definition transactionsKeyGenerator (req : Request) : string :=
  let userId := user_id (req_user req) in
  let q := req_query req in
  let page := with_default (q_page q) (VNum 1) in
  let limit := with_default (q_limit q) (VNum 10) in
  "transactions:" +:+ pretty userId +:+ ":" +:+ ToString page +:+ ":"
    +:+ ToString limit +:+ ":" +:+ or_else (q_category q) "all" +:+ ":"
    +:+ or_else (q_type q) "all" +:+ ":" +:+ or_else (q_search q) "none".

Definition categoriesKeyGenerator (req : Request) : string := "categories:all".

Definition userAnalyticsKeyGenerator (req : Request) : string :=
  "user_analytics:" +:+ pretty (user_id (req_user req)).

Definition cacheAnalytics := cacheMiddleware analyticsKeyGenerator (15 * 60).
Definition cacheTransactions := cacheMiddleware transactionsKeyGenerator (5 * 60).
Definition cacheCategories := cacheMiddleware categoriesKeyGenerator (60 * 60).
Definition cacheUserAnalytics := cacheMiddleware userAnalyticsKeyGenerator (15 * 60).

Definition invalidateUserCache (c : Client) (userId : Z) : Client :=
  let c1 := (deleteCachePattern c ("analytics:" +:+ pretty userId +:+ ":*")).1 in
  let c2 := (deleteCachePattern c1 ("transactions:" +:+ pretty userId +:+ ":*")).1 in
  (deleteCachePattern c2 ("user_analytics:" +:+ pretty userId +:+ "*")).1.

Definition invalidateCategoriesCache (c : Client) : Client :=
  (deleteCache c "categories:all").1.

(** [invalidateCacheAfterModification(invalidationFunction)]: the wrapped
    [res.json] runs the invalidation when the answer is a success. *)
Definition invalidateCacheAfterModification {S : Type}
    (invalidationFunction : Client → Request → Client)
    (next : Request → S * Response) (c : Client) (req : Request)
  : Client * (S * Response) :=
  let out := next req in
  let r := out.2 in
  if (200 <=? statusCode r) && (statusCode r <? 300) && success_not_false (json r)
  then (invalidationFunction c req, out)
  else (c, out).

Definition invalidateUserCacheAfterTransaction {S : Type} :=
  @invalidateCacheAfterModification S
    (fun c req => invalidateUserCache c (user_id (req_user req))).

Definition invalidateCategoriesCacheAfterModification {S : Type} :=
  @invalidateCacheAfterModification S (fun c _ => invalidateCategoriesCache c).

End Cache.

(** ** routes/transactions.js: the routes on a single transaction

    The routes are entered after [transactionLimiter] and
    [authenticateToken]; the router sets [req.route] to the matched route,
    whose [path] is the pattern it was declared with (['/'] or ['/:id']): the
    mount point [/api/transactions] of the router is not part of it. *)

Module Routes.

Definition matched (path : string) (req : Request) : Request :=
  {| req_user := req_user req; req_route_path := path;
     req_params_id := req_params_id req; req_query := req_query req;
     req_body := req_body req; req_errors := req_errors req |}.

(** [router.get('/', ..., requireAnyRole, cacheTransactions,
    getTransactions)]. *)
Definition get_list
    (run : TransactionList.ListQuery
           → option (list (Transaction * option Category) * Z))
    (c : Redis.Client) (req : Request) : Redis.Client * Response :=
  let req := matched "/" req in
  match Auth.requireAnyRole req with
  | Send r => (c, r)
  | Next => Cache.cacheTransactions (TransactionList.getTransactions run) c req
  end.

(** [router.get('/:id', ..., requireAnyRole, checkDataOwnership,
    getTransaction)]. *)
Definition get_id (db : DB) (c : Redis.Client) (req : Request)
  : Redis.Client * (DB * Response) :=
  let req := matched "/:id" req in
  match Auth.requireAnyRole req with
  | Send r => (c, (db, r))
  | Next =>
      match Auth.checkDataOwnership db req with
      | Send r => (c, (db, r))
      | Next => (c, (db, TransactionController.getTransaction db req))
      end
  end.

(** [router.post('/', ..., requireUserOrAdmin, transactionValidation,
    invalidateUserCacheAfterTransaction, createTransaction)]. *)
Definition post (db : DB) (c : Redis.Client) (req : Request)
  : Redis.Client * (DB * Response) :=
  let req := matched "/" req in
  match Auth.requireUserOrAdmin req with
  | Send r => (c, (db, r))
  | Next =>
      Cache.invalidateUserCacheAfterTransaction
        (TransactionController.createTransaction db) c req
  end.

(** [router.put('/:id', ..., requireUserOrAdmin, checkDataOwnership,
    transactionValidation, invalidateUserCacheAfterTransaction,
    updateTransaction)]. *)
Definition put_id (db : DB) (c : Redis.Client) (req : Request)
  : Redis.Client * (DB * Response) :=
  let req := matched "/:id" req in
  match Auth.requireUserOrAdmin req with
  | Send r => (c, (db, r))
  | Next =>
      match Auth.checkDataOwnership db req with
      | Send r => (c, (db, r))
      | Next =>
          Cache.invalidateUserCacheAfterTransaction
            (TransactionController.updateTransaction db) c req
      end
  end.

(** [router.delete('/:id', ..., requireUserOrAdmin, checkDataOwnership,
    invalidateUserCacheAfterTransaction, deleteTransaction)]. *)
Definition delete_id (db : DB) (c : Redis.Client) (req : Request)
  : Redis.Client * (DB * Response) :=
  let req := matched "/:id" req in
  match Auth.requireUserOrAdmin req with
  | Send r => (c, (db, r))
  | Next =>
      match Auth.checkDataOwnership db req with
      | Send r => (c, (db, r))
      | Next =>
          Cache.invalidateUserCacheAfterTransaction
            (TransactionController.deleteTransaction db) c req
      end
  end.

End Routes.

(** ** routes/categories.js: the routes that change a category

    Entered after [generalLimiter] and [authenticateToken], like the
    transaction routes. *)

Module CategoryRoutes.

(** [router.put('/:id', ..., requireAdmin, categoryValidation,
    invalidateCategoriesCacheAfterModification, updateCategory)]. *)
Definition put_id (db : DB) (c : Redis.Client) (req : Request)
  : Redis.Client * (DB * Response) :=
  let req := Routes.matched "/:id" req in
  match Auth.requireAdmin req with
  | Send r => (c, (db, r))
  | Next =>
      Cache.invalidateCategoriesCacheAfterModification
        (CategoryController.updateCategory db) c req
  end.

(** [router.delete('/:id', ..., requireAdmin,
    invalidateCategoriesCacheAfterModification, deleteCategory)]. *)
Definition delete_id (db : DB) (c : Redis.Client) (req : Request)
  : Redis.Client * (DB * Response) :=
  let req := Routes.matched "/:id" req in
  match Auth.requireAdmin req with
  | Send r => (c, (db, r))
  | Next =>
      Cache.invalidateCategoriesCacheAfterModification
        (CategoryController.deleteCategory db) c req
  end.

End CategoryRoutes.

(** ** routes/admin.js *)

Module Admin.

Definition validRoles : list string := ["admin"; "user"; "read-only"].

(** The role a name of [validRoles] denotes. *)
Definition role_of (name : string) : Role :=
  if String.eqb name "admin" then admin
  else if String.eqb name "user" then user
  else read_only.

(** [UPDATE users SET role = $1 WHERE id = $2]. *)
Definition update_role (db : DB) (id : option Z) (r : Role) : DB :=
  {| db_users :=
       map (fun u => if decide (Sql.matches (user_id u) id)
                     then {| user_id := user_id u; user_email := user_email u;
                             user_name := user_name u; user_role := r |}
                     else u) (db_users db);
     db_categories := db_categories db;
     db_transactions := db_transactions db;
     db_transactions_seq := db_transactions_seq db |}.

(** [DELETE FROM users WHERE id = $1]; [transactions.user_id] references
    [users(id)] with [ON DELETE CASCADE]. *)
Definition delete_user (db : DB) (id : option Z) : DB :=
  {| db_users := filter (fun u => ¬ Sql.matches (user_id u) id) (db_users db);
     db_categories := db_categories db;
     db_transactions :=
       filter (fun t => ¬ Sql.matches (tx_user_id t) id) (db_transactions db);
     db_transactions_seq := db_transactions_seq db |}.

(** The handler of [PUT /users/:id/role]: [role] is [req.body.role]; the
    answer comes with its [data.user], the row the statement returns. *)
Definition updateUserRole (db : DB) (req : Request) (role : option string)
  : DB * (Response * option User) :=
  let id := req_params_id req in
  match role with
  | Some name =>
      if bool_decide (name ∈ validRoles) then
        if negb (Sql.readable id) then (db, (internal_error, None))
        else
          match Sql.users_by_id db id with
          | [] => (db, (fail 404 "User not found", None))
          | u :: _ =>
              if decide (user_id u = user_id (req_user req))
              then (db, (fail 400 "Cannot change your own role", None))
              else
                let db' := update_role db id (role_of name) in
                (db', (ok 200 (Some "User role updated successfully") None,
                       head (Sql.users_by_id db' id)))
          end
      else (db, (fail 400 "Invalid role specified", None))
  | None => (db, (fail 400 "Invalid role specified", None))
  end.

(** The handler of [DELETE /users/:id].  The two statements receive the
    text of [req.params.id] and compare it as the database reads it,
    [req_params_id req]; the guard against deleting oneself compares
    [parseInt(id)], JavaScript's reading of the same text [id_text], with
    [req.user.id]. *)
Definition deleteUser (db : DB) (req : Request) (id_text : string)
  : DB * Response :=
  let id := req_params_id req in
  if negb (Sql.readable id) then (db, internal_error)
  else
    match Sql.users_by_id db id with
    | [] => (db, fail 404 "User not found")
    | _ :: _ =>
        if decide (JS.parseInt (VStr id_text) = Num (user_id (req_user req)))
        then (db, fail 400 "Cannot delete your own account")
        else (delete_user db id, ok 200 (Some "User deleted successfully") None)
    end.

(** [router.put('/users/:id/role', ..., requireAdmin, handler)]. *)
Definition put_users_id_role (db : DB) (req : Request) (role : option string)
  : DB * (Response * option User) :=
  match Auth.requireAdmin req with
  | Send r => (db, (r, None))
  | Next => updateUserRole db req role
  end.

(** [router.delete('/users/:id', ..., requireAdmin, handler)]. *)
Definition delete_users_id (db : DB) (req : Request) (id_text : string)
  : DB * Response :=
  match Auth.requireAdmin req with
  | Send r => (db, r)
  | Next => deleteUser db req id_text
  end.

End Admin.

(** ** frontend: the request interceptor of the API client *)

Module ApiClient.

(** [if (token) config.headers.Authorization = `Bearer ${token}`]: [token]
    is [localStorage.getItem('token')]. *)
Definition authorization (token : option string) : option string :=
  match token with
  | Some (String c t) => Some ("Bearer " +:+ String c t)
  | _ => None
  end.

End ApiClient.

(** ** controllers/analyticsController.js *)

Module Analytics.

(** A [Date], by its calendar fields: [month] is 0-based as in
    [getMonth()].  The server's zone is taken to be UTC, so that the local
    fields ([getMonth], [setMonth]) and [toISOString] describe the same
    calendar day, and the time of day plays no role. *)
Record Date := {
  year : Z;
  month : Z;
  day : Z
}.

Definition isLeapYear (y : Z) : bool :=
  ((y mod 4 =? 0) && negb (y mod 100 =? 0)) || (y mod 400 =? 0).

Definition daysInMonth (y m : Z) : Z :=
  if m =? 1 then (if isLeapYear y then 29 else 28)
  else if (m =? 3) || (m =? 5) || (m =? 8) || (m =? 10) then 30
  else 31.

(** [MakeDay(year, month, date)] for a day of the month between 1 and 31:
    the month carries into the year, and a day past the end of the month
    carries into the next month. *)
Definition MakeDay (y m d : Z) : Date :=
  let y1 := y + m / 12 in
  let m1 := m mod 12 in
  if d <=? daysInMonth y1 m1
  then {| year := y1; month := m1; day := d |}
  else {| year := y1 + (m1 + 1) / 12; month := (m1 + 1) mod 12;
          day := d - daysInMonth y1 m1 |}.

Definition getMonth (dt : Date) : Z := month dt.

(** [dt.setMonth(m)]: the year and the day of the month are kept. *)
Definition setMonth (dt : Date) (m : Z) : Date := MakeDay (year dt) m (day dt).

(** Decimal digits, least significant first, padded to [width]. *)
Fixpoint padded (width : nat) (n : Z) (acc : string) : string :=
  match width with
  | O => acc
  | S w => padded w (n / 10) (String (pretty_N_char (Z.to_N (n mod 10))) acc)
  end.

(** [dt.toISOString().slice(0, 7)], for years 0 to 9999. *)
Definition monthKey (dt : Date) : string :=
  padded 4 (year dt) ("-" +:+ padded 2 (month dt + 1) "").

(** A row of [trendsQuery]; totals in hundredths. *)
Record TrendRow := {
  row_month : Date;
  row_type : string;
  row_total : Z
}.

Record MonthData := {
  income : double;
  expense : double;
  balance : double
}.

Record Trend := {
  trend_month : string;
  trend_income : double;
  trend_expense : double;
  trend_balance : double
}.

(** [monthlyData[monthKey][row.type] = total]; the column admits only the
    two kinds. *)
Definition set_kind (d : MonthData) (kind : string) (total : double)
  : MonthData :=
  if String.eqb kind "income"
  then {| income := total; expense := expense d; balance := balance d |}
  else if String.eqb kind "expense"
  then {| income := income d; expense := total; balance := balance d |}
  else d.

(** The body of [result.rows.forEach]. *)
Definition add_row (monthlyData : gmap string MonthData) (row : TrendRow)
  : gmap string MonthData :=
  let key := monthKey (row_month row) in
  let cur := default {| income := zero; expense := zero; balance := zero |}
                     (monthlyData !! key) in
  <[key := set_kind cur (row_type row) (parseFloat (row_total row))]>
    monthlyData.

Definition monthsBack (q : Query) : number :=
  Math_min (Num 24) (Math_max (Num 1) (parseInt (with_default (q_months q) (VNum 12)))).

(** One turn of the filling loop, for index [i]. *)
Definition trend_at (monthlyData : gmap string MonthData) (startDate : Date)
    (i : Z) : Trend :=
  let currentDate := setMonth startDate (getMonth startDate + i) in
  let key := monthKey currentDate in
  let monthData := default {| income := zero; expense := zero; balance := zero |}
                           (monthlyData !! key) in
  {| trend_month := key; trend_income := income monthData;
     trend_expense := expense monthData;
     trend_balance := minus (income monthData) (expense monthData) |}.

(** [getMonthlyTrends]: [now] is [new Date()], [rows] the result of
    [trendsQuery]; the answer is [data.trends], or [None] for the 500 of the
    [catch].  The statement carries [monthsBack] in its text
    ([INTERVAL '${monthsBack} months']): with [monthsBack] NaN it is
    rejected, and there are no rows to process. *)
Definition getMonthlyTrends (now : Date) (rows : list TrendRow) (q : Query)
  : option (list Trend) :=
  match monthsBack q with
  | NaN => None
  | Num n =>
      let monthlyData := fold_left add_row rows ∅ in
      let startDate := setMonth now (getMonth now - n) in
      Some (map (fun i => trend_at monthlyData startDate (Z.of_nat i))
                (seq 0 (Z.to_nat n)))
  end.

(** The budget row mapping of [getBudgetAnalysis]: [budget_percentage] is
    the two-decimal value the query rounds to. *)
Definition gt (a b : Q) : bool := negb (Qle_bool a b).

Definition status (budget_percentage : Q) : string :=
  if gt budget_percentage (100 # 1) then "over"
  else if gt budget_percentage (80 # 1) then "warning"
  else "good".

Record BudgetRow := {
  br_id : Z;
  br_name : string;
  br_current_amount : Q;
  br_budget_amount : Q;
  br_budget_percentage : Q
}.

Record BudgetEntry := {
  categoryId : Z;
  categoryName : string;
  currentAmount : Q;
  budgetAmount : Q;
  budgetPercentage : Q;
  budgetStatus : string
}.

Definition budgetAnalysis (rows : list BudgetRow) : list BudgetEntry :=
  map (fun row =>
         {| categoryId := br_id row; categoryName := br_name row;
            currentAmount := br_current_amount row;
            budgetAmount := br_budget_amount row;
            budgetPercentage := br_budget_percentage row;
            budgetStatus := status (br_budget_percentage row) |}) rows.

End Analytics.

(** ** controllers/analyticsController.js: the date windows *)

Module AnalyticsWindow.

Import Analytics.

(** [new Date(y, m, d)] and [setDate(d)] for a day from -27 to 31: day 0 is
    the last day of the month before, and the days below count back from
    it. *)
Definition newDate (y m d : Z) : Date :=
  if 1 <=? d then MakeDay y m d
  else
    let p := MakeDay y (m - 1) 1 in
    {| year := year p; month := month p;
       day := daysInMonth (year p) (month p) + d |}.

(** [const { period = 'month' } = req.query]. *)
Definition period (q : Query) : string :=
  ToString (with_default (q_period q) (VStr "month")).

(** The [switch (period)] of [getDashboardAnalytics]: [startDate] and
    [endDate]. *)
Definition dashboardRange (now : Date) (q : Query) : Date * Date :=
  let p := period q in
  if String.eqb p "week" then
    (newDate (year now) (month now) (day now - 7), now)
  else if String.eqb p "month" then
    (newDate (year now) (month now) 1, newDate (year now) (month now + 1) 0)
  else if String.eqb p "quarter" then
    let quarter := month now / 3 in
    (newDate (year now) (quarter * 3) 1,
     newDate (year now) ((quarter + 1) * 3) 0)
  else if String.eqb p "year" then
    (newDate (year now) 0 1, newDate (year now) 11 31)
  else
    (newDate (year now) (month now) 1, newDate (year now) (month now + 1) 0).

(** The [switch (period)] of [getSpendingPatterns]: [startDate]. *)
Definition patternsStart (now : Date) (q : Query) : Date :=
  let p := period q in
  if String.eqb p "week" then newDate (year now) (month now) (day now - 7)
  else if String.eqb p "quarter" then
    let quarter := month now / 3 in newDate (year now) (quarter * 3) 1
  else if String.eqb p "year" then newDate (year now) 0 1
  else newDate (year now) (month now) 1.

(** The [switch (period)] of [getBudgetAnalysis]: there is no week. *)
Definition budgetRange (now : Date) (q : Query) : Date * Date :=
  let p := period q in
  if String.eqb p "month" then
    (newDate (year now) (month now) 1, newDate (year now) (month now + 1) 0)
  else if String.eqb p "quarter" then
    let quarter := month now / 3 in
    (newDate (year now) (quarter * 3) 1,
     newDate (year now) ((quarter + 1) * 3) 0)
  else if String.eqb p "year" then
    (newDate (year now) 0 1, newDate (year now) 11 31)
  else
    (newDate (year now) (month now) 1, newDate (year now) (month now + 1) 0).

End AnalyticsWindow.

(** ** transactionController.getTransactionSummary and the summary of
    analyticsController.getDashboardAnalytics *)

Module Summary.

Import TransactionList.

(** A row of [summaryQuery]; totals in hundredths. *)
Record SummaryRow := {
  sr_type : string;
  sr_count : Z;
  sr_total : Z
}.

Record Bucket := {
  bucket_count : Z;
  bucket_total : double
}.

Record Summary := {
  summary_income : Bucket;
  summary_expense : Bucket;
  summary_balance : double
}.

Definition amounts (l : list Transaction) : Z :=
  foldr (fun t acc => tx_amount t + acc) 0 l.

(** [summary[row.type] = { count: parseInt(row.count), total:
    parseFloat(row.total) }]; the column admits only the two kinds. *)
Definition set_bucket (s : Summary) (row : SummaryRow) : Summary :=
  let b := {| bucket_count := sr_count row;
              bucket_total := parseFloat (sr_total row) |} in
  if String.eqb (sr_type row) "income"
  then {| summary_income := b; summary_expense := summary_expense s;
          summary_balance := summary_balance s |}
  else if String.eqb (sr_type row) "expense"
  then {| summary_income := summary_income s; summary_expense := b;
          summary_balance := summary_balance s |}
  else s.

(** The part of the handlers after the statement. *)
Definition summarize (rows : list SummaryRow) : Summary :=
  let none := {| bucket_count := 0; bucket_total := zero |} in
  let s := fold_left set_bucket rows
             {| summary_income := none; summary_expense := none;
                summary_balance := zero |} in
  {| summary_income := summary_income s; summary_expense := summary_expense s;
     summary_balance := minus (bucket_total (summary_income s))
                              (bucket_total (summary_expense s)) |}.

(** [SELECT type, COUNT( * ), COALESCE(SUM(amount), 0) ... GROUP BY type]
    over the selected rows: one row per kind that occurs. *)
Definition group_by_type (sel : list Transaction) : list SummaryRow :=
  map (fun kind =>
         let g := filter (fun t => tx_type t = kind) sel in
         {| sr_type := kind; sr_count := Z.of_nat (length g);
            sr_total := amounts g |})
      (remove_dups (tx_type <$> sel)).

Section Statement.

(** What PostgreSQL decides: the order of two DATE values given as text,
    whether a text is read as a DATE at all (the statement is rejected when
    it is not), and the INTEGER a text parameter is cast to (none is an
    error). *)
Variable date_le : string → string → bool.
Variable reads_date : string → bool.
Variable to_integer : string → option Z.

Definition user_param (p : Param) : option Z :=
  match p with
  | PNumber (Num i) => Some i
  | PNumber NaN => None
  | PString s => to_integer s
  end.

(** [date >= $n] and [date <= $n], each present when its parameter is. *)
Definition in_window (start_date end_date : option string) (t : Transaction)
  : bool :=
  (if truthy start_date then date_le (or_else start_date "") (tx_date t)
   else true)
  && (if truthy end_date then date_le (tx_date t) (or_else end_date "")
      else true).

(** [FROM transactions WHERE user_id = $1 AND ...]. *)
Definition selected (db : DB) (uid : Z) (start_date end_date : option string)
  : list Transaction :=
  filter (fun t => tx_user_id t = uid ∧ in_window start_date end_date t = true)
         (db_transactions db).

(** The date parameters that the statement receives are read as dates. *)
Definition dates_read (q : Query) : bool :=
  (if truthy (q_start_date q) then reads_date (or_else (q_start_date q) "")
   else true)
  && (if truthy (q_end_date q) then reads_date (or_else (q_end_date q) "")
      else true).

(** [getTransactionSummary]: the answer and its [data.summary]; a statement
    that is rejected ends in the [catch]. *)
Definition getTransactionSummary (db : DB) (req : Request)
  : Response * option Summary :=
  let q := req_query req in
  match user_param (target_user req) with
  | None => (internal_error, None)
  | Some uid =>
      if negb (dates_read q) then (internal_error, None)
      else
        (ok 200 None None,
         Some (summarize (group_by_type
                            (selected db uid (q_start_date q) (q_end_date q)))))
  end.

End Statement.

End Summary.

(** ** controllers/categoryController.js: reading and creating *)

Module Categories.

(** [SELECT id FROM categories WHERE name = $1]. *)
Definition categories_by_name (db : DB) (name : string) : list Category :=
  filter (fun c => cat_name c = name) (db_categories db).

(** [INSERT INTO categories (name, type, color) VALUES ($1, $2, $3)
    RETURNING ...], with [color = '#6366f1'] by default; [id] is the value
    the sequence of the SERIAL key hands out. *)
Definition insert_category (db : DB) (id : Z) (b : Body) : DB * Category :=
  let c := {| cat_id := id; cat_name := b_name b; cat_type := b_type b;
              cat_color := Some (match b_color b with
                                 | Some color => color
                                 | None => "#6366f1"
                                 end) |} in
  ({| db_users := db_users db;
      db_categories := (db_categories db ++ [c])%list;
      db_transactions := db_transactions db;
      db_transactions_seq := db_transactions_seq db |}, c).

Definition getCategory (db : DB) (req : Request) : Response :=
  if negb (Sql.readable (req_params_id req)) then internal_error
  else
    match Sql.categories_by_id db (req_params_id req) with
    | [] => fail 404 "Category not found"
    | c :: _ => ok 200 None (Some (DCategory c))
    end.

Definition createCategory (db : DB) (id : Z) (req : Request) : DB * Response :=
  match req_errors req with
  | _ :: _ => (db, validation_failed (req_errors req))
  | [] =>
      match categories_by_name db (b_name (req_body req)) with
      | _ :: _ => (db, fail 409 "Category with this name already exists")
      | [] =>
          if negb (Sql.int4 id) then (db, internal_error)
          else
            let (db', c) := insert_category db id (req_body req) in
            (db', ok 201 (Some "Category created successfully")
                     (Some (DCategory c)))
      end
  end.

End Categories.

(** ** analyticsController.getSpendingPatterns *)

Module SpendingPatterns.

(** A row of [patternsQuery]; totals in hundredths. *)
Record PatternRow := {
  day_of_week : Z;
  hour_of_day : Z;
  pattern_type : string;
  transaction_count : Z;
  total_amount : Z
}.

(** [{ income, expense, count }]. *)
Record Slot := {
  slot_income : double;
  slot_expense : double;
  slot_count : Z
}.

(** [patterns]: [byDayOfWeek] by day name in the order of [dayNames],
    [byHourOfDay] by hour from 0 to 23, and [byType]. *)
Record Patterns := {
  byDayOfWeek : list (string * Slot);
  byHourOfDay : list Slot;
  byType_income : double;
  byType_expense : double
}.

Definition dayNames : list string :=
  ["Sunday"; "Monday"; "Tuesday"; "Wednesday"; "Thursday"; "Friday";
   "Saturday"].

Definition empty_slot : Slot :=
  {| slot_income := zero; slot_expense := zero; slot_count := 0 |}.

Definition initial : Patterns :=
  {| byDayOfWeek := map (fun d => (d, empty_slot)) dayNames;
     byHourOfDay := replicate 24 empty_slot;
     byType_income := zero; byType_expense := zero |}.

(** [slot[type] += total; slot.count += count]; the column admits only the
    two kinds. *)
Definition add_to (s : Slot) (kind : string) (total : double) (count : Z)
  : Slot :=
  if String.eqb kind "income"
  then {| slot_income := plus (slot_income s) total;
          slot_expense := slot_expense s;
          slot_count := slot_count s + count |}
  else if String.eqb kind "expense"
  then {| slot_income := slot_income s;
          slot_expense := plus (slot_expense s) total;
          slot_count := slot_count s + count |}
  else {| slot_income := slot_income s; slot_expense := slot_expense s;
          slot_count := slot_count s + count |}.

(** [a[i]] for a number [i]: [undefined] outside the array. *)
Definition at_index {A} (l : list A) (i : Z) : option A :=
  if 0 <=? i then l !! Z.to_nat i else None.

(** The body of [result.rows.forEach]; reading a field of [undefined]
    throws. *)
Definition add_pattern (p : Patterns) (row : PatternRow) : option Patterns :=
  let kind := pattern_type row in
  let count := transaction_count row in
  let total := parseFloat (total_amount row) in
  match at_index (byDayOfWeek p) (day_of_week row),
        at_index (byHourOfDay p) (hour_of_day row) with
  | Some (dayName, d), Some h =>
      Some {| byDayOfWeek :=
                <[Z.to_nat (day_of_week row) := (dayName, add_to d kind total count)]>
                  (byDayOfWeek p);
              byHourOfDay :=
                <[Z.to_nat (hour_of_day row) := add_to h kind total count]>
                  (byHourOfDay p);
              byType_income :=
                if String.eqb kind "income" then plus (byType_income p) total
                else byType_income p;
              byType_expense :=
                if String.eqb kind "expense" then plus (byType_expense p) total
                else byType_expense p |}
  | _, _ => None
  end.

(** [patterns] after the loop, or nothing when the loop throws (the answer
    is then 500). *)
Definition getSpendingPatterns (rows : list PatternRow) : option Patterns :=
  fold_left (fun acc row =>
               match acc with
               | Some p => add_pattern p row
               | None => None
               end) rows (Some initial).

End SpendingPatterns.

(** ** frontend: the permission helper of the auth context *)

Module AuthContext.

(** [canPerformAction(action)]. *)
Definition canPerformAction (state_user : option User) (action : string)
  : bool :=
  match state_user with
  | None => false
  | Some u =>
      let userRole := user_role u in
      if String.eqb action "create" || String.eqb action "update"
         || String.eqb action "delete"
      then Auth.role_eqb userRole admin || Auth.role_eqb userRole user
      else if String.eqb action "read" then true
      else false
  end.

End AuthContext.

(** ** Sample requests and stores *)

Definition with_page_limit (page limit : option string) : Query :=
  {| q_page := page; q_limit := limit; q_category := None; q_type := None;
     q_search := None; q_start_date := None; q_end_date := None;
     q_sort_by := None; q_sort_order := None; q_user_id := None;
     q_period := None; q_months := None |}.

Definition with_months (months : option string) : Query :=
  {| q_page := None; q_limit := None; q_category := None; q_type := None;
     q_search := None; q_start_date := None; q_end_date := None;
     q_sort_by := None; q_sort_order := None; q_user_id := None;
     q_period := None; q_months := months |}.

Definition with_dates (start_date end_date : option string) : Query :=
  {| q_page := None; q_limit := None; q_category := None; q_type := None;
     q_search := None; q_start_date := start_date; q_end_date := end_date;
     q_sort_by := None; q_sort_order := None; q_user_id := None;
     q_period := None; q_months := None |}.

Definition alice : User :=
  {| user_id := 1; user_email := "alice@example.com"; user_name := "Alice";
     user_role := user |}.

Definition bob : User :=
  {| user_id := 2; user_email := "bob@example.com"; user_name := "Bob";
     user_role := user |}.

Definition root : User :=
  {| user_id := 3; user_email := "admin@financetracker.com";
     user_name := "Admin User"; user_role := admin |}.

Definition salary : Category :=
  {| cat_id := 1; cat_name := "Salary"; cat_type := "income";
     cat_color := Some "#10b981" |}.

Definition food : Category :=
  {| cat_id := 5; cat_name := "Food & Dining"; cat_type := "expense";
     cat_color := Some "#ef4444" |}.

Definition paycheck : Transaction :=
  {| tx_id := 1; tx_user_id := 1; tx_category_id := 1; tx_amount := 100000;
     tx_description := "January pay"; tx_type := "income";
     tx_date := "2024-01-15" |}.

Definition sample_db : DB :=
  {| db_users := [alice; bob; root]; db_categories := [salary; food];
     db_transactions := [paycheck]; db_transactions_seq := 2 |}.

Definition lunch : Body :=
  {| b_amount := hundredths 1250; b_description := "Lunch"; b_type := "expense";
     b_category_id := 5; b_date := "2024-02-01"; b_name := "";
     b_color := None |}.

(** A request on [/api/transactions/:id] by [u], as it leaves
    [authenticateToken]. *)
Definition on_transaction (u : User) (id : Z) (b : Body) (errs : list string)
  : Request :=
  {| req_user := u; req_route_path := ""; req_params_id := Some id;
     req_query := empty_query; req_body := b; req_errors := errs |}.

(** A request on [/api/transactions] by [u]. *)
Definition on_list (u : User) (q : Query) : Request :=
  {| req_user := u; req_route_path := "/"; req_params_id := None;
     req_query := q; req_body := lunch; req_errors := [] |}.

Definition connected (m : gmap string Redis.Entry) : Redis.Client :=
  {| Redis.isOpen := true; Redis.faulty := false; Redis.store := m |}.

Definition page_of (rows : list (Transaction * option Category)) : Response :=
  ok 200 None
     (Some (DTransactions rows
              {| currentPage := Num 1; totalPages := Num 1;
                 totalCount := Z.of_nat (length rows); limit := Num 10;
                 hasNextPage := false; hasPrevPage := false |})).

Definition seeded_admin : User :=
  {| user_id := 1; user_email := "admin@financetracker.com";
     user_name := "Admin User"; user_role := admin |}.

Definition carol : User :=
  {| user_id := 12; user_email := "carol@example.com"; user_name := "Carol";
     user_role := user |}.

Definition rent : Transaction :=
  {| tx_id := 7; tx_user_id := 12; tx_category_id := 5; tx_amount := 90000;
     tx_description := "Rent"; tx_type := "expense"; tx_date := "2024-02-01" |}.

Definition seeded_db : DB :=
  {| db_users := [seeded_admin; carol]; db_categories := [salary; food];
     db_transactions := [rent]; db_transactions_seq := 8 |}.

Definition cached (s : string) (ttl : Z) : Redis.Entry :=
  {| Redis.entry_value := json (ok 200 None (Some (DOpaque s)));
     Redis.entry_ttl := ttl |}.

(** Admin renames nothing but flips the kind of [Salary]. *)
Definition flip_salary : Request :=
  {| req_user := root; req_route_path := "/:id"; req_params_id := Some 1;
     req_query := empty_query;
     req_body := {| b_amount := hundredths 0; b_description := ""; b_type := "expense";
                    b_category_id := 0; b_date := ""; b_name := "Salary";
                    b_color := Some "#10b981" |};
     req_errors := [] |}.

(** ** Predicates of the statements *)

(** The invariant of the data model: a transaction has the kind of the
    category it references. *)
Definition kinds_agree (db : DB) : Prop :=
  Forall (fun t =>
            Forall (fun c => cat_id c = tx_category_id t → cat_type c = tx_type t)
                   (db_categories db))
         (db_transactions db).

Global Instance kinds_agree_dec db : Decision (kinds_agree db).
Proof. unfold kinds_agree. apply _. Defined.

(** [categories.id] is the primary key. *)
Definition category_ids_unique (db : DB) : Prop :=
  NoDup (cat_id <$> db_categories db).

(** Characters of a string. *)
Fixpoint all_chars (P : ascii → bool) (s : string) : bool :=
  match s with
  | EmptyString => true
  | String c s' => P c && all_chars P s'
  end.

Definition is_digit_or_dash (c : ascii) : bool :=
  match Ascii.is_nat c with
  | Some _ => true
  | None => Ascii.eqb c "-"
  end.

(** Characters that stand for themselves in a glob pattern. *)
Definition is_literal (c : ascii) : bool :=
  negb (Ascii.eqb c "*") && negb (Ascii.eqb c "?").

(** The three patterns of [invalidateUserCache]. *)
Definition caller_pattern (userId : Z) (key : string) : bool :=
  Redis.glob ("analytics:" +:+ pretty userId +:+ ":*") key
  || Redis.glob ("transactions:" +:+ pretty userId +:+ ":*") key
  || Redis.glob ("user_analytics:" +:+ pretty userId +:+ "*") key.

(** ** Well-formedness of the store

    What the schema guarantees ([id] is the primary key of both tables, ids
    come from a sequence) and what the handlers are meant to keep. *)

(** [transactions.id] is the primary key. *)
Definition transaction_ids_unique (db : DB) : Prop :=
  NoDup (tx_id <$> db_transactions db).

(** Every id handed out is below the next value of the sequence. *)
Definition ids_below_seq (db : DB) : Prop :=
  Forall (fun t => tx_id t < db_transactions_seq db) (db_transactions db).

(** [category_id REFERENCES categories(id)]. *)
Definition categories_exist (db : DB) : Prop :=
  Forall (fun t => Exists (fun c => cat_id c = tx_category_id t) (db_categories db))
         (db_transactions db).

(** [categories.name] is UNIQUE. *)
Definition category_names_unique (db : DB) : Prop :=
  NoDup (cat_name <$> db_categories db).

(** The store as the schema and the handlers' checks mean it to be. *)
Definition consistent (db : DB) : Prop :=
  category_ids_unique db ∧ transaction_ids_unique db ∧ ids_below_seq db ∧
  categories_exist db ∧ kinds_agree db.

(** The rows of the users other than [uid]. *)
Definition rows_of_others (uid : Z) (db : DB) : list Transaction :=
  filter (fun t => tx_user_id t ≠ uid) (db_transactions db).

(** The same request on another [:id]. *)
Definition for_id (req : Request) (id : Z) : Request :=
  {| req_user := req_user req; req_route_path := req_route_path req;
     req_params_id := Some id; req_query := req_query req;
     req_body := req_body req; req_errors := req_errors req |}.

(** A client whose commands go through. *)
Definition working (c : Redis.Client) : Prop :=
  Redis.isOpen c = true ∧ Redis.faulty c = false.

(** The keys under the three prefixes that [invalidateUserCache] builds its
    patterns from: [analytics:<id>:], [transactions:<id>:] and
    [user_analytics:<id>]. *)
Definition under_prefix (userId : Z) (key : string) : Prop :=
  (∃ rest, key = "analytics:" +:+ pretty userId +:+ ":" +:+ rest) ∨
  (∃ rest, key = "transactions:" +:+ pretty userId +:+ ":" +:+ rest) ∨
  (∃ rest, key = "user_analytics:" +:+ pretty userId +:+ rest).

(** The keys the routes write.  Three caching middlewares are mounted:
    [cacheTransactions] on [GET /api/transactions], [cacheAnalytics] on
    [GET /api/analytics/dashboard] and [cacheCategories] on
    [GET /api/categories]; [cacheUserAnalytics] is exported by
    middleware/cache.js and mounted on no route, and nothing else calls
    [setCache]. *)
Definition route_key (key : string) : Prop :=
  (∃ req, key = Cache.transactionsKeyGenerator req) ∨
  (∃ req, key = Cache.analyticsKeyGenerator req) ∨
  (∃ req, key = Cache.categoriesKeyGenerator req).

(** A cache as the routes build it: every entry sits under a key that one
    of the mounted middlewares writes. *)
Definition route_built (c : Redis.Client) : Prop :=
  ∀ key e, Redis.store c !! key = Some e → route_key key.

(** The three routes that change a transaction. *)
Definition mutating_routes
  : list (DB → Redis.Client → Request → Redis.Client * (DB * Response)) :=
  [Routes.post; Routes.put_id; Routes.delete_id].

(** [res.statusCode >= 200 && res.statusCode < 300 && data.success !==
    false]: the answers after which the invalidation runs. *)
Definition is_success (r : Response) : bool :=
  (200 <=? statusCode r) && (statusCode r <? 300)
  && Cache.success_not_false (json r).

(** The rows of [trendsQuery] for one month key and one kind, and the total
    the series reports for them: the loop overwrites, so the last row counts
    (the statement groups by month and kind, so there is at most one). *)
Definition rows_of (key kind : string) (rows : list Analytics.TrendRow)
  : list Analytics.TrendRow :=
  filter (fun r => Analytics.monthKey (Analytics.row_month r) = key
                   ∧ Analytics.row_type r = kind) rows.

Definition reported (rows : list Analytics.TrendRow) : double :=
  match last rows with
  | Some r => parseFloat (Analytics.row_total r)
  | None => zero
  end.

(** Every transaction has its owner among the users (the foreign key of
    [transactions.user_id]). *)
Definition owners_exist (db : DB) : Prop :=
  Forall (fun t => Exists (fun u => user_id u = tx_user_id t) (db_users db))
         (db_transactions db).

(** [users.id] is the primary key. *)
Definition user_ids_unique (db : DB) : Prop :=
  NoDup (user_id <$> db_users db).

Global Instance Role_eq_dec : EqDecision Role.
Proof. solve_decision. Defined.

Global Instance User_eq_dec : EqDecision User.
Proof. solve_decision. Defined.

(** JavaScript and the database read the text of a path parameter alike:
    when the database reads [id_text] as the integer [i], so does
    [parseInt].  It holds of plain decimal numerals; it fails where the
    database accepts more of the text than [parseInt] consumes. *)
Definition read_alike (id_text : string) (id : option Z) : Prop :=
  ∀ i, id = Some i → Sql.int4 i = true → JS.parseInt (VStr id_text) = Num i.

Definition has_admin (db : DB) : Prop :=
  Exists (fun u => user_role u = admin) (db_users db).

Definition no_space (c : ascii) : bool := negb (Ascii.eqb c " ").

(** The header carries [token]: the text between its first space and the
    next one (or the end) is [token], and it is not empty. *)
Definition carries (authHeader : option string) (token : string) : Prop :=
  ∃ scheme tail,
    authHeader = Some (scheme +:+ " " +:+ token +:+ tail) ∧
    all_chars no_space scheme = true ∧ all_chars no_space token = true ∧
    token ≠ "" ∧ (tail = "" ∨ ∃ rest, tail = " " +:+ rest).

(** [u] is the first row of [users] whose id is [uid]. *)
Definition first_user (db : DB) (uid : Z) (u : User) : Prop :=
  ∃ before after,
    db_users db = (before ++ u :: after)%list ∧ user_id u = uid ∧
    Forall (fun v => user_id v ≠ uid) before.

(** No row of [users] has the id [uid] ([None] is a token without one). *)
Definition no_user (db : DB) (uid : option Z) : Prop :=
  ∀ v, v ∈ db_users db → uid ≠ Some (user_id v).

(** Modelled from the spec: the issuer of the tokens, which is not under
    src/, "produces a signed token embedding user identifier and an expiry"
    (section 4.1).  So a token that passes the signature check carries no
    not-before claim, and the identifier it carries is a key of [users], an
    INTEGER. *)
Definition issued (inspect : string → Auth.TokenStatus) : Prop :=
  ∀ token,
    inspect token ≠ Auth.NotActive ∧
    ∀ expired uid, inspect token = Auth.Signed expired (Some uid) →
                   Sql.int4 uid = true.

(** A calendar day. *)
Definition valid_date (d : Analytics.Date) : Prop :=
  0 ≤ Analytics.month d < 12 ∧
  1 ≤ Analytics.day d ≤ Analytics.daysInMonth (Analytics.year d) (Analytics.month d).

(** The number of months a period spans. *)
Definition span (p : string) : Z :=
  if String.eqb p "quarter" then 3 else if String.eqb p "year" then 12 else 1.

Definition with_period (p : option string) : Query :=
  {| q_page := None; q_limit := None; q_category := None; q_type := None;
     q_search := None; q_start_date := None; q_end_date := None;
     q_sort_by := None; q_sort_order := None; q_user_id := None;
     q_period := p; q_months := None |}.

(** A user's rows of one kind inside a window. *)
Definition kind_in_window (date_le : string → string → bool) (db : DB)
    (uid : Z) (q : Query) (kind : string) : list Transaction :=
  filter (fun t => tx_type t = kind)
         (Summary.selected date_le db uid (q_start_date q) (q_end_date q)).

(** A user's rows. *)
Definition rows_of_user (uid : Z) (db : DB) : list Transaction :=
  filter (fun t => tx_user_id t = uid) (db_transactions db).

(** The next value of the categories' sequence is above every id handed
    out. *)
Definition category_ids_below (id : Z) (db : DB) : Prop :=
  Forall (fun c => cat_id c < id) (db_categories db).

Section PatternPredicates.

Import SpendingPatterns.

Definition sum_with {A} (f : A → Z) (l : list A) : Z :=
  foldr (fun x acc => f x + acc) 0 l.

(** A row as the statement yields it: a day of the week, an hour of the day
    and one of the two kinds. *)
Definition pattern_row_ok (row : PatternRow) : Prop :=
  0 ≤ day_of_week row < 7 ∧ 0 ≤ hour_of_day row < 24 ∧
  (pattern_type row = "income" ∨ pattern_type row = "expense").

(** What [+=] has accumulated for one kind: the totals of the rows of that
    kind, added in the order of the rows, starting from 0. *)
Definition added_up (kind : string) (rows : list PatternRow) : double :=
  fold_left (fun acc row => plus acc (parseFloat (total_amount row)))
            (filter (fun row => pattern_type row = kind) rows) zero.

(** The slot that a list of rows fills. *)
Definition slot_of (rows : list PatternRow) : Slot :=
  {| slot_income := added_up "income" rows;
     slot_expense := added_up "expense" rows;
     slot_count := sum_with transaction_count rows |}.

Definition on_day (d : Z) (rows : list PatternRow) : list PatternRow :=
  filter (fun row => day_of_week row = d) rows.

Definition at_hour (h : Z) (rows : list PatternRow) : list PatternRow :=
  filter (fun row => hour_of_day row = h) rows.

(** The patterns cell by cell: each day and each hour from its own rows,
    [byType] from all rows. *)
Definition patterns_of (rows : list PatternRow) : Patterns :=
  {| byDayOfWeek :=
       imap (fun d name => (name, slot_of (on_day (Z.of_nat d) rows))) dayNames;
     byHourOfDay :=
       (fun h => slot_of (at_hour (Z.of_nat h) rows)) <$> seq 0 24;
     byType_income := added_up "income" rows;
     byType_expense := added_up "expense" rows |}.

(** What the loop maintains, for the rows read so far. *)
Definition adds_up (p : Patterns) (rows : list PatternRow) : Prop :=
  p = patterns_of rows ∧
  sum_with (fun e => slot_count e.2) (byDayOfWeek p)
  = sum_with transaction_count rows ∧
  sum_with slot_count (byHourOfDay p) = sum_with transaction_count rows.

End PatternPredicates.

(** * Properties *)

(** ** Built-ins *)

Example parseInt_decimal : parseInt (VStr "500") = Num 500.
Proof. reflexivity. Qed.

Example parseInt_hexadecimal : parseInt (VStr "  -0x1f") = Num (-31).
Proof. reflexivity. Qed.

Example parseInt_leading_digits : parseInt (VStr "12px") = Num 12.
Proof. reflexivity. Qed.

Example parseInt_empty_string : parseInt (VStr "") = NaN.
Proof. reflexivity. Qed.

Example parseInt_number_literal : parseInt (VNum 10) = Num 10.
Proof. vm_compute. reflexivity. Qed.

(** 0.1, 0.7 and 1000 as doubles. *)
Example parseFloat_tenth :
  parseFloat 10 = SpecFloat.S754_finite false 7205759403792794 (-56).
Proof. reflexivity. Qed.

Example parseFloat_seven_tenths :
  parseFloat 70 = SpecFloat.S754_finite false 6305039478318694 (-53).
Proof. reflexivity. Qed.

Example parseFloat_thousand :
  parseFloat 100000 = SpecFloat.S754_finite false 8796093022208000 (-43).
Proof. reflexivity. Qed.

(** 0.1 + 0.2 is not the double nearest to 0.3. *)
Example plus_rounds : plus (parseFloat 10) (parseFloat 20) ≠ parseFloat 30.
Proof. by vm_compute. Qed.

(** DECIMAL(12,2): 12.345 is kept as 12.35, -0.005 as -0.01, 12.344 as
    12.34; 9999999999.99 fits, 10000000000 and 9999999999.995 do not. *)
Example numeric_12_2_rounds :
  Sql.numeric_12_2 {| dec_units := 12345; dec_scale := 3 |} = 1235 ∧
  Sql.numeric_12_2 {| dec_units := -5; dec_scale := 3 |} = -1 ∧
  Sql.numeric_12_2 {| dec_units := 12344; dec_scale := 3 |} = 1234 ∧
  Sql.numeric_12_2 (hundredths 1250) = 1250.
Proof. by vm_compute. Qed.

Example decimal_12_2_range :
  Sql.decimal_12_2 (hundredths 999999999999) = true ∧
  Sql.decimal_12_2 {| dec_units := 10000000000; dec_scale := 0 |} = false ∧
  Sql.decimal_12_2 {| dec_units := 9999999999995; dec_scale := 3 |} = false.
Proof. by vm_compute. Qed.

Lemma Math_max_Num a b n : Math_max (Num a) b = Num n → ∃ z, b = Num z ∧ n = Z.max a z.
Proof. destruct b as [|z]; simpl; [discriminate|]. intros [= <-]. eauto. Qed.

Lemma Math_min_Num a b n : Math_min (Num a) b = Num n → ∃ z, b = Num z ∧ n = Z.min a z.
Proof. destruct b as [|z]; simpl; [discriminate|]. intros [= <-]. eauto. Qed.

(** ** Pagination of the transaction list *)

Section PaginationFacts.

Import Pagination.

(** Whenever [parseInt] yields a number, the clamps hold. *)
Lemma pageNum_numeric q z :
  parseInt (with_default (q_page q) (VNum 1)) = Num z →
  ∃ p, pageNum q = Num p ∧ 1 ≤ p.
Proof.
  intros H. unfold pageNum. rewrite H. simpl. eexists; split; [done|lia].
Qed.

Lemma limitNum_numeric q z :
  parseInt (with_default (q_limit q) (VNum 10)) = Num z →
  ∃ l, limitNum q = Num l ∧ 1 ≤ l ≤ 100.
Proof.
  intros H. unfold limitNum. rewrite H. simpl. eexists; split; [done|lia].
Qed.

(** The only way out of the clamps is NaN. *)
Lemma pageNum_ok_or_NaN q : page_ok (pageNum q) = true ∨ pageNum q = NaN.
Proof.
  destruct (parseInt (with_default (q_page q) (VNum 1))) as [|z] eqn:E.
  - right. unfold pageNum. by rewrite E.
  - left. destruct (pageNum_numeric q z E) as (p & -> & ?). simpl. lia.
Qed.

Lemma limitNum_ok_or_NaN q : limit_ok (limitNum q) = true ∨ limitNum q = NaN.
Proof.
  destruct (parseInt (with_default (q_limit q) (VNum 10))) as [|z] eqn:E.
  - right. unfold limitNum. by rewrite E.
  - left. destruct (limitNum_numeric q z E) as (l & -> & ?). simpl. lia.
Qed.

Example pagination_defaults :
  pageNum (with_page_limit None None) = Num 1 ∧
  limitNum (with_page_limit None None) = Num 10.
Proof. by vm_compute. Qed.

Example pagination_limit_zero :
  limitNum (with_page_limit None (Some "0")) = Num 1.
Proof. by vm_compute. Qed.

Example pagination_limit_500 :
  limitNum (with_page_limit None (Some "500")) = Num 100.
Proof. by vm_compute. Qed.

Example pagination_negative_page :
  pageNum (with_page_limit (Some "-3") None) = Num 1.
Proof. by vm_compute. Qed.

(** C1. The list handler's effective page is at least 1 and its page size
    within 1..100 whatever strings are supplied: not so for text that
    [parseInt] cannot read.  With [page=abc&limit=abc] both [pageNum] and
    [limitNum] are NaN, and so is the offset handed to the query; the empty
    string ([?limit=]) does the same, as the default applies to an absent
    parameter only. *)
Theorem pagination_text_escapes_clamp :
  let q := with_page_limit (Some "abc") (Some "abc") in
  pageNum q = NaN ∧ limitNum q = NaN ∧ offset q = NaN ∧
  page_ok (pageNum q) = false ∧ limit_ok (limitNum q) = false ∧
  TransactionList.queryParams (TransactionList.list_query (on_list alice q))
  = [TransactionList.PNumber (Num 1); TransactionList.PNumber NaN;
     TransactionList.PNumber NaN] ∧
  limitNum (with_page_limit None (Some "")) = NaN.
Proof. by vm_compute. Qed.

End PaginationFacts.

(** ** The ownership gate *)

Section OwnershipGate.

Import Auth.

Lemma checkDataOwnership_admin db req :
  user_role (req_user req) = admin → checkDataOwnership db req = Next.
Proof. intros H. unfold checkDataOwnership. by rewrite H. Qed.

(** The routes are declared as ['/:id'] on a router mounted under
    [/api/transactions]: [req.route.path] never contains ["/transactions"],
    and the gate lets every request through. *)
Lemma checkDataOwnership_id_route db req :
  checkDataOwnership db (Routes.matched "/:id" req) = Next.
Proof. unfold checkDataOwnership. simpl. by destruct (role_eqb _ _). Qed.

(** What the gate does once the path test succeeds. *)
Lemma checkDataOwnership_when_path_matches db req id :
  user_role (req_user req) ≠ admin →
  includes (req_route_path req) "/transactions" = true →
  req_params_id req = Some id →
  Sql.int4 id = true →
  checkDataOwnership db req =
    match Sql.transactions_by_id db (Some id) with
    | [] => Send (fail 404 "Transaction not found")
    | row :: _ =>
        if decide (tx_user_id row ≠ user_id (req_user req))
        then Send (fail 403 "Access denied - not your transaction")
        else Next
    end.
Proof.
  intros Hrole Hpath Hid Hint. unfold checkDataOwnership.
  rewrite Hpath, Hid. simpl. rewrite Hint.
  destruct (user_role (req_user req)); simpl; congruence.
Qed.

(** C3. On GET/PUT/DELETE /api/transactions/:id a non-admin caller who
    targets another user's transaction is to receive 403 from the ownership
    gate.  Bob (a plain user) asks for Alice's transaction 1: the gate calls
    [next()], and the answer is the handler's 404, on all three routes.  *)
Theorem ownership_gate_never_answers_403 :
  let c := connected ∅ in
  let req := on_transaction bob 1 lunch [] in
  Sql.transactions_by_id sample_db (Some 1) = [paycheck] ∧
  tx_user_id paycheck ≠ user_id bob ∧
  checkDataOwnership sample_db (Routes.matched "/:id" req) = Next ∧
  (Routes.get_id sample_db c req).2.2 = fail 404 "Transaction not found" ∧
  (Routes.put_id sample_db c req).2.2 = fail 404 "Transaction not found" ∧
  (Routes.delete_id sample_db c req).2.2 = fail 404 "Transaction not found".
Proof. by vm_compute. Qed.

End OwnershipGate.

(** ** Budget status *)

Section Budget.

Import Analytics.

Local Open Scope Q_scope.

Lemma gt_true a b : gt a b = true ↔ b < a.
Proof.
  unfold gt. rewrite negb_true_iff. split.
  - intros H. apply Qnot_le_lt. intros Hle. apply Qle_bool_iff in Hle. congruence.
  - intros H. destruct (Qle_bool a b) eqn:E; [|done].
    apply Qle_bool_iff in E. by apply Qlt_not_le in H.
Qed.

Lemma gt_false a b : gt a b = false ↔ a <= b.
Proof.
  unfold gt. rewrite negb_false_iff. apply Qle_bool_iff.
Qed.

(** C8, as the specification words it: a percentage of exactly 80 is
    ['warning'].  The handler tests [> 80], so 80 is still ['good']. *)
Lemma budget_status_80_is_not_warning :
  ¬ (∀ p : Q, 80 # 1 <= p ∧ p <= 100 # 1 → status p = "warning").
Proof. intros H. by specialize (H (80 # 1) ltac:(split; discriminate)). Qed.

(** C8, amended.  The status is a function of the percentage [p] with the
    boundaries: ['good'] when p <= 80, ['warning'] when 80 < p <= 100 and
    ['over'] when p > 100. *)
Theorem budget_status_boundaries (p : Q) :
  (status p = "good" ↔ p <= 80 # 1) ∧
  (status p = "warning" ↔ 80 # 1 < p ∧ p <= 100 # 1) ∧
  (status p = "over" ↔ 100 # 1 < p).
Proof.
  unfold status.
  destruct (gt p (100 # 1)) eqn:E100; destruct (gt p (80 # 1)) eqn:E80;
    first [apply gt_true in E100 | apply gt_false in E100];
    first [apply gt_true in E80 | apply gt_false in E80].
  - repeat split; try done; intros H.
    + by apply Qle_not_lt in H.
    + destruct H as [_ H]. by apply Qle_not_lt in H.
  - exfalso. apply (Qle_not_lt _ _ E80). eapply Qlt_trans; [|exact E100]. done.
  - repeat split; try done; intros H.
    + by apply Qle_not_lt in H.
    + by apply Qle_not_lt in E100.
  - repeat split; try done; intros H.
    + destruct H as [H _]. by apply Qle_not_lt in E80.
    + by apply Qle_not_lt in E100.
Qed.

Lemma budgetAnalysis_status rows e :
  In e (budgetAnalysis rows) → budgetStatus e = status (budgetPercentage e).
Proof.
  unfold budgetAnalysis. rewrite in_map_iff. by intros (row & <- & _).
Qed.

End Budget.

(** ** The read-through cache *)

Section CacheFacts.

Import Redis Cache.

Lemma getCache_connected m key :
  getCache (connected m) key = entry_value <$> m !! key.
Proof. reflexivity. Qed.

(** On a hit the rest of the route is not run. *)
Lemma cacheMiddleware_hit keyGenerator expiration next c req d :
  getCache c (keyGenerator req) = Some d →
  cacheMiddleware keyGenerator expiration next c req
  = (c, {| statusCode := 200; json := d |}).
Proof. intros H. unfold cacheMiddleware. by rewrite H. Qed.

(** The key of the transaction list reads the user, [page], [limit],
    [category], [type] and [search], and nothing else of the request. *)
Lemma transactionsKeyGenerator_reads req1 req2 :
  user_id (req_user req1) = user_id (req_user req2) →
  q_page (req_query req1) = q_page (req_query req2) →
  q_limit (req_query req1) = q_limit (req_query req2) →
  q_category (req_query req1) = q_category (req_query req2) →
  q_type (req_query req1) = q_type (req_query req2) →
  q_search (req_query req1) = q_search (req_query req2) →
  transactionsKeyGenerator req1 = transactionsKeyGenerator req2.
Proof.
  intros Hu Hp Hl Hc Ht Hs. unfold transactionsKeyGenerator.
  by rewrite Hu, Hp, Hl, Hc, Ht, Hs.
Qed.

(** C5. Two list requests of one user that differ in a parameter the query
    depends on are to be keyed differently.  Alice lists January 2024 and
    then January 2025: [start_date] and [end_date] are not part of the key,
    both requests are keyed [transactions:1:1:10:all:all:none] although the
    handler would run different statements for them, and whatever the
    database holds, once the first answer is cached the second request is
    answered with it. *)
Theorem transactions_key_ignores_date_range
    (run : TransactionList.ListQuery
           → option (list (Transaction * option Category) * Z)) :
  let req2024 := on_list alice (with_dates (Some "2024-01-01") (Some "2024-01-31")) in
  let req2025 := on_list alice (with_dates (Some "2025-01-01") (Some "2025-01-31")) in
  let first := Routes.get_list run (connected ∅) req2024 in
  let second := Routes.get_list run first.1 req2025 in
  transactionsKeyGenerator req2024 = "transactions:1:1:10:all:all:none" ∧
  transactionsKeyGenerator req2025 = "transactions:1:1:10:all:all:none" ∧
  TransactionList.queryParams (TransactionList.list_query req2024)
  ≠ TransactionList.queryParams (TransactionList.list_query req2025) ∧
  first.2 = TransactionList.getTransactions run req2024 ∧
  second.2 = match run (TransactionList.list_query req2024) with
             | Some _ => TransactionList.getTransactions run req2024
             | None => TransactionList.getTransactions run req2025
             end.
Proof.
  intros req2024 req2025 first second.
  split; [by vm_compute|]. split; [by vm_compute|]. split; [by vm_compute|].
  subst first second.
  unfold Routes.get_list, cacheTransactions, cacheMiddleware.
  change (transactionsKeyGenerator (Routes.matched "/" req2024))
    with "transactions:1:1:10:all:all:none".
  change (transactionsKeyGenerator (Routes.matched "/" req2025))
    with "transactions:1:1:10:all:all:none".
  change (Auth.requireAnyRole (Routes.matched "/" req2024)) with Next.
  change (Auth.requireAnyRole (Routes.matched "/" req2025)) with Next.
  change (getCache (connected ∅) "transactions:1:1:10:all:all:none")
    with (@None Json).
  unfold TransactionList.getTransactions.
  change (TransactionList.list_query (Routes.matched "/" req2024))
    with (TransactionList.list_query req2024).
  change (TransactionList.list_query (Routes.matched "/" req2025))
    with (TransactionList.list_query req2025).
  destruct (run (TransactionList.list_query req2024)) as [[rows total]|].
  - split; [done|]. 
    change (statusCode (ok 200 ?m ?d) =? 200) with true. simpl.
    unfold getCache. simpl. by rewrite lookup_insert_eq.
  - split; [done|]. simpl.
    by destruct (run (TransactionList.list_query req2025)) as [[rows total]|].
Qed.

(** C6. On a miss the answer of the route is sent unchanged whatever becomes
    of the cache write; the payload is stored under the computed key, with
    the expiration of the namespace, exactly when the status is 200, the
    [success] flag is not [false], and the write itself goes through (client
    open, command not failing).  The expirations are 15 minutes for
    analytics, 1 hour for the category list and 5 minutes for the
    transaction list. *)
Theorem cache_miss_stores_success_only keyGenerator expiration next c req :
  getCache c (keyGenerator req) = None →
  let out := cacheMiddleware keyGenerator expiration next c req in
  let r := next req in
  out.2 = r ∧
  isOpen out.1 = isOpen c ∧ faulty out.1 = faulty c ∧
  store out.1 =
    (if (statusCode r =? 200) && success_not_false (json r)
        && isOpen c && negb (faulty c)
     then <[keyGenerator req :=
              {| entry_value := json r; entry_ttl := expiration |}]> (store c)
     else store c) ∧
  cacheAnalytics = cacheMiddleware analyticsKeyGenerator 900 ∧
  cacheCategories = cacheMiddleware categoriesKeyGenerator 3600 ∧
  cacheTransactions = cacheMiddleware transactionsKeyGenerator 300.
Proof.
  intros Hmiss out r.
  assert (out = if (statusCode r =? 200) && success_not_false (json r)
                then ((setCache c (keyGenerator req) (json r) expiration).1, r)
                else (c, r)) as ->.
  { subst out r. unfold cacheMiddleware. by rewrite Hmiss. }
  destruct ((statusCode r =? 200) && success_not_false (json r)); simpl.
  - unfold setCache.
    destruct (isOpen c) eqn:Ho, (faulty c) eqn:Hf; simpl; rewrite ?Ho, ?Hf;
      repeat split; done.
  - repeat split; done.
Qed.

Lemma cache_miss_stores_success_only_witness :
  let req := on_list alice empty_query in
  let next := fun _ : Request => page_of [(paycheck, Some salary)] in
  getCache (connected ∅) (transactionsKeyGenerator req) = None ∧
  (cacheTransactions next (connected ∅) req).2 = next req ∧
  store (cacheTransactions next (connected ∅) req).1
  = {[ "transactions:1:1:10:all:all:none" :=
         {| entry_value := json (next req); entry_ttl := 300 |} ]}.
Proof.
  intros req next.
  assert (getCache (connected ∅) (transactionsKeyGenerator req) = None)
    as Hmiss by reflexivity.
  split; [exact Hmiss|].
  destruct (cache_miss_stores_success_only transactionsKeyGenerator 300
              next (connected ∅) req Hmiss) as (Hr & _ & _ & Hs & _).
  split; [exact Hr|]. unfold cacheTransactions. etrans; [exact Hs|]. reflexivity.
Defined.

(** A failed response is never stored. *)
Lemma cache_miss_failure_not_stored keyGenerator expiration next c req :
  getCache c (keyGenerator req) = None →
  success (json (next req)) = Some false ∨ statusCode (next req) ≠ 200 →
  cacheMiddleware keyGenerator expiration next c req = (c, next req).
Proof.
  intros Hmiss Hfail. unfold cacheMiddleware. rewrite Hmiss.
  destruct Hfail as [Hf|Hs].
  - unfold success_not_false. rewrite Hf. by rewrite andb_false_r.
  - apply Z.eqb_neq in Hs. by rewrite Hs.
Qed.

End CacheFacts.

(** ** Monthly trends *)

Section Trends.

Import Analytics.

Lemma monthsBack_numeric q z :
  parseInt (with_default (q_months q) (VNum 12)) = Num z →
  monthsBack q = Num (Z.min 24 (Z.max 1 z)).
Proof. intros H. unfold monthsBack. by rewrite H. Qed.

Lemma monthsBack_range q n : monthsBack q = Num n → 1 ≤ n ≤ 24.
Proof.
  unfold monthsBack. intros H.
  apply Math_min_Num in H as (m & Hm & ->).
  apply Math_max_Num in Hm as (z & _ & ->). lia.
Qed.

Example monthsBack_default : monthsBack (with_months None) = Num 12.
Proof. by vm_compute. Qed.

Example monthsBack_clamped_above : monthsBack (with_months (Some "60")) = Num 24.
Proof. by vm_compute. Qed.

Example monthsBack_clamped_below : monthsBack (with_months (Some "0")) = Num 1.
Proof. by vm_compute. Qed.

(** The series has as many entries as the window has months. *)
Lemma getMonthlyTrends_length now rows q n :
  monthsBack q = Num n →
  ∃ trends, getMonthlyTrends now rows q = Some trends ∧
            length trends = Z.to_nat n.
Proof.
  intros H. unfold getMonthlyTrends. rewrite H.
  eexists. split; [done|]. by rewrite length_map, length_seq.
Qed.

(** A month without rows is reported with zeros. *)
Lemma trend_at_zero_fill monthlyData startDate i :
  monthlyData !! monthKey (setMonth startDate (getMonth startDate + i)) = None →
  let t := trend_at monthlyData startDate i in
  trend_income t = zero ∧ trend_expense t = zero ∧ trend_balance t = zero.
Proof. intros H. unfold trend_at. simpl. by rewrite H. Qed.

Lemma getMonthlyTrends_no_rows now q trends t :
  getMonthlyTrends now [] q = Some trends →
  In t trends →
  trend_income t = zero ∧ trend_expense t = zero ∧ trend_balance t = zero.
Proof.
  unfold getMonthlyTrends. destruct (monthsBack q) as [|n]; [done|].
  intros [= <-]. rewrite in_map_iff. intros (i & <- & _).
  apply trend_at_zero_fill. apply lookup_empty.
Qed.

(** Without a carry of the day of the month (day at most 28), [setMonth]
    moves by whole months: the series is then contiguous. *)
Lemma setMonth_month_index dt m :
  1 ≤ day dt ≤ 28 →
  let dt' := setMonth dt m in
  year dt' * 12 + month dt' = year dt * 12 + m ∧ day dt' = day dt.
Proof.
  intros Hd. unfold setMonth, MakeDay.
  assert (28 ≤ daysInMonth (year dt + m / 12) (m mod 12)) as Hdim.
  { unfold daysInMonth. repeat case_match; lia. }
  destruct (Z.leb_spec (day dt) (daysInMonth (year dt + m / 12) (m mod 12)));
    [|lia].
  simpl. split; [|done].
  pose proof (Z.div_mod m 12 ltac:(lia)). lia.
Qed.

(** On days 1 to 28 the entry of index [i] is the month [n - i] months before
    the current one. *)
Lemma trend_months_contiguous now n i :
  1 ≤ day now ≤ 28 →
  let startDate := setMonth now (getMonth now - n) in
  let currentDate := setMonth startDate (getMonth startDate + i) in
  year currentDate * 12 + month currentDate
  = year now * 12 + month now - n + i.
Proof.
  intros Hd startDate currentDate.
  destruct (setMonth_month_index now (getMonth now - n) Hd) as [Hs Hds].
  fold startDate in Hs, Hds.
  assert (1 ≤ day startDate ≤ 28) as Hd' by lia.
  destruct (setMonth_month_index startDate (getMonth startDate + i) Hd')
    as [Hc _].
  fold currentDate in Hc. unfold getMonth in *. lia.
Qed.

(** C7. The trends array is to hold one entry per calendar month of the
    trailing window.  On 31 January 2025 with [months=3] the window starts on
    31 October 2024; adding one month lands on "31 November", which the Date
    arithmetic carries to 1 December: November is missing and December is
    listed twice. *)
Theorem trends_skip_and_repeat_months :
  let now := {| year := 2025; month := 0; day := 31 |} in
  map trend_month <$> getMonthlyTrends now [] (with_months (Some "3"))
  = Some ["2024-10"; "2024-12"; "2024-12"].
Proof. by vm_compute. Qed.

(** Text that [parseInt] cannot read gives no series: the statement is
    rejected and the answer is the 500 of the [catch]. *)
Example trends_of_text_is_rejected now rows :
  getMonthlyTrends now rows (with_months (Some "all")) = None.
Proof. reflexivity. Qed.

End Trends.

(** ** Cache invalidation after a mutation *)

Section Invalidation.

Import Redis Cache.

Lemma string_app_cons x (a b : string) : String x a +:+ b = String x (a +:+ b).
Proof. reflexivity. Qed.

Lemma string_app_assoc (a b c : string) : (a +:+ b) +:+ c = a +:+ (b +:+ c).
Proof. induction a as [|x a IH]; [done|]. by rewrite !string_app_cons, IH. Qed.

Lemma all_chars_app P a b :
  all_chars P (a +:+ b) = all_chars P a && all_chars P b.
Proof.
  induction a as [|x a IH]; [done|].
  rewrite string_app_cons. simpl. rewrite IH. by rewrite andb_assoc.
Qed.

Lemma all_chars_impl (P Q : ascii → bool) s :
  (∀ c, P c = true → Q c = true) → all_chars P s = true → all_chars Q s = true.
Proof.
  intros HPQ. induction s as [|x s IH]; [done|]. simpl.
  rewrite !andb_true_iff. intros [??]. auto.
Qed.

Lemma pretty_N_char_digit d : is_digit_or_dash (pretty_N_char d) = true.
Proof. unfold pretty_N_char. by repeat case_match. Qed.

Lemma pretty_N_go_chars x s :
  all_chars is_digit_or_dash s = true →
  all_chars is_digit_or_dash (pretty_N_go x s) = true.
Proof.
  revert s. induction (N.lt_wf_0 x) as [x _ IH]; intros s Hs.
  destruct (decide (x = 0)%N) as [->|Hx]; [done|].
  rewrite pretty_N_go_step by lia.
  apply IH; [apply N.div_lt; lia|].
  simpl. by rewrite pretty_N_char_digit.
Qed.

Lemma pretty_N_chars (x : N) : all_chars is_digit_or_dash (pretty x) = true.
Proof.
  unfold pretty, pretty_N. case_decide; [done|]. by apply pretty_N_go_chars.
Qed.

Lemma pretty_Z_chars (z : Z) : all_chars is_digit_or_dash (pretty z) = true.
Proof.
  destruct z as [|p|p]; [done|apply pretty_N_chars|].
  change (pretty (Z.neg p)) with ("-" +:+ pretty (N.pos p)).
  rewrite all_chars_app, pretty_N_chars. done.
Qed.

(** Two runs of characters satisfying [P], each followed by a character that
    does not, agree as soon as one is a prefix of the other. *)
Lemma separated_prefix_inj P (a b : string) (sep : ascii) (r1 r2 : string) :
  P sep = false →
  all_chars P a = true → all_chars P b = true →
  a +:+ String sep r1 = b +:+ String sep r2 → a = b.
Proof.
  intros Hsep. revert b. induction a as [|x a IH]; intros [|y b]; simpl.
  - done.
  - intros _ Hb. rewrite string_app_cons. intros [= <- _].
    rewrite Hsep in Hb. done.
  - intros Ha _. rewrite string_app_cons. intros [= -> _].
    rewrite Hsep in Ha. done.
  - rewrite !andb_true_iff. intros [_ Ha] [_ Hb].
    rewrite !string_app_cons. intros [= -> Heq]. f_equal. by apply IH.
Qed.

Lemma glob_star_any k : glob "*" k = true.
Proof.
  induction k as [|x k IH]; [done|].
  simpl in *. by rewrite IH.
Qed.

Lemma glob_literal l p k :
  all_chars is_literal l = true →
  glob (l +:+ p) k = true ↔ ∃ k', k = l +:+ k' ∧ glob p k' = true.
Proof.
  revert k. induction l as [|c l IH]; intros k Hl.
  - split; [eauto|]. by intros (k' & -> & ?).
  - simpl in Hl. apply andb_true_iff in Hl as [Hc Hl].
    unfold is_literal in Hc. apply andb_true_iff in Hc as [Hstar Hq].
    apply negb_true_iff in Hstar, Hq.
    rewrite string_app_cons. simpl. rewrite Hstar, Hq. simpl.
    destruct k as [|d k].
    + split; [done|]. by intros (k' & ? & _).
    + rewrite andb_true_iff, IH by done. split.
      * intros [Hcd (k' & -> & ?)]. apply Ascii.eqb_eq in Hcd as ->. eauto.
      * intros (k' & [= <- ->] & ?). rewrite Ascii.eqb_refl. eauto.
Qed.

Lemma glob_literal_star l k :
  all_chars is_literal l = true →
  glob (l +:+ "*") k = true ↔ ∃ k', k = l +:+ k'.
Proof.
  intros Hl. rewrite glob_literal by done. split.
  - intros (k' & ? & _). eauto.
  - intros (k' & ?). exists k'. split; [done|apply glob_star_any].
Qed.

Lemma digit_or_dash_is_literal c : is_digit_or_dash c = true → is_literal c = true.
Proof. destruct c as [[] [] [] [] [] [] [] []]; by vm_compute. Qed.

Lemma digit_or_dash_not_colon : is_digit_or_dash ":" = false.
Proof. reflexivity. Qed.

Lemma deleteCachePattern_lookup c pattern key :
  store (deleteCachePattern c pattern).1 !! key =
    if isOpen c && negb (faulty c) && glob pattern key then None
    else store c !! key.
Proof.
  unfold deleteCachePattern.
  destruct (isOpen c), (faulty c); simpl; try done.
  rewrite map_lookup_filter. simpl.
  destruct (store c !! key) as [e|]; simpl; [|by destruct (glob _ _)].
  destruct (glob pattern key); by case_guard.
Qed.

Lemma deleteCachePattern_client c pattern :
  isOpen (deleteCachePattern c pattern).1 = isOpen c ∧
  faulty (deleteCachePattern c pattern).1 = faulty c.
Proof. unfold deleteCachePattern. by destruct (isOpen c) eqn:?, (faulty c) eqn:?. Qed.

Lemma invalidateUserCache_lookup c userId key :
  store (invalidateUserCache c userId) !! key =
    if isOpen c && negb (faulty c) &&
       (glob ("analytics:" +:+ pretty userId +:+ ":*") key
        || glob ("transactions:" +:+ pretty userId +:+ ":*") key
        || glob ("user_analytics:" +:+ pretty userId +:+ "*") key)
    then None else store c !! key.
Proof.
  unfold invalidateUserCache.
  rewrite !deleteCachePattern_lookup.
  repeat match goal with
  | |- context [isOpen (deleteCachePattern ?c ?p).1] =>
      rewrite (proj1 (deleteCachePattern_client c p))
  | |- context [faulty (deleteCachePattern ?c ?p).1] =>
      rewrite (proj2 (deleteCachePattern_client c p))
  end.
  generalize (glob ("analytics:" +:+ pretty userId +:+ ":*") key),
    (glob ("transactions:" +:+ pretty userId +:+ ":*") key),
    (glob ("user_analytics:" +:+ pretty userId +:+ "*") key).
  intros g1 g2 g3. by destruct (isOpen c), (faulty c), g1, g2, g3.
Qed.

Lemma glob_user_prefix_miss (ns : string) (a o : Z) rest :
  all_chars is_literal ns = true →
  a ≠ o →
  glob (ns +:+ pretty a +:+ ":*") (ns +:+ pretty o +:+ ":" +:+ rest) = false.
Proof.
  intros Hns Hne. apply not_true_is_false. intros Hglob.
  change ":*" with (":" +:+ "*") in Hglob.
  rewrite <-!string_app_assoc in Hglob.
  apply glob_literal_star in Hglob as (k' & Hk).
  - rewrite !string_app_assoc in Hk. apply (inj (String.app ns)) in Hk.
    apply (separated_prefix_inj is_digit_or_dash) in Hk;
      auto using pretty_Z_chars.
    by apply (inj pretty) in Hk.
  - rewrite !all_chars_app, Hns. simpl.
    by rewrite (all_chars_impl _ _ _ digit_or_dash_is_literal (pretty_Z_chars a)).
Qed.

Lemma glob_user_prefix_iff (ns : string) (u : Z) key :
  all_chars is_literal ns = true →
  glob (ns +:+ pretty u +:+ ":*") key = true
  ↔ ∃ rest, key = ns +:+ pretty u +:+ ":" +:+ rest.
Proof.
  intros Hns. change ":*" with (":" +:+ "*").
  rewrite <-!string_app_assoc. rewrite glob_literal_star.
  - split; intros [rest ->]; exists rest; by rewrite !string_app_assoc.
  - rewrite !all_chars_app, Hns. simpl.
    by rewrite (all_chars_impl _ _ _ digit_or_dash_is_literal (pretty_Z_chars u)).
Qed.

Lemma glob_user_analytics_iff (u : Z) key :
  glob ("user_analytics:" +:+ pretty u +:+ "*") key = true
  ↔ ∃ rest, key = "user_analytics:" +:+ pretty u +:+ rest.
Proof.
  rewrite <-string_app_assoc. rewrite glob_literal_star.
  - split; intros [rest ->]; exists rest; by rewrite !string_app_assoc.
  - rewrite all_chars_app. simpl.
    by rewrite (all_chars_impl _ _ _ digit_or_dash_is_literal (pretty_Z_chars u)).
Qed.

(** The three patterns match exactly the keys under the three prefixes. *)
Lemma caller_pattern_under_prefix userId key :
  caller_pattern userId key = true ↔ under_prefix userId key.
Proof.
  unfold caller_pattern, under_prefix.
  rewrite !orb_true_iff.
  rewrite (glob_user_prefix_iff "analytics:") by done.
  rewrite (glob_user_prefix_iff "transactions:") by done.
  rewrite glob_user_analytics_iff. tauto.
Qed.

(** No mounted middleware writes under [user_analytics:]. *)
Lemma route_key_not_user_analytics rest : ¬ route_key ("user_analytics:" +:+ rest).
Proof.
  intros [[req H]|[[req H]|[req H]]]; discriminate H.
Qed.

(** A key that the routes write lies under the prefixes of one user at
    most. *)
Lemma route_key_one_user (a o : Z) key :
  a ≠ o → route_key key → under_prefix o key → caller_pattern a key = false.
Proof.
  intros Hne Hroute Hkey. unfold caller_pattern.
  destruct Hkey as [[rest ->]|[[rest ->]|[rest ->]]].
  - rewrite glob_user_prefix_miss by done. reflexivity.
  - rewrite (glob_user_prefix_miss "transactions:") by done. reflexivity.
  - by apply route_key_not_user_analytics in Hroute.
Qed.

(** A mutating route runs the caller's invalidation exactly when it answers
    a success, and leaves the client alone otherwise. *)
Lemma mutating_route_client route db c req :
  route ∈ mutating_routes →
  (route db c req).1
  = if is_success (route db c req).2.2
    then invalidateUserCache c (user_id (req_user req)) else c.
Proof.
  assert (∀ next : Request → DB * Response, ∀ r,
            user_id (req_user r) = user_id (req_user req) →
            (invalidateUserCacheAfterTransaction next c r).1
            = if is_success (invalidateUserCacheAfterTransaction next c r).2.2
              then invalidateUserCache c (user_id (req_user req)) else c) as Hinv.
  { intros next r Hr.
    unfold invalidateUserCacheAfterTransaction, invalidateCacheAfterModification,
      is_success.
    destruct (_ && _) eqn:Hok; cbn [fst snd]; rewrite Hok; by rewrite ?Hr. }
  unfold mutating_routes. rewrite !elem_of_cons, elem_of_nil.
  intros [-> | [-> | [-> | []]]];
    unfold Routes.post, Routes.put_id, Routes.delete_id;
    rewrite ?checkDataOwnership_id_route;
    unfold Auth.requireUserOrAdmin, Auth.requireRole;
    (destruct (existsb _ _); [by apply Hinv|reflexivity]).
Qed.

Lemma invalidateUserCache_client c userId :
  isOpen (invalidateUserCache c userId) = isOpen c ∧
  faulty (invalidateUserCache c userId) = faulty c.
Proof.
  unfold invalidateUserCache.
  repeat match goal with
  | |- context [isOpen (deleteCachePattern ?c ?p).1] =>
      rewrite (proj1 (deleteCachePattern_client c p))
  | |- context [faulty (deleteCachePattern ?c ?p).1] =>
      rewrite (proj2 (deleteCachePattern_client c p))
  end. done.
Qed.

(** What a mutating route does to one key. *)
Lemma mutating_route_lookup route db c req key :
  route ∈ mutating_routes →
  store (route db c req).1 !! key
  = if is_success (route db c req).2.2 && isOpen c && negb (faulty c)
       && caller_pattern (user_id (req_user req)) key
    then None else store c !! key.
Proof.
  intros Hroute. rewrite (mutating_route_client _ _ _ _ Hroute).
  destruct (is_success _); [|done].
  rewrite invalidateUserCache_lookup.
  fold (caller_pattern (user_id (req_user req)) key). done.
Qed.

(** The caches the routes build.  The mounted middlewares and both
    invalidations keep a cache route-built, starting from the empty one. *)
Lemma route_built_empty o f : route_built {| isOpen := o; faulty := f; store := ∅ |}.
Proof. intros key e. simpl. by rewrite lookup_empty. Qed.

Lemma cacheMiddleware_route_built keyGenerator expiration next c req :
  (∀ r, route_key (keyGenerator r)) →
  route_built c →
  route_built (cacheMiddleware keyGenerator expiration next c req).1.
Proof.
  intros Hkg Hc. unfold cacheMiddleware.
  destruct (getCache c (keyGenerator req)); [done|].
  destruct (_ && _); [|done]. cbn [fst].
  unfold setCache. destruct (isOpen c); [|done]. destruct (faulty c); [done|].
  intros key e. simpl.
  destruct (decide (key = keyGenerator req)) as [->|Hne]; [by intros _|].
  rewrite lookup_insert_ne by done. apply Hc.
Qed.

Lemma mounted_caches_route_built next c req :
  route_built c →
  route_built (cacheTransactions next c req).1 ∧
  route_built (cacheAnalytics next c req).1 ∧
  route_built (cacheCategories next c req).1.
Proof.
  intros Hc. repeat split; apply cacheMiddleware_route_built; try done.
  - intros r. left. by exists r.
  - intros r. right; left. by exists r.
  - intros r. right; right. by exists r.
Qed.

Lemma invalidations_route_built c userId :
  route_built c →
  route_built (invalidateUserCache c userId) ∧
  route_built (invalidateCategoriesCache c).
Proof.
  intros Hc. split; intros key e.
  - rewrite invalidateUserCache_lookup. destruct (_ && _); [done|apply Hc].
  - unfold invalidateCategoriesCache, deleteCache.
    destruct (isOpen c); [|apply Hc]. destruct (faulty c); [apply Hc|].
    simpl. intros [_ He]%lookup_delete_Some. by eapply Hc.
Qed.

(** C10.  On a cache as the routes build it, a mutating transaction route
    entered by a caller (an admin acting on another user's transaction in
    particular) deletes only keys under the caller's own prefixes,
    [analytics:<id>:], [transactions:<id>:] and [user_analytics:<id>], and
    writes none; every entry under the prefixes of any other user, the
    owner of the transaction included, is as before; when the answer is a
    success and the client works, every key under the caller's prefixes is
    gone; and the cache is still one the routes build. *)
Theorem mutation_invalidates_own_prefixes_only route db c req ownerId :
  route_built c →
  route ∈ mutating_routes →
  ownerId ≠ user_id (req_user req) →
  let callerId := user_id (req_user req) in
  let c' := (route db c req).1 in
  (∀ key, store c' !! key ≠ store c !! key →
          store c' !! key = None ∧ under_prefix callerId key) ∧
  (∀ key, under_prefix ownerId key → store c' !! key = store c !! key) ∧
  (working c → is_success (route db c req).2.2 = true →
   ∀ key, under_prefix callerId key → store c' !! key = None) ∧
  route_built c'.
Proof.
  intros Hbuilt Hroute Hne callerId c'. subst callerId c'.
  pose proof (mutating_route_lookup route db c req) as Hlookup.
  split; [|split; [|split]].
  - intros key. rewrite Hlookup by done.
    destruct (_ && caller_pattern _ _) eqn:Hcond; [|done].
    intros _. split; [done|].
    apply caller_pattern_under_prefix.
    by apply andb_true_iff in Hcond as [_ ?].
  - intros key Hkey. rewrite Hlookup by done.
    destruct (store c !! key) as [e|] eqn:He;
      [|by destruct (_ && caller_pattern _ _)].
    rewrite (route_key_one_user (user_id (req_user req)) ownerId key);
      [|by apply not_eq_sym|by eapply Hbuilt|done].
    by rewrite andb_false_r.
  - intros [Ho Hf] Hok key Hkey. rewrite Hlookup by done.
    apply caller_pattern_under_prefix in Hkey.
    by rewrite Hok, Ho, Hf, Hkey.
  - intros key e. rewrite Hlookup by done.
    destruct (_ && caller_pattern _ _); [done|apply Hbuilt].
Qed.

Lemma mutation_invalidates_own_prefixes_only_witness :
  let c := connected {[ "transactions:12:1:10:all:all:none" := cached "carol page 1" 300;
                        "analytics:12:month" := cached "carol dashboard" 900;
                        "transactions:1:1:10:all:all:none" := cached "admin page 1" 300 ]} in
  let req := on_transaction seeded_admin 7 lunch [] in
  user_role (req_user req) = admin ∧
  Sql.transactions_by_id_user seeded_db (Some 7) 12 = [rent] ∧
  statusCode (Routes.put_id seeded_db c req).2.2 = 200 ∧
  store (Routes.put_id seeded_db c req).1 !! "transactions:12:1:10:all:all:none"
  = Some (cached "carol page 1" 300) ∧
  store (Routes.put_id seeded_db c req).1 !! "analytics:12:month"
  = Some (cached "carol dashboard" 900) ∧
  store (Routes.put_id seeded_db c req).1 !! "transactions:1:1:10:all:all:none" = None.
Proof.
  intros c req.
  assert (route_built c) as Hbuilt.
  { intros key e He. unfold c, connected in He. cbn [store] in He.
    apply lookup_insert_Some in He as [[<- _]|[_ He]].
    { left. by exists (on_list carol empty_query). }
    apply lookup_insert_Some in He as [[<- _]|[_ He]].
    { right; left. by exists (on_list carol empty_query). }
    apply lookup_singleton_Some in He as [<- _].
    left. by exists (on_list seeded_admin empty_query). }
  assert (Routes.put_id ∈ mutating_routes) as Hroute.
  { unfold mutating_routes. rewrite !elem_of_cons. right; left. reflexivity. }
  assert (12 ≠ user_id (req_user req)) as Hne by done.
  assert (working c) as Hw by (split; reflexivity).
  assert (is_success (Routes.put_id seeded_db c req).2.2 = true) as Hok
      by reflexivity.
  destruct (mutation_invalidates_own_prefixes_only
              Routes.put_id seeded_db c req 12 Hbuilt Hroute Hne)
    as (_ & Howner & Hown & _).
  split; [reflexivity|]. split; [reflexivity|]. split; [reflexivity|].
  split; [|split].
  - etrans; [apply Howner|reflexivity].
    right; left. by exists "1:10:all:all:none".
  - etrans; [apply Howner|reflexivity].
    left. by exists "month".
  - apply (Hown Hw Hok). right; left. by exists "1:10:all:all:none".
Defined.

(** The pattern [user_analytics:<id>*] has no separator before the star and
    so reaches the entries of every user whose id, written in decimal,
    starts with the caller's.  No route stores such an entry; on a cache
    that held one, the seeded admin (id 1) deleting a transaction of user 12
    would remove [user_analytics:12]. *)
Remark user_analytics_pattern_reaches_longer_ids :
  let c := connected {[ "user_analytics:12" := cached "carol" 900 ]} in
  let req := on_transaction seeded_admin 7 lunch [] in
  ¬ route_built c ∧
  glob ("user_analytics:" +:+ pretty 1 +:+ "*") "user_analytics:12" = true ∧
  store (Routes.delete_id seeded_db c req).1 !! "user_analytics:12" = None.
Proof.
  intros c req. split; [|split; reflexivity].
  intros Hbuilt.
  apply (route_key_not_user_analytics "12").
  apply (Hbuilt _ (cached "carol" 900)). reflexivity.
Qed.

End Invalidation.

(** ** The kind invariant *)

Section KindInvariant.

Import TransactionController CategoryController.

Lemma categories_by_id_unique db i c rest c' :
  category_ids_unique db →
  Sql.categories_by_id db (Some i) = c :: rest →
  c' ∈ db_categories db → cat_id c' = i → c' = c.
Proof.
  unfold category_ids_unique, Sql.categories_by_id. intros Hnd Hsel Hin Hid.
  assert (c ∈ filter (λ c, Sql.matches (cat_id c) (Some i)) (db_categories db)) as Hc.
  { rewrite Hsel. left. }
  apply list_elem_of_filter in Hc as [Hci Hc]. unfold Sql.matches in Hci.
  injection Hci as Hci.
  apply list_elem_of_lookup in Hin as [j Hj], Hc as [k Hk].
  assert (j = k) as ->.
  { apply (NoDup_lookup _ j k i Hnd); rewrite list_lookup_fmap.
    - by rewrite Hj; simpl; f_equal.
    - by rewrite Hk; simpl; f_equal. }
  congruence.
Qed.

(** What passing the category check gives. *)
Lemma check_category_None db b :
  category_ids_unique db →
  check_category db b = None →
  Forall (fun c => cat_id c = b_category_id b → cat_type c = b_type b)
         (db_categories db).
Proof.
  intros Hnd. unfold check_category.
  destruct (Sql.categories_by_id db (Some (b_category_id b))) as [|c rest] eqn:Hsel;
    [done|].
  case_decide as Hty; [done|]. intros _.
  apply Forall_forall. intros c' Hin Hid.
  rewrite (categories_by_id_unique db _ c rest c' Hnd Hsel Hin Hid).
  by destruct (decide (cat_type c = b_type b)).
Qed.

(** Create and update refuse a kind other than the category's. *)
Lemma check_category_mismatch db b c rest :
  Sql.categories_by_id db (Some (b_category_id b)) = c :: rest →
  cat_type c ≠ b_type b →
  check_category db b
  = Some (fail 400 "Category type does not match transaction type").
Proof. intros Hsel Hty. unfold check_category. rewrite Hsel. by case_decide. Qed.

Lemma createTransaction_rejects_mismatch db req c rest :
  req_errors req = [] →
  Sql.int4 (b_category_id (req_body req)) = true →
  Sql.categories_by_id db (Some (b_category_id (req_body req))) = c :: rest →
  cat_type c ≠ b_type (req_body req) →
  createTransaction db req
  = (db, fail 400 "Category type does not match transaction type").
Proof.
  intros He Hint Hsel Hty. unfold createTransaction.
  by rewrite He, Hint, (check_category_mismatch _ _ _ _ Hsel Hty).
Qed.

Lemma updateTransaction_rejects_mismatch db req c rest row rows :
  req_errors req = [] →
  Sql.readable (req_params_id req) = true →
  select_existing db req = row :: rows →
  Sql.int4 (b_category_id (req_body req)) = true →
  Sql.categories_by_id db (Some (b_category_id (req_body req))) = c :: rest →
  cat_type c ≠ b_type (req_body req) →
  updateTransaction db req
  = (db, fail 400 "Category type does not match transaction type").
Proof.
  intros He Hid Hrow Hint Hsel Hty. unfold updateTransaction.
  by rewrite He, Hid, Hrow, Hint, (check_category_mismatch _ _ _ _ Hsel Hty).
Qed.

Lemma check_category_status db b r :
  check_category db b = Some r → statusCode r = 400.
Proof.
  unfold check_category.
  destruct (Sql.categories_by_id db (Some (b_category_id b))); [by intros [= <-]|].
  case_decide; [by intros [= <-]|done].
Qed.

(** A handler either answers an error and leaves the store as it is, or
    has run its writing statement, every check before it having passed. *)
Lemma createTransaction_written db req :
  (∃ r, createTransaction db req = (db, r) ∧ 400 ≤ statusCode r) ∨
  req_errors req = [] ∧
  Sql.int4 (b_category_id (req_body req)) = true ∧
  check_category db (req_body req) = None ∧
  Sql.decimal_12_2 (b_amount (req_body req)) = true ∧
  Sql.int4 (db_transactions_seq db) = true ∧
  createTransaction db req
  = (let '(db', t) :=
       Sql.insert_transaction db (user_id (req_user req)) (req_body req) in
     (db', ok 201 (Some "Transaction created successfully")
              ((fun t' => DTransaction t' (Sql.left_join_category db' t'))
                 <$> head (Sql.transactions_by_id db' (Some (tx_id t)))))).
Proof.
  unfold createTransaction.
  destruct (req_errors req); [|left; by eexists].
  destruct (Sql.int4 (b_category_id (req_body req))); [|left; by eexists].
  destruct (check_category db (req_body req)) as [r|] eqn:Hcheck.
  { left. exists r. split; [done|]. apply check_category_status in Hcheck. lia. }
  destruct (Sql.decimal_12_2 (b_amount (req_body req))); [|left; by eexists].
  destruct (Sql.int4 (db_transactions_seq db)); [|left; by eexists].
  by right.
Qed.

Lemma updateTransaction_written db req :
  (∃ r, updateTransaction db req = (db, r) ∧ 400 ≤ statusCode r) ∨
  req_errors req = [] ∧
  Sql.readable (req_params_id req) = true ∧
  select_existing db req ≠ [] ∧
  Sql.int4 (b_category_id (req_body req)) = true ∧
  check_category db (req_body req) = None ∧
  Sql.decimal_12_2 (b_amount (req_body req)) = true ∧
  updateTransaction db req
  = (let db' := Sql.update_transaction db (req_params_id req) (req_body req) in
     (db', ok 200 (Some "Transaction updated successfully")
              ((fun t => DTransaction t (Sql.left_join_category db' t))
                 <$> head (Sql.transactions_by_id db' (req_params_id req))))).
Proof.
  unfold updateTransaction.
  destruct (req_errors req); [|left; by eexists].
  destruct (Sql.readable (req_params_id req)); [|left; by eexists].
  destruct (select_existing db req); [left; by eexists|].
  destruct (Sql.int4 (b_category_id (req_body req))); [|left; by eexists].
  destruct (check_category db (req_body req)) as [r|] eqn:Hcheck.
  { left. exists r. split; [done|]. apply check_category_status in Hcheck. lia. }
  destruct (Sql.decimal_12_2 (b_amount (req_body req))); [|left; by eexists].
  by right.
Qed.

Lemma deleteTransaction_written db req :
  (∃ r, deleteTransaction db req = (db, r) ∧ 400 ≤ statusCode r) ∨
  Sql.readable (req_params_id req) = true ∧
  select_existing db req ≠ [] ∧
  deleteTransaction db req
  = (Sql.delete_transaction db (req_params_id req),
     ok 200 (Some "Transaction deleted successfully") None).
Proof.
  unfold deleteTransaction.
  destruct (Sql.readable (req_params_id req)); [|left; by eexists].
  destruct (select_existing db req); [left; by eexists|].
  by right.
Qed.

Lemma updateCategory_written db req :
  (∃ r, updateCategory db req = (db, r) ∧ 400 ≤ statusCode r) ∨
  req_errors req = [] ∧
  Sql.readable (req_params_id req) = true ∧
  Sql.categories_by_id db (req_params_id req) ≠ [] ∧
  Sql.categories_by_name_except db (b_name (req_body req)) (req_params_id req)
  = [] ∧
  updateCategory db req
  = (let db' := Sql.update_category db (req_params_id req) (req_body req) in
     (db', ok 200 (Some "Category updated successfully")
              (DCategory <$> head (Sql.categories_by_id db' (req_params_id req))))).
Proof.
  unfold updateCategory.
  destruct (req_errors req); [|left; by eexists].
  destruct (Sql.readable (req_params_id req)); [|left; by eexists].
  destruct (Sql.categories_by_id db (req_params_id req)); [left; by eexists|].
  destruct (Sql.categories_by_name_except _ _ _); [|left; by eexists].
  by right.
Qed.

Lemma deleteCategory_written db req :
  (∃ r, deleteCategory db req = (db, r) ∧ 400 ≤ statusCode r) ∨
  Sql.readable (req_params_id req) = true ∧
  Sql.categories_by_id db (req_params_id req) ≠ [] ∧
  Sql.count_transactions_of_category db (req_params_id req) ≤ 0 ∧
  deleteCategory db req
  = (Sql.delete_category db (req_params_id req),
     ok 200 (Some "Category deleted successfully") None).
Proof.
  unfold deleteCategory.
  destruct (Sql.readable (req_params_id req)); [|left; by eexists].
  destruct (Sql.categories_by_id db (req_params_id req)); [left; by eexists|].
  destruct (Z.ltb_spec 0 (Sql.count_transactions_of_category db (req_params_id req)));
    [left; by eexists|].
  by right.
Qed.

(** The transaction handlers keep the invariant. *)
Lemma createTransaction_kinds_agree db req :
  category_ids_unique db → kinds_agree db →
  kinds_agree (createTransaction db req).1.
Proof.
  intros Hnd Hinv.
  destruct (createTransaction_written db req)
    as [(r & -> & _) | (_ & _ & Hcheck & _ & _ & ->)]; [done|].
  simpl. unfold kinds_agree. simpl.
  apply Forall_app. split; [done|].
  constructor; [|constructor]. simpl.
  by apply check_category_None.
Qed.

Lemma updateTransaction_kinds_agree db req :
  category_ids_unique db → kinds_agree db →
  kinds_agree (updateTransaction db req).1.
Proof.
  intros Hnd Hinv.
  destruct (updateTransaction_written db req)
    as [(r & -> & _) | (_ & _ & _ & _ & Hcheck & _ & ->)]; [done|].
  simpl. unfold kinds_agree. simpl.
  apply Forall_forall. intros t' Hin.
  apply list_elem_of_In, in_map_iff in Hin as (tx & <- & Hin).
  apply list_elem_of_In in Hin.
  case_decide.
  - simpl. by apply check_category_None.
  - unfold kinds_agree in Hinv. rewrite Forall_forall in Hinv. by apply Hinv.
Qed.

Lemma deleteTransaction_kinds_agree db req :
  kinds_agree db → kinds_agree (deleteTransaction db req).1.
Proof.
  intros Hinv.
  destruct (deleteTransaction_written db req)
    as [(r & -> & _) | (_ & _ & ->)]; [done|].
  simpl. unfold kinds_agree in *. simpl.
  apply Forall_forall. intros tx Hin.
  apply list_elem_of_filter in Hin as [_ Hin].
  rewrite Forall_forall in Hinv. by apply Hinv.
Qed.

Lemma deleteCategory_kinds_agree db req :
  kinds_agree db → kinds_agree (deleteCategory db req).1.
Proof.
  intros Hinv.
  destruct (deleteCategory_written db req)
    as [(r & -> & _) | (_ & _ & _ & ->)]; [done|].
  simpl. unfold kinds_agree in *. simpl.
  eapply Forall_impl; [exact Hinv|]. intros tx Ht. simpl in Ht.
  apply Forall_forall. intros cat Hin.
  apply list_elem_of_filter in Hin as [_ Hin].
  rewrite Forall_forall in Ht. by apply Ht.
Qed.

(** C2. No operation is to leave a transaction whose kind differs from its
    category's.  Create and update of a transaction check the kind (lemmas
    above); [updateCategory] writes the submitted kind without looking at the
    transactions that reference the category.  The admin turns [Salary] into
    an expense category: the answer is 200 and Alice's pay, an income, now
    references an expense category. *)
Theorem updateCategory_breaks_kind_invariant :
  let out := updateCategory sample_db flip_salary in
  kinds_agree sample_db ∧ category_ids_unique sample_db ∧
  statusCode out.2 = 200 ∧
  message (json out.2) = Some "Category updated successfully" ∧
  db_transactions out.1 = [paycheck] ∧
  Sql.categories_by_id out.1 (Some (tx_category_id paycheck))
  = [{| cat_id := 1; cat_name := "Salary"; cat_type := "expense";
        cat_color := Some "#10b981" |}] ∧
  tx_type paycheck = "income" ∧
  ¬ kinds_agree out.1.
Proof.
  repeat split; try reflexivity.
  - by apply (bool_decide_unpack _).
  - by apply (bool_decide_unpack _).
  - by apply (bool_decide_eq_false_1 _).
Qed.

End KindInvariant.

(** ** Ownership filter of the handlers, and authentication *)

Section OwnershipFilter.

Import TransactionController.

Lemma select_existing_non_admin db req :
  user_role (req_user req) ≠ admin →
  user_id (req_user req) ≠ 0 →
  select_existing db req
  = Sql.transactions_by_id_user db (req_params_id req) (user_id (req_user req)).
Proof.
  intros Hrole Hid. unfold select_existing, scope_user.
  destruct (user_role (req_user req)); [done| |]; simpl;
    by destruct (Z.eqb_spec (user_id (req_user req)) 0).
Qed.

Lemma select_existing_admin db req :
  user_role (req_user req) = admin →
  select_existing db req = Sql.transactions_by_id db (req_params_id req).
Proof. intros H. unfold select_existing, scope_user. by rewrite H. Qed.

(** C4, as the specification words it: whenever no row matches the
    ownership filter the answer is 404.  [updateTransaction] looks at the
    validation result before it selects: Bob's update of Alice's transaction
    with an invalid date is answered 400. *)
Lemma update_with_invalid_body_answers_400 :
  ¬ (∀ db req,
       user_role (req_user req) ≠ admin →
       user_id (req_user req) ≠ 0 →
       Sql.transactions_by_id_user db (req_params_id req)
         (user_id (req_user req)) = [] →
       (updateTransaction db req).2 = fail 404 "Transaction not found").
Proof.
  intros H.
  specialize (H sample_db
                (on_transaction bob 1 lunch ["Date must be a valid date"])
                ltac:(done) ltac:(done) eq_refl).
  vm_compute in H. discriminate.
Qed.

(** An id beyond INTEGER makes the select fail: the answer is 500, whoever
    owns what. *)
Example delete_with_unreadable_id_answers_500 :
  deleteTransaction sample_db (on_transaction bob 99999999999 lunch [])
  = (sample_db, fail 500 "Internal server error").
Proof. reflexivity. Qed.

(** C4, amended.  For a non-admin caller (ids are SERIAL, hence non-zero)
    update and delete select the row by id and by the caller's id; when no
    row matches, be it absent or another user's, nothing is written.  For an
    id the database reads as INTEGER delete answers 404, and update answers
    404 when the body passed validation and 400 with the validation errors
    otherwise.  For an id it cannot read the select is rejected and the
    answer is 500, after the same 400 of update. *)
Theorem unmatched_row_is_not_found_and_untouched db req :
  user_role (req_user req) ≠ admin →
  user_id (req_user req) ≠ 0 →
  Sql.transactions_by_id_user db (req_params_id req) (user_id (req_user req)) = [] →
  select_existing db req = [] ∧
  (deleteTransaction db req).1 = db ∧
  (updateTransaction db req).1 = db ∧
  (Sql.readable (req_params_id req) = true →
   deleteTransaction db req = (db, fail 404 "Transaction not found") ∧
   updateTransaction db req
   = (db, match req_errors req with
          | [] => fail 404 "Transaction not found"
          | _ :: _ => validation_failed (req_errors req)
          end)) ∧
  (Sql.readable (req_params_id req) = false →
   deleteTransaction db req = (db, fail 500 "Internal server error") ∧
   updateTransaction db req
   = (db, match req_errors req with
          | [] => fail 500 "Internal server error"
          | _ :: _ => validation_failed (req_errors req)
          end)).
Proof.
  intros Hrole Hid Hnone.
  assert (select_existing db req = []) as Hsel.
  { by rewrite select_existing_non_admin. }
  unfold deleteTransaction, updateTransaction. rewrite Hsel.
  split; [done|].
  destruct (Sql.readable (req_params_id req)), (req_errors req);
    repeat split; try done; by intros [=].
Qed.

Lemma unmatched_row_is_not_found_and_untouched_witness :
  let req := on_transaction bob 1 lunch [] in
  Sql.transactions_by_id sample_db (Some 1) = [paycheck] ∧
  Sql.transactions_by_id_user sample_db (Some 1) (user_id bob) = [] ∧
  deleteTransaction sample_db req = (sample_db, fail 404 "Transaction not found") ∧
  updateTransaction sample_db req = (sample_db, fail 404 "Transaction not found").
Proof.
  intros req.
  split; [reflexivity|]. split; [reflexivity|].
  assert (user_role (req_user req) ≠ admin) as Hrole by done.
  assert (user_id (req_user req) ≠ 0) as Hid by done.
  destruct (unmatched_row_is_not_found_and_untouched sample_db req Hrole Hid eq_refl)
    as (_ & _ & _ & Hread & _).
  destruct (Hread eq_refl) as [Hdel Hupd].
  split; [exact Hdel|exact Hupd].
Defined.

(** The answer carries nothing about rows of other users: two stores that
    both have no row of the caller under the id give the same answer. *)
Corollary unmatched_answers_agree db1 db2 req :
  user_role (req_user req) ≠ admin →
  user_id (req_user req) ≠ 0 →
  Sql.transactions_by_id_user db1 (req_params_id req) (user_id (req_user req)) = [] →
  Sql.transactions_by_id_user db2 (req_params_id req) (user_id (req_user req)) = [] →
  (deleteTransaction db1 req).2 = (deleteTransaction db2 req).2 ∧
  (updateTransaction db1 req).2 = (updateTransaction db2 req).2 ∧
  (getTransaction db1 req) = (getTransaction db2 req).
Proof.
  intros Hrole Hid H1 H2.
  unfold deleteTransaction, updateTransaction, getTransaction.
  rewrite !select_existing_non_admin, H1, H2 by done.
  repeat split;
    by destruct (req_errors req), (Sql.readable (req_params_id req)).
Qed.

End OwnershipFilter.

(** The routes on one transaction, gate and handler together. *)

Section RoutesOnOneTransaction.

Import TransactionController Cache.

Lemma invalidateCacheAfterModification_answer {S} f (next : Request → S * Response) c req :
  (invalidateCacheAfterModification f next c req).2 = next req.
Proof. unfold invalidateCacheAfterModification. by destruct (_ && _). Qed.

(** For a plain user the three routes answer 404 for a transaction that is
    not the caller's, be it absent or another user's (under an id the
    database reads): the gate contributes nothing, and the 403 it holds is
    never sent. *)
Lemma id_routes_answer_404_for_other_owner db c req :
  user_role (req_user req) = user →
  user_id (req_user req) ≠ 0 →
  Sql.readable (req_params_id req) = true →
  Sql.transactions_by_id_user db (req_params_id req) (user_id (req_user req)) = [] →
  (Routes.get_id db c req).2.2 = fail 404 "Transaction not found" ∧
  (Routes.delete_id db c req).2.2 = fail 404 "Transaction not found" ∧
  (Routes.put_id db c req).2.2
  = match req_errors req with
    | [] => fail 404 "Transaction not found"
    | _ :: _ => validation_failed (req_errors req)
    end.
Proof.
  intros Hrole Hid Hread Hnone.
  assert (select_existing db (Routes.matched "/:id" req) = []) as Hsel.
  { rewrite select_existing_non_admin; simpl; [done| |done]. by rewrite Hrole. }
  unfold Routes.get_id, Routes.delete_id, Routes.put_id.
  rewrite checkDataOwnership_id_route.
  unfold Auth.requireAnyRole, Auth.requireUserOrAdmin, Auth.requireRole.
  simpl. rewrite Hrole. simpl.
  unfold invalidateUserCacheAfterTransaction.
  rewrite !invalidateCacheAfterModification_answer.
  unfold getTransaction, deleteTransaction, updateTransaction.
  rewrite Hsel. simpl. rewrite Hread. simpl.
  repeat split. by destruct (req_errors req).
Qed.

End RoutesOnOneTransaction.

Section Authentication.

Import Auth.

Example bearer_token_plain : bearer_token (Some "Bearer abc.def.ghi") = Some "abc.def.ghi".
Proof. reflexivity. Qed.

Example bearer_token_absent : bearer_token None = None.
Proof. reflexivity. Qed.

Example bearer_token_no_second_part : bearer_token (Some "Bearer") = None.
Proof. reflexivity. Qed.

Lemma users_by_id_Some db uid u rest :
  Sql.users_by_id db uid = u :: rest → ∃ i, uid = Some i ∧ user_id u = i ∧ u ∈ db_users db.
Proof.
  destruct uid as [i|]; simpl; [|done]. intros H.
  assert (u ∈ filter (λ u, user_id u = i) (db_users db)) as Hin.
  { rewrite H. left. }
  apply list_elem_of_filter in Hin as [??]. eauto.
Qed.

Lemma string_app_nil_r (s : string) : s +:+ "" = s.
Proof. induction s as [|c s IH]; [done|]. by rewrite string_app_cons, IH. Qed.

Lemma rev_app_app s acc t :
  String.rev_app s acc +:+ t = String.rev_app s (acc +:+ t).
Proof.
  revert acc. induction s as [|c s IH]; intros acc; [done|].
  simpl. by rewrite IH.
Qed.

Lemma split_go_no_space s cur :
  all_chars no_space s = true → split_go s cur = [String.rev cur +:+ s].
Proof.
  revert cur. induction s as [|c s IH]; intros cur Hs.
  - simpl. by rewrite string_app_nil_r.
  - simpl in Hs. apply andb_true_iff in Hs as [Hc Hs].
    cbn [split_go]. unfold no_space in Hc.
    destruct (Ascii.eqb c " "); [done|].
    rewrite IH by done. unfold String.rev. simpl.
    by rewrite !rev_app_app.
Qed.

(** [split(' ')] cuts at the first space. *)
Lemma split_go_first_space a b cur :
  all_chars no_space a = true →
  split_go (a +:+ " " +:+ b) cur = (String.rev cur +:+ a) :: split_go b "".
Proof.
  revert cur. induction a as [|c a IH]; intros cur Ha.
  - simpl. by rewrite string_app_nil_r.
  - simpl in Ha. apply andb_true_iff in Ha as [Hc Ha].
    rewrite string_app_cons. cbn [split_go]. unfold no_space in Hc.
    destruct (Ascii.eqb c " "); [done|].
    rewrite IH by done. unfold String.rev. simpl.
    by rewrite !rev_app_app.
Qed.

(** A text has no space, or a first one. *)
Lemma first_space s :
  all_chars no_space s = true ∨
  ∃ a b, s = a +:+ " " +:+ b ∧ all_chars no_space a = true.
Proof.
  induction s as [|c s IH]; [by left|].
  destruct (Ascii.eqb_spec c " ") as [->|Hc].
  - right. by exists "", s.
  - assert (no_space c = true) as Hns.
    { unfold no_space. by destruct (Ascii.eqb_spec c " "). }
    destruct IH as [Hs | (a & b & -> & Ha)].
    + left. simpl. by rewrite Hns, Hs.
    + right. exists (String c a), b. split; [done|]. simpl. by rewrite Hns, Ha.
Qed.

(** The pieces of [split(' ')]: the second one is the text between the
    first two spaces. *)
Lemma split_space_second s token :
  split_space s !! 1%nat = Some token ↔
  ∃ scheme tail,
    s = scheme +:+ " " +:+ token +:+ tail ∧
    all_chars no_space scheme = true ∧ all_chars no_space token = true ∧
    (tail = "" ∨ ∃ rest, tail = " " +:+ rest).
Proof.
  unfold split_space. split.
  - intros Hsecond. destruct (first_space s) as [Hs | (a & b & -> & Ha)].
    { by rewrite split_go_no_space in Hsecond. }
    rewrite split_go_first_space in Hsecond by done. simpl in Hsecond.
    destruct (first_space b) as [Hb | (a' & b' & -> & Ha')].
    + rewrite split_go_no_space in Hsecond by done.
      injection Hsecond as <-. exists a, "".
      rewrite string_app_nil_r. simpl. auto.
    + rewrite split_go_first_space in Hsecond by done.
      injection Hsecond as <-. exists a, (" " +:+ b'). simpl.
      repeat split; eauto.
  - intros (scheme & tail & -> & Hscheme & Htoken & Htail).
    rewrite split_go_first_space by done. simpl.
    destruct Htail as [-> | [rest ->]].
    + rewrite string_app_nil_r. by rewrite split_go_no_space.
    + by rewrite split_go_first_space.
Qed.

(** What [bearer_token] finds is what the header carries. *)
Lemma bearer_token_carries authHeader token :
  bearer_token authHeader = Some token ↔ carries authHeader token.
Proof.
  unfold bearer_token, carries. split.
  - destruct authHeader as [[|c s]|]; [done| |done].
    destruct (split_space (String c s) !! 1%nat) as [[|d t]|] eqn:Hsecond;
      [done| |done].
    intros [= <-]. apply split_space_second in Hsecond
      as (scheme & tail & Hs & Hscheme & Htoken & Htail).
    exists scheme, tail. rewrite Hs. by repeat split.
  - intros (scheme & tail & -> & Hscheme & Htoken & Hne & Htail).
    assert (split_space (scheme +:+ " " +:+ token +:+ tail) !! 1%nat
            = Some token) as Hsecond.
    { apply split_space_second. by exists scheme, tail. }
    destruct (scheme +:+ " " +:+ token +:+ tail) as [|c s] eqn:Hh.
    { by destruct scheme. }
    rewrite Hsecond. by destruct token.
Qed.

Lemma bearer_token_None authHeader :
  bearer_token authHeader = None ↔ ∀ token, ¬ carries authHeader token.
Proof.
  split.
  - intros Hnone token Hc. apply bearer_token_carries in Hc. congruence.
  - intros Hno. destruct (bearer_token authHeader) as [token|] eqn:Hb; [|done].
    apply bearer_token_carries in Hb. by destruct (Hno token).
Qed.

(** The rows of the user lookup. *)
Lemma users_by_id_first db uid u :
  head (Sql.users_by_id db (Some uid)) = Some u ↔ first_user db uid u.
Proof.
  unfold Sql.users_by_id, first_user.
  induction (db_users db) as [|v l IH].
  - split; [done|]. intros (before & after & Hl & _). by destruct before.
  - rewrite filter_cons. destruct (decide (user_id v = uid)) as [Hv|Hv].
    + simpl. split.
      * intros [= <-]. exists [], l. by repeat split.
      * intros (before & after & Hl & Hu & Hbefore).
        destruct before as [|w before]; simpl in Hl.
        -- by injection Hl as <- _.
        -- injection Hl as -> _. by apply Forall_cons in Hbefore as [? _].
    + rewrite IH. split.
      * intros (before & after & -> & Hu & Hbefore).
        exists (v :: before), after. repeat split; [done|]. by constructor.
      * intros (before & after & Hl & Hu & Hbefore).
        destruct before as [|w before]; simpl in Hl.
        -- injection Hl as -> _. congruence.
        -- injection Hl as -> ->. apply Forall_cons in Hbefore as [_ ?].
           by exists before, after.
Qed.

Lemma users_by_id_none db uid :
  Sql.users_by_id db uid = [] ↔ no_user db uid.
Proof.
  unfold no_user. destruct uid as [i|]; simpl; [|by split].
  split.
  - intros Hnil v Hv [= ->].
    assert (v ∈ filter (λ u, user_id u = user_id v) (db_users db)) as Hin
        by (by apply list_elem_of_filter).
    rewrite Hnil in Hin. by apply not_elem_of_nil in Hin.
  - intros Hno.
    destruct (filter (λ u, user_id u = i) (db_users db)) as [|v rest] eqn:Hrows;
      [done|].
    assert (v ∈ filter (λ u, user_id u = i) (db_users db)) as Hin
        by (rewrite Hrows; left).
    apply list_elem_of_filter in Hin as [Hid Hv].
    destruct (Hno v Hv). by rewrite Hid.
Qed.

(** What the [catch] answers to an error it has no name for: a token signed
    with the secret and not yet active, or one whose user id the lookup
    rejects. *)
Lemma authenticateToken_unnamed_error inspect db authHeader token :
  carries authHeader token →
  inspect token = NotActive
  ∨ (∃ uid, inspect token = Signed false (Some uid) ∧ Sql.int4 uid = false) →
  authenticateToken inspect db authHeader
  = Rejected (fail 500 "Authentication failed").
Proof.
  intros Hc%bearer_token_carries Hst. unfold authenticateToken. rewrite Hc.
  destruct Hst as [-> | (uid & -> & Hint)]; [done|].
  simpl. by rewrite Hint.
Qed.

(** C9. [authenticateToken] attaches a user exactly when the header carries
    a token, the token's signature is valid, it has not expired and the user
    id in it is that of a row of [users]; the row attached is the first such
    row.  Every other outcome is a 401: "Access token is required" when the
    header carries no token, "Invalid token" for a malformed or wrongly
    signed one, "Invalid token - user not found" when no row has the id, and
    "Token expired" exactly for a validly signed token past its expiry.
    Tokens are those the issuer signs. *)
Theorem authenticateToken_outcomes inspect db authHeader :
  issued inspect →
  (∀ u, authenticateToken inspect db authHeader = Attached u ↔
        ∃ token uid, carries authHeader token ∧
                     inspect token = Signed false (Some uid) ∧
                     first_user db uid u) ∧
  (∀ r, authenticateToken inspect db authHeader = Rejected r ↔
        ((∀ token, ¬ carries authHeader token) ∧
         r = fail 401 "Access token is required") ∨
        (∃ token, carries authHeader token ∧
           ((inspect token = Malformed ∨ inspect token = BadSignature) ∧
            r = fail 401 "Invalid token"
            ∨ (∃ uid, inspect token = Signed true uid) ∧
              r = fail 401 "Token expired"
            ∨ (∃ uid, inspect token = Signed false uid ∧ no_user db uid) ∧
              r = fail 401 "Invalid token - user not found"))).
Proof.
  intros Hissued.
  assert (∀ t1 t2, carries authHeader t1 → carries authHeader t2 → t1 = t2)
    as Hfun.
  { intros t1 t2 H1%bearer_token_carries H2%bearer_token_carries. congruence. }
  unfold authenticateToken.
  destruct (bearer_token authHeader) as [token|] eqn:Hb.
  2:{ pose proof (proj1 (bearer_token_None _) Hb) as Hno. split.
      - intros u. split; [done|]. intros (t & ? & Hc & _). by destruct (Hno t).
      - intros r. split.
        + intros [= <-]. by left.
        + intros [[_ ->]|(t & Hc & _)]; [done|by destruct (Hno t)]. }
  apply bearer_token_carries in Hb.
  destruct (Hissued token) as [Hactive Hint].
  destruct (inspect token) as [| | |[] uid] eqn:Hi; cbn [jwt_verify];
    [| |done| |].
  - split.
    + intros u. split; [done|]. intros (t & ? & Hc & Hs & _).
      rewrite (Hfun _ _ Hc Hb) in Hs. congruence.
    + intros r. split.
      * intros [= <-]. right. exists token. split; [done|]. left. auto.
      * intros [[Hno _]|(t & Hc & Hcase)]; [by destruct (Hno token)|].
        rewrite (Hfun _ _ Hc Hb) in Hcase.
        destruct Hcase as [[_ ->]|[[[? ?] _]|[(? & ? & _) _]]]; congruence.
  - split.
    + intros u. split; [done|]. intros (t & ? & Hc & Hs & _).
      rewrite (Hfun _ _ Hc Hb) in Hs. congruence.
    + intros r. split.
      * intros [= <-]. right. exists token. split; [done|]. left. auto.
      * intros [[Hno _]|(t & Hc & Hcase)]; [by destruct (Hno token)|].
        rewrite (Hfun _ _ Hc Hb) in Hcase.
        destruct Hcase as [[_ ->]|[[[? ?] _]|[(? & ? & _) _]]]; congruence.
  - split.
    + intros u. split; [done|]. intros (t & ? & Hc & Hs & _).
      rewrite (Hfun _ _ Hc Hb) in Hs. congruence.
    + intros r. split.
      * intros [= <-]. right. exists token. split; [done|]. right. left. eauto.
      * intros [[Hno _]|(t & Hc & Hcase)]; [by destruct (Hno token)|].
        rewrite (Hfun _ _ Hc Hb) in Hcase.
        destruct Hcase as [[[?|?] _]|[[_ ->]|[(? & ? & _) _]]]; congruence.
  - assert (Sql.readable uid = true) as ->.
    { destruct uid as [i|]; [|done]. simpl. by apply (Hint false). }
    cbn [negb]. split.
    + intros u. split.
      * destruct (Sql.users_by_id db uid) as [|row rest] eqn:Hu; [done|].
        intros [= <-].
        destruct (users_by_id_Some _ _ _ _ Hu) as (i & -> & _).
        exists token, i. split; [done|]. split; [done|].
        apply users_by_id_first. by rewrite Hu.
      * intros (t & i & Hc & Hs & Hu).
        rewrite (Hfun _ _ Hc Hb), Hi in Hs. injection Hs as ->.
        apply users_by_id_first in Hu.
        destruct (Sql.users_by_id db (Some i)); simpl in Hu; congruence.
    + intros r. split.
      * destruct (Sql.users_by_id db uid) eqn:Hu; [|done].
        intros [= <-]. right. exists token. split; [done|]. right. right.
        split; [|done]. exists uid. split; [done|]. by apply users_by_id_none.
      * intros [[Hno _]|(t & Hc & Hcase)]; [by destruct (Hno token)|].
        rewrite (Hfun _ _ Hc Hb) in Hcase.
        destruct Hcase as [[[?|?] _]|[[[? ?] _]|[(u' & Hs & Hu) ->]]];
          try congruence.
        assert (u' = uid) as -> by congruence.
        apply users_by_id_none in Hu. by rewrite Hu.
Qed.

Lemma authenticateToken_outcomes_witness :
  authenticateToken (fun _ => Signed false (Some 2)) sample_db
    (Some "Bearer eyJhbGciOi.eyJ1c2VySWQiOjJ9.c2ln") = Attached bob.
Proof.
  assert (issued (fun _ => Signed false (Some 2))) as Hissued.
  { intros token. split; [done|]. by intros expired uid [= _ <-]. }
  apply (authenticateToken_outcomes _ sample_db
           (Some "Bearer eyJhbGciOi.eyJ1c2VySWQiOjJ9.c2ln") Hissued).
  exists "eyJhbGciOi.eyJ1c2VySWQiOjJ9.c2ln", 2.
  split; [|split; [done|]].
  - exists "Bearer", "".
    split; [reflexivity|]. split; [reflexivity|]. split; [reflexivity|].
    split; [discriminate|by left].
  - exists [alice], [root].
    split; [reflexivity|]. split; [reflexivity|]. by repeat constructor.
Defined.

End Authentication.

(** ** Handlers and the well-formedness of the store *)

Section StoreFacts.

Import TransactionController CategoryController.

Lemma NoDup_fmap_elem_inj {A B} (f : A → B) (l : list A) x y :
  NoDup (f <$> l) → x ∈ l → y ∈ l → f x = f y → x = y.
Proof.
  intros Hnd Hx Hy Hf.
  apply list_elem_of_lookup in Hx as [i Hi], Hy as [j Hj].
  assert (i = j) as ->.
  { apply (NoDup_lookup _ i j (f x) Hnd); rewrite list_lookup_fmap.
    - by rewrite Hi.
    - rewrite Hj. simpl. by rewrite Hf. }
  congruence.
Qed.

Lemma filter_map_stable {A} (P : A → Prop) `{!∀ x, Decision (P x)}
    (f : A → A) (l : list A) :
  (∀ x, x ∈ l → P x → f x = x) →
  (∀ x, x ∈ l → ¬ P x → ¬ P (f x)) →
  filter P (map f l) = filter P l.
Proof.
  induction l as [|a l IH]; intros Hkeep Hout; [done|].
  simpl. rewrite !filter_cons.
  assert (filter P (map f l) = filter P l) as ->.
  { apply IH; intros x Hx; [apply Hkeep|apply Hout]; by right. }
  destruct (decide (P a)) as [Ha|Ha].
  - rewrite (Hkeep a) by (done || left). by rewrite decide_True.
  - rewrite decide_False; [done|]. apply Hout; [left|done].
Qed.

Lemma filter_filter_stable {A} (P Q : A → Prop)
    `{!∀ x, Decision (P x)} `{!∀ x, Decision (Q x)} (l : list A) :
  (∀ x, x ∈ l → P x → Q x) →
  filter P (filter Q l) = filter P l.
Proof.
  induction l as [|a l IH]; intros Himp; [done|].
  rewrite !filter_cons.
  assert (filter P (filter Q l) = filter P l) as Hrec.
  { apply IH. intros x Hx. apply Himp. by right. }
  destruct (decide (Q a)) as [Hq|Hq]; destruct (decide (P a)) as [Hp|Hp].
  - rewrite filter_cons, decide_True by done. by rewrite Hrec.
  - rewrite filter_cons, decide_False by done. done.
  - destruct Hq. apply Himp; [left|done].
  - done.
Qed.

Lemma select_existing_elem db req row :
  row ∈ select_existing db req →
  row ∈ db_transactions db ∧ req_params_id req = Some (tx_id row).
Proof.
  unfold select_existing, Sql.transactions_by_id_user, Sql.transactions_by_id.
  destruct (truthy_id _); intros Hin; apply list_elem_of_filter in Hin.
  - by destruct Hin as [[? _] ?].
  - by destruct Hin as [? ?].
Qed.

Lemma select_existing_owner db req row :
  user_role (req_user req) ≠ admin →
  user_id (req_user req) ≠ 0 →
  row ∈ select_existing db req → tx_user_id row = user_id (req_user req).
Proof.
  intros Hrole Hid. rewrite select_existing_non_admin by done.
  unfold Sql.transactions_by_id_user. intros Hin.
  apply list_elem_of_filter in Hin. by destruct Hin as [[_ ?] _].
Qed.

(** With unique ids, a row found by the caller's filter is the only row
    under that id. *)
Lemma others_do_not_match db req row t :
  user_role (req_user req) ≠ admin →
  user_id (req_user req) ≠ 0 →
  transaction_ids_unique db →
  row ∈ select_existing db req →
  t ∈ db_transactions db →
  tx_user_id t ≠ user_id (req_user req) →
  ¬ Sql.matches (tx_id t) (req_params_id req).
Proof.
  intros Hrole Hid Hnd Hrow Ht Hother Hm.
  destruct (select_existing_elem _ _ _ Hrow) as [Hin Hpar].
  unfold Sql.matches in Hm. rewrite Hpar in Hm. injection Hm as Hm.
  assert (row = t) as <-.
  { by apply (NoDup_fmap_elem_inj tx_id (db_transactions db)). }
  by rewrite (select_existing_owner db req row) in Hother.
Qed.

(** X1. A caller who is not an admin (ids are SERIAL, hence non-zero) cannot
    change what other users own: whatever the request, after create, update
    or delete the rows of the other users are exactly those of before. *)
Theorem other_users_rows_untouched db req :
  user_role (req_user req) ≠ admin →
  user_id (req_user req) ≠ 0 →
  transaction_ids_unique db →
  rows_of_others (user_id (req_user req)) (createTransaction db req).1
  = rows_of_others (user_id (req_user req)) db ∧
  rows_of_others (user_id (req_user req)) (updateTransaction db req).1
  = rows_of_others (user_id (req_user req)) db ∧
  rows_of_others (user_id (req_user req)) (deleteTransaction db req).1
  = rows_of_others (user_id (req_user req)) db.
Proof.
  intros Hrole Hid Hnd. unfold rows_of_others. repeat split.
  - destruct (createTransaction_written db req)
      as [(r & -> & _) | (_ & _ & _ & _ & _ & ->)]; [done|]. simpl.
    rewrite filter_app, filter_cons, decide_False by (simpl; tauto).
    by rewrite filter_nil, app_nil_r.
  - destruct (updateTransaction_written db req)
      as [(r & -> & _) | (_ & _ & Hsel & _ & _ & _ & ->)]; [done|].
    destruct (select_existing db req) as [|row rows] eqn:Hrows; [done|]. simpl.
    assert (row ∈ select_existing db req) as Hrow by (rewrite Hrows; left).
    apply filter_map_stable.
    + intros t Ht Hother. rewrite decide_False; [done|].
      by eapply others_do_not_match.
    + intros t Ht Hmine. case_decide; simpl; tauto.
  - destruct (deleteTransaction_written db req)
      as [(r & -> & _) | (_ & Hsel & ->)]; [done|].
    destruct (select_existing db req) as [|row rows] eqn:Hrows; [done|]. simpl.
    assert (row ∈ select_existing db req) as Hrow by (rewrite Hrows; left).
    apply filter_filter_stable. intros t Ht Hother.
    by eapply others_do_not_match.
Qed.

Lemma other_users_rows_untouched_witness :
  let req := on_transaction bob 1 lunch [] in
  rows_of_others (user_id bob) (updateTransaction sample_db req).1 = [paycheck] ∧
  rows_of_others (user_id bob) (deleteTransaction sample_db req).1 = [paycheck].
Proof.
  intros req.
  assert (user_role (req_user req) ≠ admin) as Hrole by done.
  assert (user_id (req_user req) ≠ 0) as Hid by done.
  assert (transaction_ids_unique sample_db) as Hnd.
  { apply (bool_decide_unpack _). reflexivity. }
  destruct (other_users_rows_untouched sample_db req Hrole Hid Hnd)
    as (_ & Hupd & Hdel).
  split; [exact Hupd|exact Hdel].
Defined.

Lemma filter_none {A} (P : A → Prop) `{!∀ x, Decision (P x)} (l : list A) :
  (∀ x, x ∈ l → ¬ P x) → filter P l = [].
Proof.
  induction l as [|a l IH]; intros Hnot; [done|].
  rewrite filter_cons, decide_False by (apply Hnot; left).
  apply IH. intros x Hx. apply Hnot. by right.
Qed.



(** An amount that passes the validator and does not fit the column: the
    statement is rejected and nothing is written. *)
Example create_with_amount_out_of_range_answers_500 :
  createTransaction sample_db
    (on_transaction bob 0
       {| b_amount := {| dec_units := 10000000000; dec_scale := 0 |};
          b_description := "Lunch"; b_type := "expense"; b_category_id := 5;
          b_date := "2024-02-01"; b_name := ""; b_color := None |} [])
  = (sample_db, fail 500 "Internal server error").
Proof. reflexivity. Qed.


(** X3. A deleted transaction is gone for everybody: once delete has
    answered 200, a GET of the same id answers 404 for any caller, admins
    included, and deleting again answers 404 and changes nothing. *)
Theorem deleted_transaction_is_gone db req req' :
  statusCode (deleteTransaction db req).2 = 200 →
  req_params_id req' = req_params_id req →
  let db' := (deleteTransaction db req).1 in
  Sql.transactions_by_id db' (req_params_id req) = [] ∧
  getTransaction db' req' = fail 404 "Transaction not found" ∧
  deleteTransaction db' req' = (db', fail 404 "Transaction not found").
Proof.
  intros Hok Hid db'.
  assert (Sql.readable (req_params_id req) = true ∧
          db_transactions db'
          = filter (λ t, ¬ Sql.matches (tx_id t) (req_params_id req))
                   (db_transactions db)) as [Hread Htx].
  { subst db'.
    destruct (deleteTransaction_written db req)
      as [(r & Hfail & Hstatus) | (Hread & _ & Hwritten)].
    - rewrite Hfail in Hok. simpl in Hok. lia.
    - by rewrite Hwritten. }
  assert (Sql.transactions_by_id db' (req_params_id req) = []) as Hnone.
  { unfold Sql.transactions_by_id. rewrite Htx. apply filter_none.
    intros x Hx. by apply list_elem_of_filter in Hx as [? _]. }
  assert (select_existing db' req' = []) as Hsel.
  { destruct (select_existing db' req') as [|row rows] eqn:Hs; [done|].
    assert (row ∈ select_existing db' req') as Hrow by (rewrite Hs; left).
    apply select_existing_elem in Hrow as [Hin Hpar].
    assert (row ∈ Sql.transactions_by_id db' (req_params_id req)) as Hbad.
    { apply list_elem_of_filter. split; [|done].
      unfold Sql.matches. by rewrite <-Hid. }
    rewrite Hnone in Hbad. by apply elem_of_nil in Hbad. }
  split; [done|]. unfold getTransaction, deleteTransaction.
  by rewrite Hid, Hread, Hsel.
Qed.

Lemma deleted_transaction_is_gone_witness :
  let req := on_transaction seeded_admin 7 lunch [] in
  let req' := on_transaction carol 7 lunch [] in
  statusCode (getTransaction seeded_db req') = 200 ∧
  statusCode (deleteTransaction seeded_db req).2 = 200 ∧
  getTransaction (deleteTransaction seeded_db req).1 req'
  = fail 404 "Transaction not found".
Proof.
  intros req req'.
  assert (statusCode (deleteTransaction seeded_db req).2 = 200) as Hok
    by reflexivity.
  split; [reflexivity|]. split; [exact Hok|].
  destruct (deleted_transaction_is_gone seeded_db req req' Hok eq_refl)
    as (_ & Hget & _).
  exact Hget.
Defined.

Lemma check_category_exists db b :
  check_category db b = None →
  Exists (fun c => cat_id c = b_category_id b) (db_categories db).
Proof.
  unfold check_category.
  destruct (Sql.categories_by_id db (Some (b_category_id b))) as [|c rest] eqn:Hsel;
    [done|].
  intros _. apply Exists_exists. exists c.
  assert (c ∈ Sql.categories_by_id db (Some (b_category_id b))) as Hin
    by (rewrite Hsel; left).
  apply list_elem_of_filter in Hin as [Hm Hin]. split; [done|].
  unfold Sql.matches in Hm. by injection Hm.
Qed.

Lemma createTransaction_consistent db req :
  consistent db → consistent (createTransaction db req).1.
Proof.
  intros (Hcu & Htu & Hseq & Hex & Hk).
  split; [|split; [|split; [|split]]].
  5: by apply createTransaction_kinds_agree.
  all: destruct (createTransaction_written db req)
         as [(r & -> & _) | (_ & _ & Hcheck & _ & _ & ->)]; [done|]; simpl.
  - done.
  - unfold transaction_ids_unique in *. simpl. rewrite fmap_app.
    apply NoDup_app. split; [done|]. split; [|apply NoDup_singleton].
    intros i Hi Hi'. apply list_elem_of_singleton in Hi'. subst i.
    apply list_elem_of_fmap in Hi as (t & Ht & Hin).
    unfold ids_below_seq in Hseq. rewrite Forall_forall in Hseq.
    specialize (Hseq t Hin). simpl in Ht. lia.
  - unfold ids_below_seq in *. simpl. apply Forall_app. split.
    + eapply Forall_impl; [exact Hseq|]. simpl. intros; lia.
    + constructor; [simpl; lia|constructor].
  - unfold categories_exist in *. simpl. apply Forall_app. split; [done|].
    constructor; [|constructor]. simpl. by apply check_category_exists.
Qed.

Lemma updateTransaction_consistent db req :
  consistent db → consistent (updateTransaction db req).1.
Proof.
  intros (Hcu & Htu & Hseq & Hex & Hk).
  split; [|split; [|split; [|split]]].
  5: by apply updateTransaction_kinds_agree.
  all: destruct (updateTransaction_written db req)
         as [(r & -> & _) | (_ & _ & _ & _ & Hcheck & _ & ->)]; [done|]; simpl.
  - done.
  - unfold transaction_ids_unique in *. simpl.
    rewrite <-list_fmap_compose.
    erewrite list_fmap_ext; [exact Htu|]. intros i x _. simpl. by case_decide.
  - unfold ids_below_seq in *. simpl. apply Forall_fmap.
    eapply Forall_impl; [exact Hseq|]. intros x Hx. simpl. by case_decide.
  - unfold categories_exist in *. simpl. apply Forall_fmap.
    eapply Forall_impl; [exact Hex|]. intros x Hx. simpl.
    case_decide; [|done]. simpl. by apply check_category_exists.
Qed.

Lemma deleteTransaction_consistent db req :
  consistent db → consistent (deleteTransaction db req).1.
Proof.
  intros (Hcu & Htu & Hseq & Hex & Hk).
  split; [|split; [|split; [|split]]].
  5: by apply deleteTransaction_kinds_agree.
  all: destruct (deleteTransaction_written db req)
         as [(r & -> & _) | (_ & _ & ->)]; [done|]; simpl.
  - done.
  - unfold transaction_ids_unique in *. simpl.
    eapply sublist_NoDup;
      first [exact Htu | apply fmap_sublist, sublist_filter].
  - unfold ids_below_seq in *. simpl.
    apply Forall_forall. intros x Hx. apply list_elem_of_filter in Hx as [_ Hx].
    rewrite Forall_forall in Hseq. by apply Hseq.
  - unfold categories_exist in *. simpl.
    apply Forall_forall. intros x Hx. apply list_elem_of_filter in Hx as [_ Hx].
    rewrite Forall_forall in Hex. by apply Hex.
Qed.

Lemma deleteCategory_consistent db req :
  consistent db → consistent (deleteCategory db req).1.
Proof.
  intros (Hcu & Htu & Hseq & Hex & Hk).
  split; [|split; [|split; [|split]]].
  5: by apply deleteCategory_kinds_agree.
  all: destruct (deleteCategory_written db req)
         as [(r & -> & _) | (_ & _ & Hcount & ->)]; [done|]; simpl.
  - unfold category_ids_unique in *. simpl.
    eapply sublist_NoDup;
      first [exact Hcu | apply fmap_sublist, sublist_filter].
  - done.
  - done.
  - unfold categories_exist in *. simpl.
    apply Forall_forall. intros t Ht.
    rewrite Forall_forall in Hex. specialize (Hex t Ht).
    apply Exists_exists in Hex as (cat & Hc & Hid).
    apply Exists_exists. exists cat. split; [|done].
    apply list_elem_of_filter. split; [|done].
    intros Hm.
    unfold Sql.count_transactions_of_category in Hcount.
    assert (t ∈ filter (λ t, Sql.matches (tx_category_id t) (req_params_id req))
                       (db_transactions db)) as Hin.
    { apply list_elem_of_filter. split; [|done].
      unfold Sql.matches in *. by rewrite <-Hid. }
    destruct (filter _ (db_transactions db)); [by apply elem_of_nil in Hin|].
    simpl in Hcount. lia.
Qed.

(** X4. The handlers keep the store well-formed: if category ids and
    transaction ids are unique, ids lie below the sequence, every
    transaction references an existing category and has that category's
    kind, then the same holds after any create, update or delete of a
    transaction and after any delete of a category, whatever the request
    and whoever sends it. *)
Theorem handlers_keep_store_consistent db req :
  consistent db →
  consistent (createTransaction db req).1 ∧
  consistent (updateTransaction db req).1 ∧
  consistent (deleteTransaction db req).1 ∧
  consistent (deleteCategory db req).1.
Proof.
  intros Hc. split; [by apply createTransaction_consistent|].
  split; [by apply updateTransaction_consistent|].
  split; [by apply deleteTransaction_consistent|].
  by apply deleteCategory_consistent.
Qed.

Lemma handlers_keep_store_consistent_witness :
  let req := on_transaction bob 0 lunch [] in
  consistent sample_db ∧ consistent (createTransaction sample_db req).1 ∧
  length (db_transactions (createTransaction sample_db req).1) = 2%nat.
Proof.
  intros req.
  assert (consistent sample_db) as Hc.
  { repeat split; apply (bool_decide_unpack _); reflexivity. }
  destruct (handlers_keep_store_consistent sample_db req Hc) as (Hcr & _).
  split; [exact Hc|]. split; [exact Hcr|reflexivity].
Defined.

(** X5. Updating a category keeps the primary key and the UNIQUE constraint
    on names: if ids and names are unique before, they are after any
    [updateCategory], and no transaction is touched. *)
Theorem updateCategory_keeps_keys db req :
  category_ids_unique db →
  category_names_unique db →
  category_ids_unique (updateCategory db req).1 ∧
  category_names_unique (updateCategory db req).1 ∧
  db_transactions (updateCategory db req).1 = db_transactions db.
Proof.
  intros Hids Hnames.
  destruct (updateCategory_written db req)
    as [(r & -> & _) | (_ & _ & Hsome & Hdup & ->)]; [done|].
  destruct (Sql.categories_by_id db (req_params_id req)) as [|c0 cs] eqn:Hfound;
    [done|].
  simpl. split; [|split; [|done]].
  - unfold category_ids_unique in *. simpl.
    rewrite <-list_fmap_compose.
    erewrite list_fmap_ext; [exact Hids|]. intros i x _. simpl. by case_decide.
  - unfold category_names_unique, category_ids_unique in *. simpl.
    assert (∀ x, x ∈ db_categories db → cat_name x = b_name (req_body req) →
                 Sql.matches (cat_id x) (req_params_id req)) as Hfree.
    { intros x Hx Hn.
      destruct (decide (Sql.matches (cat_id x) (req_params_id req))) as [|Hm];
        [done|].
      assert (x ∈ Sql.categories_by_name_except db (b_name (req_body req))
                    (req_params_id req)) as Hbad.
      { apply list_elem_of_filter. split; [|done]. split; [done|].
        unfold Sql.differs, Sql.matches in *.
        destruct (req_params_id req) as [i|].
        - intros Heq. apply Hm. by rewrite Heq.
        - assert (c0 ∈ Sql.categories_by_id db None) as Hc0
            by (rewrite Hfound; left).
          by apply list_elem_of_filter in Hc0 as [? _]. }
      rewrite Hdup in Hbad. by apply elem_of_nil in Hbad. }
    revert Hids Hnames Hfree.
    generalize (db_categories db) as cats.
    induction cats as [|a cats IH]; intros Hids Hnames Hfree; [constructor|].
    simpl in *. apply NoDup_cons in Hids as [Ha_id Hids].
    apply NoDup_cons in Hnames as [Ha_name Hnames].
    apply NoDup_cons. split.
    + intros Hin. apply list_elem_of_fmap in Hin as (b' & Heq & Hb').
      apply list_elem_of_In, in_map_iff in Hb' as (b & <- & Hb).
      apply list_elem_of_In in Hb.
      assert (cat_id a ≠ cat_id b) as Hab.
      { intros Hab. apply Ha_id. rewrite Hab. by apply list_elem_of_fmap_2. }
      destruct (decide (Sql.matches (cat_id a) (req_params_id req))) as [Hma|Hma];
        destruct (decide (Sql.matches (cat_id b) (req_params_id req))) as [Hmb|Hmb];
        simpl in Heq.
      * unfold Sql.matches in *. congruence.
      * assert (Sql.matches (cat_id b) (req_params_id req)); [|done].
        apply Hfree; [by right|done].
      * assert (Sql.matches (cat_id a) (req_params_id req)); [|done].
        apply Hfree; [left|done].
      * apply Ha_name. rewrite Heq. by apply list_elem_of_fmap_2.
    + apply IH; [done..|]. intros x Hx. apply Hfree. by right.
Qed.

Lemma updateCategory_keeps_keys_witness :
  category_names_unique sample_db ∧
  statusCode (updateCategory sample_db flip_salary).2 = 200 ∧
  category_names_unique (updateCategory sample_db flip_salary).1.
Proof.
  assert (category_ids_unique sample_db) as Hids.
  { apply (bool_decide_unpack _). reflexivity. }
  assert (category_names_unique sample_db) as Hnames.
  { apply (bool_decide_unpack _). reflexivity. }
  destruct (updateCategory_keeps_keys sample_db flip_salary Hids Hnames)
    as (_ & Hn & _).
  split; [exact Hnames|]. split; [reflexivity|exact Hn].
Defined.

(** X6. A read-only user can read but not write: on the three mutating
    transaction routes the answer is 403 and neither the store nor the cache
    changes, while the read route lets the request reach the handler. *)
Theorem read_only_cannot_mutate db c req :
  user_role (req_user req) = read_only →
  Routes.post db c req = (c, (db, fail 403 "Insufficient permissions")) ∧
  Routes.put_id db c req = (c, (db, fail 403 "Insufficient permissions")) ∧
  Routes.delete_id db c req = (c, (db, fail 403 "Insufficient permissions")) ∧
  Routes.get_id db c req = (c, (db, getTransaction db (Routes.matched "/:id" req))).
Proof.
  intros Hrole.
  unfold Routes.post, Routes.put_id, Routes.delete_id, Routes.get_id.
  rewrite checkDataOwnership_id_route.
  unfold Auth.requireUserOrAdmin, Auth.requireAnyRole, Auth.requireRole.
  simpl. rewrite Hrole. by simpl.
Qed.

Lemma read_only_cannot_mutate_witness :
  let viewer := {| user_id := 4; user_email := "readonly@financetracker.com";
                   user_name := "Read Only User"; user_role := read_only |} in
  let req := on_transaction viewer 1 lunch [] in
  Routes.delete_id sample_db (connected ∅) req
  = (connected ∅, (sample_db, fail 403 "Insufficient permissions")).
Proof.
  intros viewer req.
  destruct (read_only_cannot_mutate sample_db (connected ∅) req eq_refl)
    as (_ & _ & Hdel & _).
  exact Hdel.
Defined.

End StoreFacts.

(** ** The cache helpers and the cache around the routes *)

Section CacheLayer.

Import Redis Cache.

(** X7. What is stored can be read back: on a client whose commands go
    through, [getCache] after [setCache] yields the stored payload under the
    same key and leaves every other key as it was, and after [deleteCache]
    the key is a miss. *)
Theorem cache_set_get_round_trip c key d expiration other :
  working c →
  other ≠ key →
  getCache (setCache c key d expiration).1 key = Some d ∧
  getCache (setCache c key d expiration).1 other = getCache c other ∧
  getCache (deleteCache (setCache c key d expiration).1 key).1 key = None ∧
  getCache (deleteCache c key).1 other = getCache c other.
Proof.
  intros [Ho Hf] Hne. unfold getCache, setCache, deleteCache.
  rewrite Ho, Hf. simpl. rewrite Ho, Hf. simpl.
  rewrite lookup_insert_eq, lookup_delete_eq.
  rewrite lookup_insert_ne, lookup_delete_ne by done.
  rewrite Ho, Hf. done.
Qed.

Lemma cache_set_get_round_trip_witness :
  getCache (setCache (connected ∅) "categories:all"
              (json (page_of [])) 3600).1 "categories:all"
  = Some (json (page_of [])).
Proof.
  assert (working (connected ∅)) as Hw by (split; reflexivity).
  assert ("analytics:1:month" ≠ "categories:all") as Hne by done.
  destruct (cache_set_get_round_trip (connected ∅) "categories:all"
              (json (page_of [])) 3600 "analytics:1:month" Hw Hne)
    as (Hget & _).
  exact Hget.
Defined.

(** X8. Without a usable cache every read is a miss and nothing fails: when
    the client is not open or its commands fail, the helpers leave the
    client as it is, every [getCache] is a miss, the caching middleware
    answers exactly as the route behind it, and the invalidation after a
    mutation changes neither the answer nor the client. *)
Theorem unavailable_cache_is_transparent {S} c keyGenerator expiration
    (next : Request → Response) (mutate : Request → S * Response) req key d :
  isOpen c = false ∨ faulty c = true →
  getCache c key = None ∧
  setCache c key d expiration = (c, false) ∧
  deleteCache c key = (c, false) ∧
  deleteCachePattern c key = (c, false) ∧
  cacheMiddleware keyGenerator expiration next c req = (c, next req) ∧
  invalidateUserCacheAfterTransaction mutate c req = (c, mutate req) ∧
  invalidateCategoriesCacheAfterModification mutate c req = (c, mutate req).
Proof.
  intros Hdown.
  assert (∀ k, getCache c k = None) as Hget.
  { intros k. unfold getCache. destruct Hdown as [-> | ->]; [done|].
    by destruct (isOpen c). }
  assert (∀ k v e, setCache c k v e = (c, false)) as Hset.
  { intros k v e. unfold setCache. destruct Hdown as [-> | ->]; [done|].
    by destruct (isOpen c). }
  assert (∀ k, deleteCache c k = (c, false)) as Hdel.
  { intros k. unfold deleteCache. destruct Hdown as [-> | ->]; [done|].
    by destruct (isOpen c). }
  assert (∀ k, deleteCachePattern c k = (c, false)) as Hpat.
  { intros k. unfold deleteCachePattern. destruct Hdown as [-> | ->]; [done|].
    by destruct (isOpen c). }
  assert (∀ uid, invalidateUserCache c uid = c) as Huser.
  { intros uid. unfold invalidateUserCache. by rewrite !Hpat. }
  assert (invalidateCategoriesCache c = c) as Hcat.
  { unfold invalidateCategoriesCache. by rewrite Hdel. }
  repeat split; try done.
  - unfold cacheMiddleware. rewrite Hget, Hset. by destruct (_ && _).
  - unfold invalidateUserCacheAfterTransaction, invalidateCacheAfterModification.
    rewrite Huser. by destruct (_ && _).
  - unfold invalidateCategoriesCacheAfterModification,
      invalidateCacheAfterModification.
    rewrite Hcat. by destruct (_ && _).
Qed.

Lemma unavailable_cache_is_transparent_witness :
  let c := {| isOpen := false; faulty := false;
              store := {[ "transactions:1:1:10:all:all:none" := cached "old" 300 ]} |} in
  let next := fun _ : Request => page_of [(paycheck, Some salary)] in
  let req := on_list alice empty_query in
  cacheTransactions next c req = (c, next req).
Proof.
  intros c next req.
  assert (isOpen c = false ∨ faulty c = true) as Hdown by (left; reflexivity).
  destruct (unavailable_cache_is_transparent (S := DB) c transactionsKeyGenerator
              300 next (fun r => (sample_db, next r)) req "k" (json (next req)) Hdown)
    as (_ & _ & _ & _ & Hmid & _).
  exact Hmid.
Defined.

(** X9. Asking twice gives the same answer: when the route behind the cache
    answers 200 with a success flag that is not false, a second request
    with the same key on a working client is answered with the payload and
    status of the first, whatever the route would answer the second time. *)
Theorem cached_read_is_repeatable keyGenerator expiration
    (next next' : Request → Response) c req :
  working c →
  statusCode (next req) = 200 →
  success_not_false (json (next req)) = true →
  let first := cacheMiddleware keyGenerator expiration next c req in
  let second := cacheMiddleware keyGenerator expiration next' first.1 req in
  second.2 = first.2 ∧ second.1 = first.1.
Proof.
  intros [Ho Hf] Hstatus Hsucc first second. subst second.
  destruct (getCache c (keyGenerator req)) as [cachedData|] eqn:Hfirst.
  - assert (first = (c, {| statusCode := 200; json := cachedData |})) as ->.
    { by apply cacheMiddleware_hit. }
    cbn [fst snd]. by rewrite (cacheMiddleware_hit _ _ _ _ _ _ Hfirst).
  - assert (first = ((setCache c (keyGenerator req) (json (next req)) expiration).1,
                     next req)) as ->.
    { subst first. unfold cacheMiddleware. by rewrite Hfirst, Hstatus, Hsucc. }
    cbn [fst snd].
    assert (getCache (setCache c (keyGenerator req) (json (next req)) expiration).1
              (keyGenerator req) = Some (json (next req))) as Hhit.
    { unfold getCache, setCache. rewrite Ho, Hf. simpl. rewrite Ho, Hf. simpl.
      by rewrite lookup_insert_eq. }
    rewrite (cacheMiddleware_hit _ _ _ _ _ _ Hhit). cbn [fst snd].
    split; [|done].
    destruct (next req) as [code body]. simpl in *. by subst code.
Qed.

Lemma cached_read_is_repeatable_witness :
  let next := fun _ : Request => page_of [(paycheck, Some salary)] in
  let next' := fun _ : Request => page_of [] in
  let req := on_list alice empty_query in
  let first := cacheTransactions next (connected ∅) req in
  (cacheTransactions next' first.1 req).2 = page_of [(paycheck, Some salary)].
Proof.
  intros next next' req first.
  assert (working (connected ∅)) as Hw by (split; reflexivity).
  destruct (cached_read_is_repeatable transactionsKeyGenerator 300 next next'
              (connected ∅) req Hw eq_refl eq_refl) as [Hsame _].
  exact Hsame.
Defined.

Lemma own_keys_under_prefix req' :
  under_prefix (user_id (req_user req')) (transactionsKeyGenerator req') ∧
  under_prefix (user_id (req_user req')) (analyticsKeyGenerator req').
Proof.
  split; [right; left|left]; eexists; reflexivity.
Qed.

(** X10. No stale list after a write: on a client whose commands go
    through, once a create, update or delete of a transaction has been
    answered with a success, the store of the cache holds no transaction
    list and no dashboard entry for the caller, whatever the query
    parameters of the read that follows, and the client still works, so
    that read is a miss and reaches the handler. *)
Theorem mutation_drops_own_cached_reads route db c req req' :
  working c →
  route ∈ mutating_routes →
  user_id (req_user req') = user_id (req_user req) →
  is_success (route db c req).2.2 = true →
  let c' := (route db c req).1 in
  working c' ∧
  store c' !! transactionsKeyGenerator req' = None ∧
  store c' !! analyticsKeyGenerator req' = None ∧
  getCache c' (transactionsKeyGenerator req') = None ∧
  getCache c' (analyticsKeyGenerator req') = None.
Proof.
  intros [Ho Hf] Hroute Hsame Hok c'.
  assert (∀ key, under_prefix (user_id (req_user req')) key →
                 store c' !! key = None) as Hgone.
  { intros key Hkey. unfold c'.
    rewrite (mutating_route_lookup _ _ _ _ _ Hroute), Hok, Ho, Hf.
    rewrite Hsame in Hkey. apply caller_pattern_under_prefix in Hkey.
    by rewrite Hkey. }
  assert (working c') as Hw.
  { unfold c'. rewrite (mutating_route_client _ _ _ _ Hroute), Hok.
    destruct (invalidateUserCache_client c (user_id (req_user req)))
      as [Ho' Hf'].
    split; congruence. }
  destruct (own_keys_under_prefix req') as [Hlist Hdash].
  split; [done|]. destruct Hw as [Ho' Hf'].
  unfold getCache. rewrite Ho', Hf'. cbn [negb].
  rewrite !Hgone by done. done.
Qed.

Lemma mutation_drops_own_cached_reads_witness :
  let c := connected {[ "transactions:1:1:10:all:all:none" := cached "page 1" 300;
                        "analytics:1:month" := cached "dashboard" 900;
                        "categories:all" := cached "categories" 3600 ]} in
  let req := on_transaction alice 0 lunch [] in
  let req' := on_list alice empty_query in
  store c !! transactionsKeyGenerator req' = Some (cached "page 1" 300) ∧
  statusCode (Routes.post sample_db c req).2.2 = 201 ∧
  store (Routes.post sample_db c req).1 !! transactionsKeyGenerator req' = None ∧
  store (Routes.post sample_db c req).1 !! "categories:all"
  = Some (cached "categories" 3600).
Proof.
  intros c req req'.
  assert (working c) as Hw by (split; reflexivity).
  assert (Routes.post ∈ mutating_routes) as Hroute.
  { unfold mutating_routes. rewrite !elem_of_cons. left. reflexivity. }
  assert (is_success (Routes.post sample_db c req).2.2 = true) as Hok
      by reflexivity.
  destruct (mutation_drops_own_cached_reads Routes.post sample_db c req req'
              Hw Hroute eq_refl Hok) as (_ & Hlist & _).
  split; [reflexivity|]. split; [reflexivity|]. split; [exact Hlist|reflexivity].
Defined.

(** X11. Users never share a cache entry: two requests whose dashboard keys
    coincide come from the same user and ask for the same period, and two
    requests whose transaction-list keys or user-analytics keys coincide
    come from the same user. *)
Theorem cache_keys_separate_users req1 req2 :
  (analyticsKeyGenerator req1 = analyticsKeyGenerator req2 →
   user_id (req_user req1) = user_id (req_user req2) ∧
   ToString (with_default (q_period (req_query req1)) (VStr "month"))
   = ToString (with_default (q_period (req_query req2)) (VStr "month"))) ∧
  (transactionsKeyGenerator req1 = transactionsKeyGenerator req2 →
   user_id (req_user req1) = user_id (req_user req2)) ∧
  (userAnalyticsKeyGenerator req1 = userAnalyticsKeyGenerator req2 →
   user_id (req_user req1) = user_id (req_user req2)).
Proof.
  assert (∀ (u1 u2 : Z) r1 r2,
            pretty u1 +:+ ":" +:+ r1 = pretty u2 +:+ ":" +:+ r2 →
            u1 = u2 ∧ r1 = r2) as Hsplit.
  { intros u1 u2 r1 r2 Heq.
    assert (pretty u1 = pretty u2) as Hu.
    { apply (separated_prefix_inj is_digit_or_dash _ _ ":" r1 r2);
        auto using pretty_Z_chars. }
    rewrite Hu in Heq. do 2 apply (inj (String.app _)) in Heq.
    split; [by apply (inj pretty)|done]. }
  split; [|split].
  - unfold analyticsKeyGenerator. intros Heq.
    apply (inj (String.app _)) in Heq. by apply Hsplit in Heq.
  - unfold transactionsKeyGenerator. intros Heq.
    apply (inj (String.app _)) in Heq. by apply Hsplit in Heq as [? _].
  - unfold userAnalyticsKeyGenerator. intros Heq.
    apply (inj (String.app _)) in Heq. by apply (inj pretty) in Heq.
Qed.

Lemma cache_keys_separate_users_witness :
  analyticsKeyGenerator (on_list alice empty_query)
  ≠ analyticsKeyGenerator (on_list bob empty_query) ∧
  transactionsKeyGenerator (on_list alice empty_query)
  ≠ transactionsKeyGenerator (on_list bob empty_query).
Proof.
  destruct (cache_keys_separate_users (on_list alice empty_query)
              (on_list bob empty_query)) as (Ha & Ht & _).
  split.
  - intros Heq. by destruct (Ha Heq).
  - intros Heq. by specialize (Ht Heq).
Defined.

End CacheLayer.

Section CategoryCache.

Import Redis Cache.

Lemma categories_routes_client db c req :
  ((CategoryRoutes.put_id db c req).1 = c ∨
   is_success (CategoryRoutes.put_id db c req).2.2 = true ∧
   (CategoryRoutes.put_id db c req).1 = invalidateCategoriesCache c) ∧
  ((CategoryRoutes.delete_id db c req).1 = c ∨
   is_success (CategoryRoutes.delete_id db c req).2.2 = true ∧
   (CategoryRoutes.delete_id db c req).1 = invalidateCategoriesCache c).
Proof.
  unfold CategoryRoutes.put_id, CategoryRoutes.delete_id.
  destruct (Auth.requireAdmin _); [|by split; left].
  unfold invalidateCategoriesCacheAfterModification,
    invalidateCacheAfterModification, is_success.
  split.
  - destruct (_ && _) eqn:Hok; [right|by left]. cbn [fst snd]. by rewrite Hok.
  - destruct (_ && _) eqn:Hok; [right|by left]. cbn [fst snd]. by rewrite Hok.
Qed.

(** X12. Changing a category touches one cache entry only: through the
    update and delete routes of a category every key other than
    [categories:all] keeps its entry, a caller who is not an admin gets 403
    with store and cache unchanged, and after a success the category list is
    no longer served from the cache. *)
Theorem category_mutation_drops_category_list_only db c req key :
  key ≠ "categories:all" →
  (store (CategoryRoutes.put_id db c req).1 !! key = store c !! key ∧
   store (CategoryRoutes.delete_id db c req).1 !! key = store c !! key) ∧
  (user_role (req_user req) ≠ admin →
   CategoryRoutes.put_id db c req = (c, (db, fail 403 "Insufficient permissions")) ∧
   CategoryRoutes.delete_id db c req = (c, (db, fail 403 "Insufficient permissions"))) ∧
  (is_success (CategoryRoutes.put_id db c req).2.2 = true →
   getCache (CategoryRoutes.put_id db c req).1 "categories:all" = None) ∧
  (is_success (CategoryRoutes.delete_id db c req).2.2 = true →
   getCache (CategoryRoutes.delete_id db c req).1 "categories:all" = None).
Proof.
  intros Hkey.
  assert (store (invalidateCategoriesCache c) !! key = store c !! key) as Hframe.
  { unfold invalidateCategoriesCache, deleteCache.
    destruct (isOpen c), (faulty c); simpl; try done.
    by rewrite lookup_delete_ne. }
  assert (getCache (invalidateCategoriesCache c) "categories:all" = None) as Hgone.
  { unfold invalidateCategoriesCache, deleteCache, getCache.
    destruct (isOpen c) eqn:Ho, (faulty c) eqn:Hf; simpl; rewrite ?Ho, ?Hf;
      simpl; try done.
    by rewrite lookup_delete_eq. }
  destruct (categories_routes_client db c req) as [Hput Hdel].
  split; [|split; [|split]].
  - split.
    + by destruct Hput as [-> | [_ ->]].
    + by destruct Hdel as [-> | [_ ->]].
  - intros Hrole. unfold CategoryRoutes.put_id, CategoryRoutes.delete_id.
    unfold Auth.requireAdmin, Auth.requireRole. simpl.
    by destruct (user_role (req_user req)).
  - unfold CategoryRoutes.put_id.
    destruct (Auth.requireAdmin _) eqn:Hgate.
    + unfold invalidateCategoriesCacheAfterModification.
      rewrite invalidateCacheAfterModification_answer.
      unfold invalidateCacheAfterModification, is_success. by intros ->.
    + unfold Auth.requireAdmin, Auth.requireRole in Hgate.
      destruct (existsb _ _); [done|]. injection Hgate as <-. done.
  - unfold CategoryRoutes.delete_id.
    destruct (Auth.requireAdmin _) eqn:Hgate.
    + unfold invalidateCategoriesCacheAfterModification.
      rewrite invalidateCacheAfterModification_answer.
      unfold invalidateCacheAfterModification, is_success. by intros ->.
    + unfold Auth.requireAdmin, Auth.requireRole in Hgate.
      destruct (existsb _ _); [done|]. injection Hgate as <-. done.
Qed.

Lemma category_mutation_drops_category_list_only_witness :
  let c := connected {[ "categories:all" := cached "categories" 3600;
                        "analytics:1:month" := cached "dashboard" 900 ]} in
  statusCode (CategoryRoutes.put_id sample_db c flip_salary).2.2 = 200 ∧
  getCache (CategoryRoutes.put_id sample_db c flip_salary).1 "categories:all" = None ∧
  store (CategoryRoutes.put_id sample_db c flip_salary).1 !! "analytics:1:month"
  = Some (cached "dashboard" 900).
Proof.
  intros c.
  assert ("analytics:1:month" ≠ "categories:all") as Hkey by done.
  destruct (category_mutation_drops_category_list_only sample_db c flip_salary
              "analytics:1:month" Hkey) as ((Hput & _) & _ & Hgone & _).
  split; [reflexivity|]. split; [exact (Hgone eq_refl)|].
  etrans; [exact Hput|]. reflexivity.
Defined.

End CategoryCache.

(** ** The statement of the transaction list *)

Section ListStatement.

Import Pagination TransactionList.

Lemma upper_of_lower_char c : upper_char (lower_char c) = upper_char c.
Proof. destruct c as [[] [] [] [] [] [] [] []]; reflexivity. Qed.

Lemma toUpperCase_toLowerCase s : toUpperCase (toLowerCase s) = toUpperCase s.
Proof.
  induction s as [|c s IH]; [done|].
  unfold toUpperCase, toLowerCase in *. simpl.
  by rewrite upper_of_lower_char, IH.
Qed.

(** The filters keep the owner condition in front and add one parameter per
    condition. *)
Lemma list_query_filters req :
  ∃ rest ps,
    whereClause (list_query req) = join " AND " ("t.user_id = $1" :: rest) ∧
    queryParams (list_query req)
    = (target_user req :: ps ++ [PNumber (limitNum (req_query req));
                                 PNumber (offset (req_query req))])%list ∧
    length rest = length ps ∧
    limitPlaceholder (list_query req) = "$" +:+ pretty (Z.of_nat (length ps) + 2) ∧
    offsetPlaceholder (list_query req) = "$" +:+ pretty (Z.of_nat (length ps) + 3).
Proof.
  unfold list_query.
  set (q := req_query req).
  set (f0 := (["t.user_id = $1"], [target_user req])).
  set (f1 := add_filter (q_category q) "t.category_id = " id f0).
  set (f2 := add_filter (q_type q) "t.type = " id f1).
  set (f3 := add_filter (q_search q) "t.description ILIKE "
                        (fun s => "%" +:+ s +:+ "%") f2).
  set (f4 := add_filter (q_start_date q) "t.date >= " id f3).
  set (f5 := add_filter (q_end_date q) "t.date <= " id f4).
  assert (∀ v column wrap acc,
            (∃ rest ps, acc = ("t.user_id = $1" :: rest, target_user req :: ps)
                        ∧ length rest = length ps) →
            ∃ rest ps, add_filter v column wrap acc
                       = ("t.user_id = $1" :: rest, target_user req :: ps)
                       ∧ length rest = length ps) as Hstep.
  { intros v column wrap acc (rest & ps & -> & Hlen). unfold add_filter.
    destruct (truthy v); simpl.
    - eexists _, _. split; [reflexivity|]. rewrite !length_app. simpl. lia.
    - by eexists _, _. }
  assert (∃ rest ps, f5 = ("t.user_id = $1" :: rest, target_user req :: ps)
                     ∧ length rest = length ps) as (rest & ps & Hf5 & Hlen).
  { do 5 apply Hstep. by exists [], []. }
  exists rest, ps. simpl. rewrite Hf5. simpl.
  repeat split; try done.
  - do 2 f_equal. lia.
  - do 2 f_equal. lia.
Qed.

(** X13. Only vetted text reaches the ORDER BY clause: whatever [sort_by] and
    [sort_order] the request carries, the column is one of the five allowed
    columns and the direction is ASC or DESC. *)
Theorem list_query_sort_is_allow_listed req :
  sortColumn (list_query req) ∈ validSortColumns ∧
  sortOrderValue (list_query req) ∈ ["ASC"; "DESC"].
Proof.
  unfold list_query. simpl. split.
  - case_bool_decide as Hcol; [done|]. by apply (bool_decide_unpack _).
  - case_bool_decide as Hord; [|by apply (bool_decide_unpack _)].
    rewrite <-toUpperCase_toLowerCase.
    apply elem_of_cons in Hord as [-> | Hord]; [by apply (bool_decide_unpack _)|].
    apply list_elem_of_singleton in Hord as ->. by apply (bool_decide_unpack _).
Qed.

(** X14. The list statement is scoped to its owner and carries request text
    in parameters only: the WHERE clause starts with the condition on
    [t.user_id], whose parameter is the caller's own id unless the caller is
    an admin; the clause is the same for two requests that supply the same
    filters, whatever their values; and the LIMIT and OFFSET placeholders
    number the last two parameters. *)
Theorem list_query_is_scoped_and_parameterised req req' :
  String.prefix "t.user_id = $1" (whereClause (list_query req)) = true ∧
  head (queryParams (list_query req)) = Some (target_user req) ∧
  (user_role (req_user req) ≠ admin →
   target_user req = PNumber (Num (user_id (req_user req)))) ∧
  limitPlaceholder (list_query req)
  = "$" +:+ pretty (Z.of_nat (length (queryParams (list_query req))) - 1) ∧
  offsetPlaceholder (list_query req)
  = "$" +:+ pretty (Z.of_nat (length (queryParams (list_query req)))) ∧
  (truthy (q_category (req_query req)) = truthy (q_category (req_query req')) →
   truthy (q_type (req_query req)) = truthy (q_type (req_query req')) →
   truthy (q_search (req_query req)) = truthy (q_search (req_query req')) →
   truthy (q_start_date (req_query req)) = truthy (q_start_date (req_query req')) →
   truthy (q_end_date (req_query req)) = truthy (q_end_date (req_query req')) →
   whereClause (list_query req) = whereClause (list_query req')).
Proof.
  destruct (list_query_filters req) as (rest & ps & Hw & Hp & Hlen & Hl & Ho).
  split; [|split; [|split; [|split; [|split]]]].
  - rewrite Hw. by destruct rest.
  - by rewrite Hp.
  - intros Hrole. unfold target_user.
    by destruct (user_role (req_user req)), (q_user_id (req_query req)) as [[|??]|].
  - rewrite Hl, Hp. simpl. rewrite length_app. simpl. do 2 f_equal. lia.
  - rewrite Ho, Hp. simpl. rewrite length_app. simpl. do 2 f_equal. lia.
  - intros Hc Ht Hs Hsd Hed. unfold list_query. simpl.
    unfold add_filter. rewrite <-Hc, <-Ht, <-Hs, <-Hsd, <-Hed.
    by destruct (truthy (q_category (req_query req))),
      (truthy (q_type (req_query req))), (truthy (q_search (req_query req))),
      (truthy (q_start_date (req_query req))), (truthy (q_end_date (req_query req))).
Qed.

End ListStatement.

Section ListStatementWitness.

Import Pagination TransactionList.

Lemma list_query_is_scoped_and_parameterised_witness :
  target_user (on_list alice (with_dates (Some "2024-01-01") None))
  = PNumber (Num 1) ∧
  whereClause (list_query (on_list alice (with_dates (Some "2024-01-01") None)))
  = whereClause (list_query (on_list alice (with_dates (Some "1999-12-31") None))).
Proof.
  destruct (list_query_is_scoped_and_parameterised
              (on_list alice (with_dates (Some "2024-01-01") None))
              (on_list alice (with_dates (Some "1999-12-31") None)))
    as (_ & _ & Hown & _ & _ & Hsame).
  split.
  - apply Hown. discriminate.
  - apply Hsame; reflexivity.
Defined.

Lemma pages_bounds total l :
  0 < l → (total + l - 1) / l * l - l < total ≤ (total + l - 1) / l * l.
Proof.
  intros Hl.
  pose proof (Z.div_mod (total + l - 1) l ltac:(lia)) as Hdm.
  pose proof (Z.mod_pos_bound (total + l - 1) l Hl) as Hm.
  nia.
Qed.

(** X15. When [page] and [limit] are absent or numeric, the page is at most
    2^46 and the statement counts at most 2^46 rows (so that the page and the
    offset are doubles without rounding, and the rounding of the quotient of
    the count by the limit does not reach the next integer), the list answer
    is a consistent page: the page is at least 1, the limit lies between 1
    and 100, the statement skips [(page - 1) * limit] rows, [totalPages] is
    the least number of pages of that size holding [totalCount] rows, and
    the two flags say whether a next and a previous page exist. *)
Theorem numeric_pagination_is_consistent run req rows total zp zl :
  parseInt (with_default (q_page (req_query req)) (VNum 1)) = Num zp →
  parseInt (with_default (q_limit (req_query req)) (VNum 10)) = Num zl →
  zp ≤ 2 ^ 46 →
  0 ≤ total ≤ 2 ^ 46 →
  run (list_query req) = Some (rows, total) →
  ∃ p l tp,
    p = Z.max 1 zp ∧ l = Z.min 100 (Z.max 1 zl) ∧
    1 ≤ p ∧ 1 ≤ l ≤ 100 ∧ (tp - 1) * l < total ≤ tp * l ∧
    (∃ ps, queryParams (list_query req)
           = (ps ++ [PNumber (Num l); PNumber (Num ((p - 1) * l))])%list) ∧
    getTransactions run req
    = ok 200 None
         (Some (DTransactions rows
                  {| currentPage := Num p; totalPages := Num tp;
                     totalCount := total; limit := Num l;
                     hasNextPage := p <? tp; hasPrevPage := 1 <? p |})).
Proof.
  intros Hp Hl _ _ Hrun.
  exists (Z.max 1 zp), (Z.min 100 (Z.max 1 zl)).
  set (p := Z.max 1 zp). set (l := Z.min 100 (Z.max 1 zl)).
  exists ((total + l - 1) / l).
  assert (pageNum (req_query req) = Num p) as Hpn.
  { unfold pageNum. by rewrite Hp. }
  assert (limitNum (req_query req) = Num l) as Hln.
  { unfold limitNum. by rewrite Hl. }
  assert (offset (req_query req) = Num ((p - 1) * l)) as Hoff.
  { unfold offset. by rewrite Hpn, Hln. }
  assert (0 < l) as Hpos by lia.
  pose proof (pages_bounds total l Hpos) as Hb.
  repeat split; try lia.
  - destruct (list_query_filters req) as (rest & ps & _ & Hq & _).
    exists (target_user req :: ps). by rewrite Hq, Hln, Hoff.
  - unfold getTransactions. by rewrite Hrun, Hpn, Hln.
Qed.

Lemma numeric_pagination_is_consistent_witness :
  ∃ tp, getTransactions (fun _ => Some ([], 45))
          (on_list alice (with_page_limit (Some "3") (Some "20")))
        = ok 200 None
             (Some (DTransactions []
                      {| currentPage := Num 3; totalPages := Num tp;
                         totalCount := 45; limit := Num 20;
                         hasNextPage := 3 <? tp; hasPrevPage := true |}))
        ∧ (tp - 1) * 20 < 45 ≤ tp * 20.
Proof.
  assert (parseInt (with_default
                      (q_page (req_query (on_list alice (with_page_limit (Some "3") (Some "20")))))
                      (VNum 1)) = Num 3) as Hp by reflexivity.
  assert (parseInt (with_default
                      (q_limit (req_query (on_list alice (with_page_limit (Some "3") (Some "20")))))
                      (VNum 10)) = Num 20) as Hl by reflexivity.
  assert (3 ≤ 2 ^ 46) as Hpage by lia.
  assert (0 ≤ 45 ≤ 2 ^ 46) as Htotal by lia.
  destruct (numeric_pagination_is_consistent (fun _ => Some ([], 45))
              (on_list alice (with_page_limit (Some "3") (Some "20")))
              [] 45 3 20 Hp Hl Hpage Htotal eq_refl)
    as (p & l & tp & -> & -> & _ & _ & Hb & _ & Hout).
  exists tp. split; [exact Hout | exact Hb].
Defined.

End ListStatementWitness.

(** ** The monthly series and the rows it is built from *)

Section TrendTotals.

Import Analytics.

Lemma rows_of_snoc key kind rows r :
  rows_of key kind (rows ++ [r])
  = if decide (monthKey (row_month r) = key ∧ row_type r = kind)
    then (rows_of key kind rows ++ [r])%list else rows_of key kind rows.
Proof.
  unfold rows_of. rewrite filter_app, filter_cons, filter_nil.
  case_decide; [done|]. by rewrite app_nil_r.
Qed.

Lemma reported_snoc rows r : reported (rows ++ [r]) = parseFloat (row_total r).
Proof. unfold reported. by rewrite last_snoc. Qed.

(** What the grouping loop leaves under a month key. *)
Lemma monthlyData_lookup key rows :
  default {| income := zero; expense := zero; balance := zero |}
          (fold_left add_row rows ∅ !! key)
  = {| income := reported (rows_of key "income" rows);
       expense := reported (rows_of key "expense" rows);
       balance := zero |}.
Proof.
  induction rows as [|r rows IH] using rev_ind.
  - simpl. by rewrite lookup_empty.
  - rewrite fold_left_app. simpl. unfold add_row at 1.
    rewrite !rows_of_snoc.
    destruct (decide (monthKey (row_month r) = key)) as [Hk|Hk].
    + rewrite Hk, lookup_insert_eq. simpl. rewrite IH.
      unfold set_kind.
      destruct (String.eqb_spec (row_type r) "income") as [Hi|Hi].
      * rewrite Hi. rewrite decide_True by done.
        rewrite decide_False by (intros [_ ?]; discriminate).
        by rewrite reported_snoc.
      * destruct (String.eqb_spec (row_type r) "expense") as [He|He].
        -- rewrite He. rewrite decide_False by (intros [_ ?]; discriminate).
           rewrite decide_True by done.
           by rewrite reported_snoc.
        -- rewrite !decide_False by (intros [_ ?]; done). done.
    + rewrite lookup_insert_ne by done.
      rewrite !decide_False by (intros [? _]; done). exact IH.
Qed.

Lemma setMonth_plain dt m :
  1 ≤ day dt ≤ 28 →
  setMonth dt m = {| year := year dt + m / 12; month := m mod 12; day := day dt |}.
Proof.
  intros Hd. unfold setMonth, MakeDay.
  assert (28 ≤ daysInMonth (year dt + m / 12) (m mod 12)) as Hdim.
  { unfold daysInMonth. repeat case_match; lia. }
  destruct (Z.leb_spec (day dt) (daysInMonth (year dt + m / 12) (m mod 12)));
    [done|lia].
Qed.

(** X16. On days 1 to 28 and with [months] absent or numeric, the series
    has one entry per month of the window, oldest first: entry [i] carries
    the key of the month [n - i] months before the current one, the income
    and expense totals of the rows of that month (zero where there is none),
    and their difference as balance. *)
Theorem trends_series_reports_each_month now rows q z i :
  1 ≤ day now ≤ 28 →
  parseInt (with_default (q_months q) (VNum 12)) = Num z →
  0 ≤ i < Z.min 24 (Z.max 1 z) →
  let n := Z.min 24 (Z.max 1 z) in
  let M := year now * 12 + month now - n + i in
  let key := monthKey {| year := M / 12; month := M mod 12; day := day now |} in
  ∃ trends,
    getMonthlyTrends now rows q = Some trends ∧
    length trends = Z.to_nat n ∧
    trends !! Z.to_nat i
    = Some {| trend_month := key;
              trend_income := reported (rows_of key "income" rows);
              trend_expense := reported (rows_of key "expense" rows);
              trend_balance := minus (reported (rows_of key "income" rows))
                                     (reported (rows_of key "expense" rows)) |}.
Proof.
  intros Hd Hz Hi n M key.
  assert (monthsBack q = Num n) as Hn.
  { unfold monthsBack. by rewrite Hz. }
  unfold getMonthlyTrends. rewrite Hn.
  eexists. split; [reflexivity|].
  split; [by rewrite length_map, length_seq|].
  rewrite list_lookup_fmap.
  rewrite lookup_seq_lt by lia. simpl.
  rewrite Z2Nat.id by lia.
  f_equal. unfold trend_at.
  assert (setMonth (setMonth now (getMonth now - n))
                   (getMonth (setMonth now (getMonth now - n)) + i)
          = {| year := M / 12; month := M mod 12; day := day now |}) as ->.
  { rewrite (setMonth_plain now) by done.
    rewrite setMonth_plain by done. unfold getMonth. simpl.
    set (k := month now - n).
    assert (M = (year now + k / 12) * 12 + (k mod 12 + i)) as HM.
    { unfold M, k. pose proof (Z.div_mod (month now - n) 12 ltac:(lia)). lia. }
    f_equal.
    - rewrite HM. rewrite Z.div_add_l by lia. done.
    - rewrite HM.
      replace ((year now + k / 12) * 12 + (k mod 12 + i))
        with ((k mod 12 + i) + (year now + k / 12) * 12) by lia.
      by rewrite Z.mod_add by lia. }
  fold key. by rewrite monthlyData_lookup.
Qed.

Lemma trends_series_reports_each_month_witness :
  ∃ trends,
    getMonthlyTrends {| year := 2024; month := 2; day := 15 |}
      [ {| row_month := {| year := 2024; month := 0; day := 1 |};
           row_type := "income"; row_total := 100000 |};
        {| row_month := {| year := 2024; month := 0; day := 1 |};
           row_type := "expense"; row_total := 1250 |} ]
      (with_months (Some "3")) = Some trends ∧
    trends !! 1%nat
    = Some {| trend_month := "2024-01"; trend_income := parseFloat 100000;
              trend_expense := parseFloat 1250;
              trend_balance := parseFloat 98750 |}.
Proof.
  assert (1 ≤ day {| year := 2024; month := 2; day := 15 |} ≤ 28) as Hd
      by (simpl; lia).
  assert (parseInt (with_default (q_months (with_months (Some "3"))) (VNum 12))
          = Num 3) as Hz by reflexivity.
  assert (0 ≤ 1 < Z.min 24 (Z.max 1 3)) as Hi by lia.
  destruct (trends_series_reports_each_month
              {| year := 2024; month := 2; day := 15 |}
              [ {| row_month := {| year := 2024; month := 0; day := 1 |};
                   row_type := "income"; row_total := 100000 |};
                {| row_month := {| year := 2024; month := 0; day := 1 |};
                   row_type := "expense"; row_total := 1250 |} ]
              (with_months (Some "3")) 3 1 Hd Hz Hi)
    as (trends & Hsome & _ & Hentry).
  exists trends. split; [exact Hsome|exact Hentry].
Defined.

End TrendTotals.

(** ** Administration of users *)

Section AdminFacts.

Import Admin.

Lemma requireAdmin_admin req :
  user_role (req_user req) = admin → Auth.requireAdmin req = Next.
Proof. intros H. unfold Auth.requireAdmin, Auth.requireRole. by rewrite H. Qed.

Lemma requireAdmin_other req :
  user_role (req_user req) ≠ admin →
  Auth.requireAdmin req = Send (fail 403 "Insufficient permissions").
Proof.
  intros H. unfold Auth.requireAdmin, Auth.requireRole.
  by destruct (user_role (req_user req)).
Qed.

Lemma update_role_keeps_others db id r u :
  u ∈ db_users db → ¬ Sql.matches (user_id u) id →
  u ∈ db_users (update_role db id r).
Proof.
  intros Hin Hne. simpl. apply list_elem_of_fmap. exists u.
  by rewrite decide_False.
Qed.

Lemma delete_user_keeps_others db id u :
  u ∈ db_users db → ¬ Sql.matches (user_id u) id →
  u ∈ db_users (delete_user db id).
Proof. intros Hin Hne. simpl. by apply list_elem_of_filter. Qed.

Lemma users_by_id_head db id u rest :
  Sql.users_by_id db id = u :: rest → id = Some (user_id u) ∧ u ∈ db_users db.
Proof.
  intros H. destruct (users_by_id_Some _ _ _ _ H) as (i & -> & <- & Hin).
  by split.
Qed.

(** The caller's own row survives both routes. *)
Lemma admin_routes_keep_caller db req role id_text :
  read_alike id_text (req_params_id req) →
  req_user req ∈ db_users db →
  req_user req ∈ db_users (put_users_id_role db req role).1 ∧
  req_user req ∈ db_users (delete_users_id db req id_text).1.
Proof.
  intros Hread Hin. split.
  - unfold put_users_id_role. destruct (Auth.requireAdmin req); [|done].
    unfold updateUserRole. destruct role as [name|]; [|done].
    case_bool_decide; [|done].
    destruct (Sql.readable (req_params_id req)); [|done]. cbn [negb].
    destruct (Sql.users_by_id db (req_params_id req)) as [|u rest] eqn:Hu; [done|].
    case_decide as Hself; [done|]. cbn [fst].
    apply update_role_keeps_others; [done|].
    apply users_by_id_head in Hu as [Hid _]. unfold Sql.matches.
    rewrite Hid. intros [= Heq]. congruence.
  - unfold delete_users_id. destruct (Auth.requireAdmin req); [|done].
    unfold deleteUser.
    destruct (Sql.readable (req_params_id req)) eqn:Hint; [|done]. cbn [negb].
    destruct (Sql.users_by_id db (req_params_id req)) as [|u rest] eqn:Hu; [done|].
    case_decide as Hself; [done|]. cbn [fst].
    apply delete_user_keeps_others; [done|].
    unfold Sql.matches. intros Hid. apply Hself.
    apply Hread; [done|]. by rewrite Hid in Hint.
Qed.

(** X17. The user administration cannot lock the administrators out, as
    long as JavaScript and the database read the id in the path alike: a
    caller who is not an admin is answered 403 and changes nothing, and an
    admin can neither delete nor re-role their own row, so a store that has
    an admin still has one after either route, whatever the request. *)
Theorem admin_routes_keep_an_admin db req role id_text :
  read_alike id_text (req_params_id req) →
  req_user req ∈ db_users db →
  has_admin db →
  (user_role (req_user req) ≠ admin →
   put_users_id_role db req role
   = (db, (fail 403 "Insufficient permissions", None)) ∧
   delete_users_id db req id_text = (db, fail 403 "Insufficient permissions")) ∧
  (req_params_id req = Some (user_id (req_user req)) →
   (put_users_id_role db req role).1 = db ∧
   (delete_users_id db req id_text).1 = db) ∧
  has_admin (put_users_id_role db req role).1 ∧
  has_admin (delete_users_id db req id_text).1.
Proof.
  intros Hread Hin Hadm.
  split; [|split].
  - intros Hrole. unfold put_users_id_role, delete_users_id.
    by rewrite requireAdmin_other.
  - intros Hself. unfold put_users_id_role, delete_users_id.
    destruct (Auth.requireAdmin req); [|done].
    unfold updateUserRole, deleteUser.
    specialize (Hread _ Hself). rewrite Hself.
    destruct (Sql.readable (Some (user_id (req_user req)))) eqn:Hint;
      cbn [negb]; [|split; [|done]].
    + split.
      * destruct role as [name|]; [|done]. case_bool_decide; [|done].
        destruct (Sql.users_by_id db (Some (user_id (req_user req))))
          as [|u rest] eqn:Hu; [done|].
        apply users_by_id_head in Hu as [[= Hid] _].
        by rewrite decide_True.
      * destruct (Sql.users_by_id db (Some (user_id (req_user req)))); [done|].
        by rewrite decide_True by (by apply Hread).
    + destruct role as [name|]; [|done]. by case_bool_decide.
  - destruct (decide (user_role (req_user req) = admin)) as [Hrole|Hrole].
    + destruct (admin_routes_keep_caller db req role id_text Hread Hin)
        as [Hp Hd].
      unfold has_admin. rewrite !Exists_exists. split; by exists (req_user req).
    + unfold put_users_id_role, delete_users_id.
      by rewrite requireAdmin_other.
Qed.

Lemma admin_routes_keep_an_admin_witness :
  (put_users_id_role sample_db (on_transaction root 3 lunch []) (Some "user")).1
  = sample_db ∧
  (delete_users_id sample_db (on_transaction root 3 lunch []) "3").1
  = sample_db ∧
  has_admin (delete_users_id sample_db (on_transaction root 1 lunch []) "1").1.
Proof.
  assert (req_user (on_transaction root 3 lunch []) ∈ db_users sample_db) as Hin
      by (apply (bool_decide_unpack _); reflexivity).
  assert (has_admin sample_db) as Hadm
      by (apply (bool_decide_unpack _); reflexivity).
  assert (read_alike "3" (req_params_id (on_transaction root 3 lunch [])))
    as Hself_read by (intros i [= <-] _; reflexivity).
  assert (read_alike "1" (req_params_id (on_transaction root 1 lunch [])))
    as Hother_read by (intros i [= <-] _; reflexivity).
  destruct (admin_routes_keep_an_admin sample_db
              (on_transaction root 3 lunch []) (Some "user") "3"
              Hself_read Hin Hadm) as (_ & Hself & _).
  destruct (admin_routes_keep_an_admin sample_db
              (on_transaction root 1 lunch []) None "1" Hother_read Hin Hadm)
    as (_ & _ & _ & Hd).
  split; [exact (proj1 (Hself eq_refl))|].
  split; [exact (proj2 (Hself eq_refl))|exact Hd].
Defined.

(** X18. Deleting a user leaves nothing of them behind and nothing else
    changed, as long as JavaScript and the database read the id in the path
    alike: when the route answers 200, the id is another user's, no user and
    no transaction of the deleted id remains, the rows of every other user
    and all categories are as before, and every remaining transaction still
    has its owner. *)
Theorem deleted_user_leaves_nothing_behind db req id_text :
  read_alike id_text (req_params_id req) →
  statusCode (delete_users_id db req id_text).2 = 200 →
  owners_exist db →
  let db' := (delete_users_id db req id_text).1 in
  ∃ i, req_params_id req = Some i ∧ i ≠ user_id (req_user req) ∧
       Sql.users_by_id db' (Some i) = [] ∧
       filter (fun t => tx_user_id t = i) (db_transactions db') = [] ∧
       filter (fun u => user_id u ≠ i) (db_users db')
       = filter (fun u => user_id u ≠ i) (db_users db) ∧
       rows_of_others i db' = rows_of_others i db ∧
       db_categories db' = db_categories db ∧
       owners_exist db'.
Proof.
  unfold delete_users_id. intros Hread Hok Hown.
  destruct (decide (user_role (req_user req) = admin)) as [Hrole|Hrole];
    [|by rewrite requireAdmin_other in Hok].
  rewrite requireAdmin_admin in * by done.
  unfold deleteUser in *.
  destruct (Sql.readable (req_params_id req)) eqn:Hint; [|done].
  cbn [negb] in *.
  destruct (Sql.users_by_id db (req_params_id req)) as [|u rest] eqn:Hu; [done|].
  apply users_by_id_head in Hu as [Hid Hin].
  case_decide as Hself; [done|]. cbn [fst]. clear Hok.
  exists (user_id u). rewrite Hid in *.
  assert (∀ x, ¬ Sql.matches x (Some (user_id u)) ↔ x ≠ user_id u) as Hm.
  { intros x. unfold Sql.matches. split; [congruence|]. intros Hx [= ?]. done. }
  split; [done|]. split.
  { intros Heq. apply Hself. rewrite <-Heq. by apply Hread. }
  split; [|split; [|split; [|split; [|split]]]].
  - simpl. apply filter_none. intros v Hv.
    apply list_elem_of_filter in Hv as [Hv _]. by apply Hm.
  - simpl. apply filter_none. intros v Hv.
    apply list_elem_of_filter in Hv as [Hv _]. by apply Hm.
  - simpl. apply filter_filter_stable. intros v _ Hv. by apply Hm.
  - unfold rows_of_others. simpl. apply filter_filter_stable. intros v _ Hv. by apply Hm.
  - done.
  - unfold owners_exist in *. simpl.
    rewrite Forall_forall in Hown. apply Forall_forall. intros tx Htx.
    apply list_elem_of_filter in Htx as [Hne Htx].
    specialize (Hown _ Htx). rewrite Exists_exists in *.
    destruct Hown as (v & Hv & Hvid). exists v. split; [|done].
    apply list_elem_of_filter. split; [|done].
    apply Hm. apply Hm in Hne. congruence.
Qed.

Lemma deleted_user_leaves_nothing_behind_witness :
  let db' := (delete_users_id sample_db (on_transaction root 1 lunch []) "1").1 in
  Sql.users_by_id db' (Some 1) = [] ∧
  filter (fun t => tx_user_id t = 1) (db_transactions db') = [] ∧
  owners_exist db'.
Proof.
  assert (read_alike "1" (req_params_id (on_transaction root 1 lunch [])))
    as Hread by (intros i [= <-] _; reflexivity).
  assert (statusCode (delete_users_id sample_db
                        (on_transaction root 1 lunch []) "1").2 = 200) as Hok
      by reflexivity.
  assert (owners_exist sample_db) as Hown
      by (apply (bool_decide_unpack _); reflexivity).
  destruct (deleted_user_leaves_nothing_behind sample_db
              (on_transaction root 1 lunch []) "1" Hread Hok Hown)
    as (i & Hid & _ & Hu & Htx & _ & _ & _ & Hown').
  injection Hid as <-. by repeat split.
Defined.

(** Where the two readings differ the guard misses: the database of
    PostgreSQL 16 reads the text 0o3 as 3, [parseInt] reads it as 0. *)
Example deleteUser_own_row_under_octal_text :
  JS.parseInt (VStr "0o3") = Num 0 ∧
  statusCode (delete_users_id sample_db (on_transaction root 3 lunch []) "0o3").2
  = 200 ∧
  ¬ has_admin (delete_users_id sample_db (on_transaction root 3 lunch []) "0o3").1.
Proof.
  split; [reflexivity|]. split; [reflexivity|].
  apply (bool_decide_unpack _). reflexivity.
Qed.

Lemma update_role_rows db id r u :
  u ∈ db_users (update_role db id r) →
  (Sql.matches (user_id u) id ∧ user_role u = r) ∨
  (¬ Sql.matches (user_id u) id ∧ u ∈ db_users db).
Proof.
  simpl. intros Hu. apply list_elem_of_fmap in Hu as (v & -> & Hv).
  case_decide as Hm; [by left|by right].
Qed.

Lemma updateUserRole_success db req role :
  statusCode (put_users_id_role db req role).2.1 = 200 →
  ∃ i name u,
    user_role (req_user req) = admin ∧ Sql.int4 i = true ∧
    req_params_id req = Some i ∧ role = Some name ∧ name ∈ validRoles ∧
    u ∈ db_users db ∧ user_id u = i ∧ i ≠ user_id (req_user req) ∧
    put_users_id_role db req role
    = (update_role db (Some i) (role_of name),
       (ok 200 (Some "User role updated successfully") None,
        head (Sql.users_by_id (update_role db (Some i) (role_of name)) (Some i)))).
Proof.
  unfold put_users_id_role. intros Hok.
  destruct (decide (user_role (req_user req) = admin)) as [Hrole|Hrole];
    [|by rewrite requireAdmin_other in Hok].
  rewrite requireAdmin_admin in * by done.
  unfold updateUserRole in *.
  destruct role as [name|]; [|done].
  case_bool_decide as Hname; [|done].
  destruct (Sql.readable (req_params_id req)) eqn:Hint; [|done].
  cbn [negb] in *.
  destruct (Sql.users_by_id db (req_params_id req)) as [|u rest] eqn:Hu; [done|].
  apply users_by_id_head in Hu as [Hid Hin].
  case_decide as Hself; [done|].
  exists (user_id u), name, u. rewrite Hid in *. by repeat split.
Qed.

(** X19. A role update changes one role and nothing else: when the route
    answers 200 the caller is an admin acting on another user's id with one
    of the three role names, every row of that id carries the new role and is
    the row the answer returns, the rows of all other users, the list of user
    ids, the transactions and the categories are as before. *)
Theorem role_update_changes_one_role db req role :
  statusCode (put_users_id_role db req role).2.1 = 200 →
  let out := put_users_id_role db req role in
  ∃ i name target,
    user_role (req_user req) = admin ∧
    req_params_id req = Some i ∧ i ≠ user_id (req_user req) ∧
    role = Some name ∧ name ∈ validRoles ∧
    out.2.2 = Some target ∧ user_id target = i ∧
    user_role target = role_of name ∧
    Forall (fun u => user_role u = role_of name) (Sql.users_by_id out.1 (Some i)) ∧
    filter (fun u => user_id u ≠ i) (db_users out.1)
    = filter (fun u => user_id u ≠ i) (db_users db) ∧
    user_id <$> db_users out.1 = user_id <$> db_users db ∧
    db_transactions out.1 = db_transactions db ∧
    db_categories out.1 = db_categories db.
Proof.
  intros Hok out.
  destruct (updateUserRole_success db req role Hok)
    as (i & name & u & Hrole & _ & Hid & -> & Hname & Hin & Hu & Hself & Hout).
  unfold out. rewrite Hout. cbn [fst snd].
  set (db' := update_role db (Some i) (role_of name)).
  assert (Forall (fun u => user_role u = role_of name)
                 (Sql.users_by_id db' (Some i))) as Hall.
  { apply Forall_forall. intros v Hv. simpl in Hv.
    apply list_elem_of_filter in Hv as [Hvid Hv].
    apply update_role_rows in Hv as [[_ Hr]|[Hne _]]; [done|].
    exfalso. apply Hne. unfold Sql.matches. by rewrite Hvid. }
  assert (∃ target, head (Sql.users_by_id db' (Some i)) = Some target)
    as [target Htarget].
  { destruct (Sql.users_by_id db' (Some i)) as [|v rest] eqn:Hrows;
      [|by eexists].
    exfalso.
    assert ({| user_id := user_id u; user_email := user_email u;
               user_name := user_name u; user_role := role_of name |}
            ∈ Sql.users_by_id db' (Some i)) as Hmem.
    { simpl. apply list_elem_of_filter. split; [done|].
      apply list_elem_of_fmap. exists u. split; [|done].
      rewrite decide_True; [done|]. unfold Sql.matches. by rewrite Hu. }
    rewrite Hrows in Hmem. by apply not_elem_of_nil in Hmem. }
  exists i, name, target.
  assert (target ∈ Sql.users_by_id db' (Some i)) as Hmem.
  { destruct (Sql.users_by_id db' (Some i)); [done|].
    simpl in Htarget. injection Htarget as ->. by left. }
  split; [done|]. split; [done|]. split; [done|]. split; [done|].
  split; [done|]. split; [done|].
  split; [|split; [|split; [|split; [|split; [|split]]]]]; try done.
  - simpl in Hmem. by apply list_elem_of_filter in Hmem as [? _].
  - rewrite Forall_forall in Hall. by apply Hall.
  - simpl. apply filter_map_stable.
    + intros v _ Hv. rewrite decide_False; [done|].
      unfold Sql.matches. congruence.
    + intros v _ Hv. by case_decide.
  - simpl. rewrite <-list_fmap_compose. apply list_fmap_ext.
    intros k v _. simpl. by case_decide.
Qed.

Lemma role_update_changes_one_role_witness :
  ∃ target,
    (put_users_id_role sample_db (on_transaction root 2 lunch [])
       (Some "read-only")).2.2 = Some target ∧
    user_id target = 2 ∧ user_role target = read_only.
Proof.
  assert (statusCode (put_users_id_role sample_db
                        (on_transaction root 2 lunch [])
                        (Some "read-only")).2.1 = 200) as Hok by reflexivity.
  destruct (role_update_changes_one_role sample_db
              (on_transaction root 2 lunch []) (Some "read-only") Hok)
    as (i & name & target & _ & Hid & _ & Hname & _ & Hout & Hi & Hrole & _).
  injection Hid as <-. injection Hname as <-.
  exists target. by repeat split.
Defined.

End AdminFacts.

(** ** From the client's stored token to the request's user *)

Section BearerHeader.

Import Auth.

Lemma bearer_of_authorization c t :
  all_chars no_space (String c t) = true →
  bearer_token (ApiClient.authorization (Some (String c t))) = Some (String c t).
Proof.
  intros Hs. unfold ApiClient.authorization, bearer_token.
  change ("Bearer " +:+ String c t)
    with (String "B" ("earer " +:+ String c t)).
  unfold split_space.
  change (split_go (String "B" ("earer " +:+ String c t)) "")
    with ("Bearer" :: split_go (String c t) "").
  rewrite split_go_no_space by done. done.
Qed.

(** X20. The header the client builds is the header the server reads: a
    stored token without a space comes back unchanged from the
    [Authorization] header, so the request is authenticated exactly as
    [jwt.verify] and the user lookup decide for that token; without a stored
    token no header is sent and the answer is 401. *)
Theorem bearer_header_round_trip inspect db token :
  all_chars no_space token = true →
  token ≠ "" →
  bearer_token (ApiClient.authorization (Some token)) = Some token ∧
  authenticateToken inspect db (ApiClient.authorization (Some token))
  = match jwt_verify (inspect token) with
    | inl JsonWebTokenError => Rejected (fail 401 "Invalid token")
    | inl TokenExpiredError => Rejected (fail 401 "Token expired")
    | inl NotBeforeError => Rejected (fail 500 "Authentication failed")
    | inr userId =>
        if negb (Sql.readable userId)
        then Rejected (fail 500 "Authentication failed")
        else
          match Sql.users_by_id db userId with
          | [] => Rejected (fail 401 "Invalid token - user not found")
          | row :: _ => Attached row
          end
    end ∧
  authenticateToken inspect db (ApiClient.authorization None)
  = Rejected (fail 401 "Access token is required") ∧
  authenticateToken inspect db (ApiClient.authorization (Some ""))
  = Rejected (fail 401 "Access token is required").
Proof.
  intros Hs Hne. destruct token as [|c t]; [done|].
  pose proof (bearer_of_authorization c t Hs) as Hb.
  split; [done|]. split; [|done].
  unfold authenticateToken. by rewrite Hb.
Qed.

Lemma bearer_header_round_trip_witness :
  authenticateToken (fun _ => Signed false (Some 2)) sample_db
    (ApiClient.authorization (Some "eyJhbGciOi.eyJ1c2VySWQiOjJ9.c2ln"))
  = Attached bob.
Proof.
  assert (all_chars no_space "eyJhbGciOi.eyJ1c2VySWQiOjJ9.c2ln" = true) as Hs
      by reflexivity.
  assert ("eyJhbGciOi.eyJ1c2VySWQiOjJ9.c2ln" ≠ "") as Hne by discriminate.
  destruct (bearer_header_round_trip (fun _ => Signed false (Some 2)) sample_db
              "eyJhbGciOi.eyJ1c2VySWQiOjJ9.c2ln" Hs Hne) as (_ & Hauth & _).
  exact Hauth.
Defined.

Lemma update_role_target db i r u :
  u ∈ db_users db → user_id u = i →
  ∃ target rest,
    Sql.users_by_id (Admin.update_role db (Some i) r) (Some i) = target :: rest ∧
    user_id target = i ∧ user_role target = r.
Proof.
  intros Hin Hu.
  destruct (Sql.users_by_id (Admin.update_role db (Some i) r) (Some i))
    as [|target rest] eqn:Hrows.
  - exfalso.
    assert ({| user_id := user_id u; user_email := user_email u;
               user_name := user_name u; user_role := r |}
            ∈ Sql.users_by_id (Admin.update_role db (Some i) r) (Some i)) as Hmem.
    { simpl. apply list_elem_of_filter. split; [done|].
      apply list_elem_of_fmap. exists u. split; [|done].
      rewrite decide_True; [done|]. unfold Sql.matches. by rewrite Hu. }
    rewrite Hrows in Hmem. by apply not_elem_of_nil in Hmem.
  - exists target, rest. split; [done|].
    assert (target ∈ Sql.users_by_id (Admin.update_role db (Some i) r) (Some i))
      as Hmem by (rewrite Hrows; left).
    simpl in Hmem. apply list_elem_of_filter in Hmem as [Hid Hmem].
    split; [done|].
    apply update_role_rows in Hmem as [[_ Hr]|[Hne _]]; [done|].
    exfalso. apply Hne. unfold Sql.matches. by rewrite Hid.
Qed.

(** X21. A demotion takes effect at the user's next request: after an admin
    has set a user's role to read-only, that user's still valid token
    attaches a row with the new role, and the three mutating transaction
    routes answer 403 to it without touching the store or the cache. *)
Theorem demoted_user_loses_write_access db req inspect token i :
  statusCode (Admin.put_users_id_role db req (Some "read-only")).2.1 = 200 →
  req_params_id req = Some i →
  all_chars no_space token = true →
  token ≠ "" →
  inspect token = Signed false (Some i) →
  let db' := (Admin.put_users_id_role db req (Some "read-only")).1 in
  ∃ u,
    authenticateToken inspect db' (ApiClient.authorization (Some token))
    = Attached u ∧
    user_id u = i ∧ user_role u = read_only ∧
    ∀ c req', req_user req' = u →
      Routes.post db' c req' = (c, (db', fail 403 "Insufficient permissions")) ∧
      Routes.put_id db' c req' = (c, (db', fail 403 "Insufficient permissions")) ∧
      Routes.delete_id db' c req' = (c, (db', fail 403 "Insufficient permissions")).
Proof.
  intros Hok Hid Hs Hne Hinspect db'.
  destruct (updateUserRole_success db req _ Hok)
    as (j & name & v & _ & Hint & Hid' & Hname & _ & Hin & Hv & _ & Hout).
  rewrite Hid in Hid'. injection Hid' as <-. injection Hname as <-.
  assert (db' = Admin.update_role db (Some i) read_only) as Hdb'.
  { unfold db'. by rewrite Hout. }
  destruct (update_role_target db i read_only v Hin Hv)
    as (target & rest & Hrows & Htid & Htrole).
  exists target.
  destruct token as [|ch t]; [done|].
  split; [|split; [done|split; [done|]]].
  - unfold authenticateToken.
    rewrite bearer_of_authorization by done.
    rewrite Hinspect. cbn [jwt_verify].
    assert (Sql.readable (Some i) = true) as -> by exact Hint.
    cbn [negb]. by rewrite Hdb', Hrows.
  - intros c req' Hreq'.
    unfold Routes.post, Routes.put_id, Routes.delete_id.
    unfold Auth.requireUserOrAdmin, Auth.requireRole. simpl.
    rewrite Hreq', Htrole. by simpl.
Qed.

Lemma demoted_user_loses_write_access_witness :
  let db' := (Admin.put_users_id_role sample_db (on_transaction root 2 lunch [])
                (Some "read-only")).1 in
  ∃ u,
    authenticateToken (fun _ => Signed false (Some 2)) db'
      (ApiClient.authorization (Some "eyJhbGciOi.eyJ1c2VySWQiOjJ9.c2ln"))
    = Attached u ∧
    Routes.post db' (connected ∅) (on_transaction u 1 lunch [])
    = (connected ∅, (db', fail 403 "Insufficient permissions")).
Proof.
  intros db'.
  assert (statusCode (Admin.put_users_id_role sample_db
                        (on_transaction root 2 lunch [])
                        (Some "read-only")).2.1 = 200) as Hok by reflexivity.
  assert (req_params_id (on_transaction root 2 lunch []) = Some 2) as Hid
      by reflexivity.
  assert (all_chars no_space "eyJhbGciOi.eyJ1c2VySWQiOjJ9.c2ln" = true) as Hs
      by reflexivity.
  assert ("eyJhbGciOi.eyJ1c2VySWQiOjJ9.c2ln" ≠ "") as Hne by discriminate.
  destruct (demoted_user_loses_write_access sample_db
              (on_transaction root 2 lunch []) (fun _ => Signed false (Some 2))
              "eyJhbGciOi.eyJ1c2VySWQiOjJ9.c2ln" 2 Hok Hid Hs Hne eq_refl)
    as (u & Hauth & _ & _ & Hroutes).
  exists u. split; [exact Hauth|].
  exact (proj1 (Hroutes (connected ∅) (on_transaction u 1 lunch []) eq_refl)).
Defined.

End BearerHeader.

(** ** The windows of the analytics handlers *)

Section Windows.

Import Analytics AnalyticsWindow.

Lemma daysInMonth_range y m : 28 ≤ daysInMonth y m ≤ 31.
Proof. unfold daysInMonth. repeat case_match; lia. Qed.

Lemma newDate_first y m :
  0 ≤ m < 12 → newDate y m 1 = {| year := y; month := m; day := 1 |}.
Proof.
  intros Hm. unfold newDate, MakeDay. simpl.
  rewrite Z.div_small, Z.mod_small by lia.
  pose proof (daysInMonth_range (y + 0) m).
  destruct (Z.leb_spec 1 (daysInMonth (y + 0) m)); [|lia].
  f_equal. lia.
Qed.

Lemma newDate_last y m :
  0 ≤ m < 12 →
  newDate y (m + 1) 0 = {| year := y; month := m; day := daysInMonth y m |}.
Proof.
  intros Hm. unfold newDate. simpl.
  replace (m + 1 - 1) with m by lia.
  pose proof (newDate_first y m Hm) as Hf. unfold newDate in Hf. simpl in Hf.
  rewrite Hf. simpl. f_equal. lia.
Qed.

Lemma newDate_december y :
  newDate y 11 31 = {| year := y; month := 11; day := 31 |}.
Proof.
  unfold newDate, MakeDay. simpl.
  change (11 `div` 12) with 0. change (11 `mod` 12) with 11.
  f_equal. lia.
Qed.

(** X22. For every period but the week the dashboard window is the calendar
    month, quarter or year that holds today: it starts on the first day of a
    month and ends on the last day of a month of the same year, spans one,
    three or twelve months aligned on that span, and today's month lies in
    it.  The spending patterns start on the same day, and the budget analysis
    uses the same window, for which a week is a month. *)
Theorem analytics_window_holds_today now q :
  valid_date now →
  period q ≠ "week" →
  let w := dashboardRange now q in
  let n := span (period q) in
  year w.1 = year now ∧ year w.2 = year now ∧
  day w.1 = 1 ∧ day w.2 = daysInMonth (year w.2) (month w.2) ∧
  month w.1 = month now / n * n ∧ month w.2 = month w.1 + n - 1 ∧
  month w.1 ≤ month now ≤ month w.2 ∧
  patternsStart now q = w.1 ∧
  budgetRange now q = w.
Proof.
  intros [Hm Hd] Hweek w n. unfold w, n, dashboardRange, patternsStart,
    budgetRange, span.
  assert (0 ≤ month now / 3 < 4) as Hq.
  { split; [apply Z.div_pos; lia|apply Z.div_lt_upper_bound; lia]. }
  pose proof (Z.div_mod (month now) 3 ltac:(lia)) as Hdm.
  pose proof (Z.mod_pos_bound (month now) 3 ltac:(lia)) as Hmod.
  destruct (String.eqb_spec (period q) "week") as [|_]; [done|].
  destruct (String.eqb_spec (period q) "month") as [Hmo|Hmo];
    destruct (String.eqb_spec (period q) "quarter") as [Hqu|Hqu];
    try congruence;
    destruct (String.eqb_spec (period q) "year") as [Hye|Hye];
    try congruence; cbv iota.
  - rewrite newDate_first, newDate_last by done. cbn [fst snd year month day].
    rewrite Z.div_1_r. repeat split; lia.
  - replace ((month now / 3 + 1) * 3) with (month now / 3 * 3 + 2 + 1) by lia.
    rewrite newDate_first, newDate_last by lia. cbn [fst snd year month day].
    repeat split; lia.
  - rewrite (newDate_first _ 0), newDate_december by lia.
    cbn [fst snd year month day].
    rewrite Z.div_small by lia. repeat split; try lia; reflexivity.
  - rewrite newDate_first, newDate_last by done. cbn [fst snd year month day].
    rewrite Z.div_1_r. repeat split; lia.
Qed.

Lemma analytics_window_holds_today_witness :
  dashboardRange {| year := 2024; month := 1; day := 15 |}
                 (with_period (Some "quarter"))
  = ({| year := 2024; month := 0; day := 1 |},
     {| year := 2024; month := 2; day := 31 |}) ∧
  budgetRange {| year := 2024; month := 1; day := 15 |}
              (with_period (Some "quarter"))
  = dashboardRange {| year := 2024; month := 1; day := 15 |}
                   (with_period (Some "quarter")).
Proof.
  assert (valid_date {| year := 2024; month := 1; day := 15 |}) as Hv
      by (unfold valid_date; apply (bool_decide_unpack _); reflexivity).
  assert (period (with_period (Some "quarter")) ≠ "week") as Hp by discriminate.
  destruct (analytics_window_holds_today _ (with_period (Some "quarter")) Hv Hp)
    as (_ & _ & _ & _ & _ & _ & _ & _ & Hb).
  split; [reflexivity|exact Hb].
Defined.

(** X23. The week window ends today and starts seven days back: on the
    same month from day 8 on, and otherwise in the month before, as many days
    from its end as are missing; absent and unknown periods mean the
    month. *)
Theorem analytics_week_goes_seven_days_back now q :
  valid_date now →
  period q = "week" →
  let w := dashboardRange now q in
  w.2 = now ∧ patternsStart now q = w.1 ∧
  (7 < day now → w.1 = {| year := year now; month := month now;
                           day := day now - 7 |}) ∧
  (day now ≤ 7 → 0 < month now →
   w.1 = {| year := year now; month := month now - 1;
            day := daysInMonth (year now) (month now - 1) + day now - 7 |}) ∧
  (day now ≤ 7 → month now = 0 →
   w.1 = {| year := year now - 1; month := 11; day := 24 + day now |}).
Proof.
  intros [Hm Hd] Hweek w. unfold w, dashboardRange, patternsStart.
  rewrite Hweek. simpl.
  split; [done|]. split; [done|].
  pose proof (daysInMonth_range (year now) (month now)) as Hr.
  split; [|split].
  - intros Hday. unfold newDate.
    destruct (Z.leb_spec 1 (day now - 7)); [|lia].
    unfold MakeDay. rewrite Z.div_small, Z.mod_small by lia.
    replace (year now + 0) with (year now) by lia.
    destruct (Z.leb_spec (day now - 7) (daysInMonth (year now) (month now)));
      [done|lia].
  - intros Hday Hmonth. unfold newDate.
    destruct (Z.leb_spec 1 (day now - 7)); [lia|].
    pose proof (newDate_first (year now) (month now - 1) ltac:(lia)) as Hf.
    unfold newDate in Hf. simpl in Hf. rewrite Hf. simpl. f_equal. lia.
  - intros Hday Hmonth. unfold newDate.
    destruct (Z.leb_spec 1 (day now - 7)); [lia|].
    rewrite Hmonth. unfold MakeDay.
    change ((0 - 1) `div` 12) with (-1). change ((0 - 1) `mod` 12) with 11.
    simpl. change (daysInMonth (year now + -1) 11) with 31.
    f_equal; lia.
Qed.

Lemma analytics_week_goes_seven_days_back_witness :
  (dashboardRange {| year := 2024; month := 2; day := 3 |}
                  (with_period (Some "week"))).1
  = {| year := 2024; month := 1; day := 25 |}.
Proof.
  assert (valid_date {| year := 2024; month := 2; day := 3 |}) as Hv
      by (unfold valid_date; apply (bool_decide_unpack _); reflexivity).
  destruct (analytics_week_goes_seven_days_back _ (with_period (Some "week"))
              Hv eq_refl) as (_ & _ & _ & Hprev & _).
  apply Hprev; simpl; lia.
Defined.

End Windows.

(** ** The summary of a user's transactions *)

Section SummaryFacts.

Import TransactionList Summary.

Variable date_le : string → string → bool.
Variable reads_date : string → bool.
Variable to_integer : string → option Z.

Local Ltac membership_cases a h k :=
  destruct (decide (a ∈ k)); destruct (decide (a ∈ h :: k)); try done;
  exfalso;
  match goal with
  | H : a ∉ h :: k |- _ => apply H; first [by left | by right]
  | H : a ∈ h :: k |- _ => apply elem_of_cons in H as [?|?]; congruence
  end.

Lemma fold_set_bucket (count total : string → Z) kinds s :
  let bucket kind := {| bucket_count := count kind;
                        bucket_total := parseFloat (total kind) |} in
  let rows := map (fun kind => {| sr_type := kind; sr_count := count kind;
                                  sr_total := total kind |}) kinds in
  summary_income (fold_left set_bucket rows s)
  = (if decide ("income" ∈ kinds) then bucket "income" else summary_income s) ∧
  summary_expense (fold_left set_bucket rows s)
  = (if decide ("expense" ∈ kinds) then bucket "expense" else summary_expense s).
Proof.
  intros bucket.
  revert s. induction kinds as [|kind kinds IH]; intros s; [done|].
  simpl. destruct (IH (set_bucket s
                         {| sr_type := kind; sr_count := count kind;
                            sr_total := total kind |})) as [IHi IHe].
  simpl in IHi, IHe. rewrite IHi, IHe. clear IHi IHe IH.
  unfold set_bucket. simpl.
  destruct (String.eqb_spec kind "income") as [->|Hi];
    [|destruct (String.eqb_spec kind "expense") as [->|He]]; simpl.
  - split; [membership_cases "income" "income" kinds
           |membership_cases "expense" "income" kinds].
  - split; [membership_cases "income" "expense" kinds
           |membership_cases "expense" "expense" kinds].
  - split; [membership_cases "income" kind kinds
           |membership_cases "expense" kind kinds].
Qed.

Lemma summarize_group_by_type sel :
  let bucket kind :=
    {| bucket_count := Z.of_nat (length (filter (fun t => tx_type t = kind) sel));
       bucket_total :=
         parseFloat (amounts (filter (fun t => tx_type t = kind) sel)) |} in
  summarize (group_by_type sel)
  = {| summary_income := bucket "income"; summary_expense := bucket "expense";
       summary_balance := minus (bucket_total (bucket "income"))
                                (bucket_total (bucket "expense")) |}.
Proof.
  intros bucket. unfold summarize, group_by_type.
  pose proof (fold_set_bucket
                (fun kind => Z.of_nat (length (filter (fun t => tx_type t = kind) sel)))
                (fun kind => amounts (filter (fun t => tx_type t = kind) sel))
                (remove_dups (tx_type <$> sel))
                {| summary_income := {| bucket_count := 0; bucket_total := zero |};
                   summary_expense := {| bucket_count := 0; bucket_total := zero |};
                   summary_balance := zero |}) as [Hi He].
  simpl in Hi, He. rewrite Hi, He. clear Hi He.
  assert (∀ kind, kind ∉ remove_dups (tx_type <$> sel) →
                  bucket kind = {| bucket_count := 0; bucket_total := zero |})
    as Hnone.
  { intros kind Hk. unfold bucket.
    rewrite (filter_none (fun t => tx_type t = kind)); [done|].
    intros tx Htx Hkind. apply Hk. apply elem_of_remove_dups.
    apply list_elem_of_fmap. by exists tx. }
  fold (bucket "income"). fold (bucket "expense").
  assert ((if decide ("income" ∈ remove_dups (tx_type <$> sel))
           then bucket "income"
           else {| bucket_count := 0; bucket_total := zero |}) = bucket "income")
    as ->.
  { case_decide; [done|]. symmetry. by apply Hnone. }
  assert ((if decide ("expense" ∈ remove_dups (tx_type <$> sel))
           then bucket "expense"
           else {| bucket_count := 0; bucket_total := zero |}) = bucket "expense")
    as ->.
  { case_decide; [done|]. symmetry. by apply Hnone. }
  done.
Qed.

Lemma target_user_non_admin req :
  user_role (req_user req) ≠ admin →
  target_user req = PNumber (Num (user_id (req_user req))).
Proof.
  intros Hrole. unfold target_user.
  by destruct (user_role (req_user req)), (q_user_id (req_query req)) as [[|??]|].
Qed.

(** X24. The summary is the caller's own arithmetic: for a caller who is
    not an admin, when the database reads the dates the request supplies
    the answer is 200, its income and expense entries count the caller's
    transactions of that kind inside the requested dates and carry the
    double nearest to their exact sum, and the balance is the difference of
    these two doubles; when a supplied date is not read as a date the answer
    is 500. *)
Theorem summary_adds_up_own_transactions db req :
  user_role (req_user req) ≠ admin →
  let uid := user_id (req_user req) in
  let inc := kind_in_window date_le db uid (req_query req) "income" in
  let exp := kind_in_window date_le db uid (req_query req) "expense" in
  (dates_read reads_date (req_query req) = true →
   getTransactionSummary date_le reads_date to_integer db req
   = (ok 200 None None,
      Some {| summary_income := {| bucket_count := Z.of_nat (length inc);
                                   bucket_total := parseFloat (amounts inc) |};
              summary_expense := {| bucket_count := Z.of_nat (length exp);
                                    bucket_total := parseFloat (amounts exp) |};
              summary_balance := minus (parseFloat (amounts inc))
                                       (parseFloat (amounts exp)) |})) ∧
  (dates_read reads_date (req_query req) = false →
   getTransactionSummary date_le reads_date to_integer db req
   = (fail 500 "Internal server error", None)) ∧
  Forall (fun t => tx_user_id t = uid) (inc ++ exp).
Proof.
  intros Hrole uid inc exp. split; [|split].
  - intros Hdates. unfold getTransactionSummary.
    rewrite target_user_non_admin by done.
    simpl. rewrite Hdates. simpl. by rewrite summarize_group_by_type.
  - intros Hdates. unfold getTransactionSummary.
    rewrite target_user_non_admin by done.
    simpl. by rewrite Hdates.
  - apply Forall_app. unfold inc, exp, kind_in_window, selected.
    split; apply Forall_forall; intros tx Htx;
      apply list_elem_of_filter in Htx as [_ Htx];
      by apply list_elem_of_filter in Htx as [[? _] _].
Qed.

Lemma filter_and {A} (P Q : A → Prop) `{!∀ x, Decision (P x)}
    `{!∀ x, Decision (Q x)} (l : list A) :
  filter (fun x => P x ∧ Q x) l = filter Q (filter P l).
Proof.
  induction l as [|a l IH]; [done|].
  rewrite !filter_cons.
  destruct (decide (P a)) as [Hp|Hp].
  - rewrite filter_cons. destruct (decide (Q a)) as [Hq|Hq].
    + rewrite decide_True by done. by rewrite IH.
    + rewrite decide_False by (intros [_ ?]; done). exact IH.
  - rewrite decide_False by (intros [? _]; done). exact IH.
Qed.

(** X25. The summary does not depend on anybody else's rows: for a caller
    who is not an admin, two stores that hold the same transactions of the
    caller give the same answer, whatever the other users' rows and whatever
    [user_id] the query names. *)
Theorem summary_ignores_other_users db1 db2 req :
  user_role (req_user req) ≠ admin →
  rows_of_user (user_id (req_user req)) db1
  = rows_of_user (user_id (req_user req)) db2 →
  getTransactionSummary date_le reads_date to_integer db1 req
  = getTransactionSummary date_le reads_date to_integer db2 req.
Proof.
  intros Hrole Hrows. unfold getTransactionSummary.
  rewrite target_user_non_admin by done. simpl.
  unfold selected. rewrite !filter_and.
  unfold rows_of_user in Hrows. by rewrite Hrows.
Qed.

End SummaryFacts.

Lemma summary_adds_up_own_transactions_witness :
  Summary.getTransactionSummary (fun _ _ => true) (fun _ => true)
    (fun _ => None) sample_db (on_list alice empty_query)
  = (ok 200 None None,
     Some {| Summary.summary_income :=
               {| Summary.bucket_count := 1;
                  Summary.bucket_total := parseFloat 100000 |};
             Summary.summary_expense :=
               {| Summary.bucket_count := 0; Summary.bucket_total := zero |};
             Summary.summary_balance := parseFloat 100000 |}).
Proof.
  assert (user_role (req_user (on_list alice empty_query)) ≠ admin) as Hrole
      by discriminate.
  assert (Summary.dates_read (fun _ => true)
            (req_query (on_list alice empty_query)) = true) as Hdates
      by reflexivity.
  destruct (summary_adds_up_own_transactions (fun _ _ => true) (fun _ => true)
              (fun _ => None) sample_db (on_list alice empty_query) Hrole)
    as (Hok & _ & _).
  exact (Hok Hdates).
Defined.

(** The balance is a difference of doubles: with an income of 0.30 and
    expenses of 0.10 it is not the double nearest to 0.20. *)
Example balance_is_a_double_difference :
  minus (parseFloat 30) (parseFloat 10) ≠ parseFloat 20.
Proof. by vm_compute. Qed.

Lemma summary_ignores_other_users_witness :
  Summary.getTransactionSummary (fun _ _ => true) (fun _ => true)
    (fun _ => None) sample_db (on_list bob empty_query)
  = Summary.getTransactionSummary (fun _ _ => true) (fun _ => true)
      (fun _ => None)
      (Sql.delete_transaction sample_db (Some 1)) (on_list bob empty_query).
Proof.
  assert (user_role (req_user (on_list bob empty_query)) ≠ admin) as Hrole
      by discriminate.
  assert (rows_of_user (user_id (req_user (on_list bob empty_query))) sample_db
          = rows_of_user (user_id (req_user (on_list bob empty_query)))
              (Sql.delete_transaction sample_db (Some 1))) as Hrows
      by reflexivity.
  exact (summary_ignores_other_users (fun _ _ => true) (fun _ => true)
           (fun _ => None)
           sample_db (Sql.delete_transaction sample_db (Some 1))
           (on_list bob empty_query) Hrole Hrows).
Defined.

(** ** Creating and reading a category *)

Section CategoryCreation.

Import Categories.

(** X26. Creating a category keeps the store well-formed and the new row
    readable: category ids and names stay unique and the store consistent
    whatever the answer; on 201 the row is appended under the sequence's id
    with the name, kind and colour of the body (the default colour when none
    is given) and a read of that id returns it; on any other answer the
    store is unchanged, and a name already in use is answered 409. *)
Theorem created_category_is_unique_and_readable db id req :
  consistent db →
  category_names_unique db →
  category_ids_below id db →
  let out := createCategory db id req in
  consistent out.1 ∧ category_names_unique out.1 ∧
  category_ids_below (id + 1) out.1 ∧
  (statusCode out.2 = 201 →
   ∃ c, out.2 = ok 201 (Some "Category created successfully")
                  (Some (DCategory c)) ∧
        cat_id c = id ∧ cat_name c = b_name (req_body req) ∧
        cat_type c = b_type (req_body req) ∧
        cat_color c = Some (default "#6366f1" (b_color (req_body req))) ∧
        db_categories out.1 = (db_categories db ++ [c])%list ∧
        getCategory out.1 (for_id req id) = ok 200 None (Some (DCategory c))) ∧
  (statusCode out.2 ≠ 201 → out.1 = db) ∧
  (req_errors req = [] →
   (∃ c, c ∈ db_categories db ∧ cat_name c = b_name (req_body req)) →
   out = (db, fail 409 "Category with this name already exists")).
Proof.
  intros Hcons Hnames Hbelow out.
  assert (category_ids_below (id + 1) db) as Hbelow'.
  { unfold category_ids_below in *. eapply Forall_impl; [exact Hbelow|].
    simpl. intros. lia. }
  unfold out, createCategory.
  destruct (req_errors req) as [|e errs] eqn:Herr.
  2: { cbn [fst snd].
       split; [done|split; [done|split; [done|split; [by intros [=]|]]]].
       split; [done|by intros [=]]. }
  destruct (categories_by_name db (b_name (req_body req))) as [|c0 rest] eqn:Hn.
  2: { cbn [fst snd].
       split; [done|split; [done|split; [done|split; [by intros [=]|]]]].
       split; done. }
  destruct (Sql.int4 id) eqn:Hint; cbn [negb].
  2: { cbn [fst snd].
       split; [done|split; [done|split; [done|split; [by intros [=]|]]]].
       split; [done|]. intros _ (x & Hx & Hname). exfalso.
       assert (x ∈ categories_by_name db (b_name (req_body req))) as Hin
           by (by apply list_elem_of_filter).
       rewrite Hn in Hin. by apply not_elem_of_nil in Hin. }
  unfold insert_category. cbn [fst snd].
  set (c := {| cat_id := id; cat_name := b_name (req_body req);
               cat_type := b_type (req_body req);
               cat_color := Some match b_color (req_body req) with
                                 | Some color => color
                                 | None => "#6366f1"
                                 end |}).
  set (db' := {| db_users := db_users db;
                 db_categories := (db_categories db ++ [c])%list;
                 db_transactions := db_transactions db;
                 db_transactions_seq := db_transactions_seq db |}).
  assert (∀ x, x ∈ db_categories db → cat_name x ≠ b_name (req_body req))
    as Hfresh_name.
  { intros x Hx Hname.
    assert (x ∈ categories_by_name db (b_name (req_body req))) as Hin
        by (by apply list_elem_of_filter).
    rewrite Hn in Hin. by apply not_elem_of_nil in Hin. }
  assert (∀ x, x ∈ db_categories db → cat_id x ≠ id) as Hfresh_id.
  { intros x Hx. unfold category_ids_below in Hbelow.
    rewrite Forall_forall in Hbelow. specialize (Hbelow x Hx). lia. }
  destruct Hcons as (Hcu & Htu & Hseq & Hex & Hk).
  split; [|split; [|split; [|split; [|split]]]].
  - split; [|split; [|split; [|split]]]; try done.
    + unfold category_ids_unique in *. simpl. rewrite fmap_app. simpl.
      apply NoDup_app. split; [done|]. split; [|apply NoDup_singleton].
      intros i Hi Hi'. apply list_elem_of_singleton in Hi'. subst i.
      apply list_elem_of_fmap in Hi as (x & Hxid & Hx).
      by apply (Hfresh_id x).
    + unfold categories_exist in *. simpl.
      eapply Forall_impl; [exact Hex|]. simpl. intros tx Htx.
      rewrite Exists_exists in *. destruct Htx as (x & Hx & Hxid).
      exists x. split; [|done]. apply elem_of_app. by left.
    + unfold kinds_agree, categories_exist in *. simpl.
      rewrite Forall_forall in Hk, Hex. apply Forall_forall. intros tx Htx.
      apply Forall_app. split; [by apply Hk|].
      apply Forall_singleton. simpl. intros Hid. exfalso.
      specialize (Hex tx Htx). apply Exists_exists in Hex as (x & Hx & Hxid).
      apply (Hfresh_id x Hx). congruence.
  - unfold category_names_unique in *. simpl. rewrite fmap_app. simpl.
    apply NoDup_app. split; [done|]. split; [|apply NoDup_singleton].
    intros n Hn1 Hn2. apply list_elem_of_singleton in Hn2. subst n.
    apply list_elem_of_fmap in Hn1 as (x & Hxn & Hx).
    by apply (Hfresh_name x).
  - unfold category_ids_below in *. simpl. apply Forall_app.
    split; [done|]. apply Forall_singleton. simpl. lia.
  - intros _. exists c. repeat split; try done.
    unfold getCategory.
    assert (Sql.readable (req_params_id (for_id req id)) = true) as ->
        by exact Hint.
    unfold Sql.categories_by_id, db'. simpl.
    rewrite filter_app, (filter_none _ (db_categories db)).
    + rewrite filter_cons, decide_True by done. done.
    + intros x Hx Hm. apply (Hfresh_id x Hx). unfold Sql.matches in Hm.
      congruence.
  - intros Hne. by simpl in Hne.
  - intros _ (x & Hx & Hname). exfalso. by apply (Hfresh_name x).
Qed.

Lemma created_category_is_unique_and_readable_witness :
  getCategory (createCategory sample_db 6
                 {| req_user := root; req_route_path := "/";
                    req_params_id := None; req_query := empty_query;
                    req_body := {| b_amount := hundredths 0; b_description := "";
                                   b_type := "expense"; b_category_id := 0;
                                   b_date := ""; b_name := "Travel";
                                   b_color := None |};
                    req_errors := [] |}).1
              (on_transaction alice 6 lunch [])
  = ok 200 None
       (Some (DCategory {| cat_id := 6; cat_name := "Travel";
                           cat_type := "expense";
                           cat_color := Some "#6366f1" |})).
Proof.
  assert (consistent sample_db) as Hcons.
  { repeat split; apply (bool_decide_unpack _); reflexivity. }
  assert (category_names_unique sample_db) as Hnames
      by (apply (bool_decide_unpack _); reflexivity).
  assert (category_ids_below 6 sample_db) as Hbelow
      by (apply (bool_decide_unpack _); reflexivity).
  destruct (created_category_is_unique_and_readable sample_db 6
              {| req_user := root; req_route_path := "/";
                 req_params_id := None; req_query := empty_query;
                 req_body := {| b_amount := hundredths 0; b_description := "";
                                b_type := "expense"; b_category_id := 0;
                                b_date := ""; b_name := "Travel";
                                b_color := None |};
                 req_errors := [] |} Hcons Hnames Hbelow)
    as (_ & _ & _ & Hcreated & _).
  destruct (Hcreated eq_refl) as (c & Hout & _ & _ & _ & _ & _ & Hread).
  injection Hout as <-. exact Hread.
Defined.

End CategoryCreation.

(** ** The spending patterns add up *)

Section PatternFacts.

Import SpendingPatterns.

Lemma sum_with_app {A} (f : A → Z) l1 l2 :
  sum_with f (l1 ++ l2) = sum_with f l1 + sum_with f l2.
Proof. induction l1 as [|x l1 IH]; simpl; [done|]. rewrite IH. lia. Qed.

Lemma sum_with_insert {A} (f : A → Z) (l : list A) i x y :
  l !! i = Some x →
  sum_with f (<[i := y]> l) = sum_with f l - f x + f y.
Proof.
  revert i. induction l as [|a l IH]; intros [|i] Hi; try done; simpl in *.
  - injection Hi as ->. lia.
  - rewrite (IH i Hi). lia.
Qed.

Lemma added_up_snoc kind rows row :
  added_up kind (rows ++ [row])
  = if String.eqb (pattern_type row) kind
    then plus (added_up kind rows) (parseFloat (total_amount row))
    else added_up kind rows.
Proof.
  unfold added_up. rewrite filter_app, filter_cons, filter_nil.
  destruct (String.eqb_spec (pattern_type row) kind) as [Hk|Hk].
  - rewrite decide_True by done. by rewrite fold_left_app.
  - rewrite decide_False by done. by rewrite app_nil_r.
Qed.

(** The slot of the rows read so far and of one more row. *)
Lemma slot_of_snoc rows row :
  pattern_type row = "income" ∨ pattern_type row = "expense" →
  slot_of (rows ++ [row])
  = add_to (slot_of rows) (pattern_type row) (parseFloat (total_amount row))
           (transaction_count row).
Proof.
  intros Hkind. unfold slot_of, add_to.
  rewrite !added_up_snoc, sum_with_app. cbn [sum_with foldr].
  rewrite Z.add_0_r.
  by destruct Hkind as [-> | ->].
Qed.

Lemma add_pattern_adds_up p rows row :
  adds_up p rows → pattern_row_ok row →
  ∃ p', add_pattern p row = Some p' ∧ adds_up p' (rows ++ [row]).
Proof.
  intros (-> & Hdc & Hhc) (Hdow & Hhour & Hkind).
  unfold add_pattern, at_index.
  destruct (Z.leb_spec 0 (day_of_week row)); [|lia].
  destruct (Z.leb_spec 0 (hour_of_day row)); [|lia].
  set (d := Z.to_nat (day_of_week row)).
  set (h := Z.to_nat (hour_of_day row)).
  destruct (lookup_lt_is_Some_2 dayNames d) as [dayName Hname];
    [simpl; lia|].
  assert (byDayOfWeek (patterns_of rows) !! d
          = Some (dayName, slot_of (on_day (day_of_week row) rows))) as Hd.
  { cbn [patterns_of byDayOfWeek]. rewrite list_lookup_imap, Hname.
    unfold d. by rewrite Z2Nat.id by lia. }
  assert (byHourOfDay (patterns_of rows) !! h
          = Some (slot_of (at_hour (hour_of_day row) rows))) as Hh.
  { cbn [patterns_of byHourOfDay]. rewrite list_lookup_fmap.
    rewrite lookup_seq_lt by lia. simpl. unfold h. by rewrite Z2Nat.id by lia. }
  rewrite Hd, Hh. eexists. split; [reflexivity|].
  unfold adds_up. cbn [byDayOfWeek byHourOfDay byType_income byType_expense].
  rewrite !sum_with_app. cbn [sum_with foldr].
  rewrite (sum_with_insert _ _ _ _ _ Hd), (sum_with_insert _ _ _ _ _ Hh).
  cbn [snd].
  assert (∀ s, slot_count (add_to s (pattern_type row)
                             (parseFloat (total_amount row))
                             (transaction_count row))
               = slot_count s + transaction_count row) as Hcount.
  { intros s. unfold add_to. by repeat case_match. }
  rewrite !Hcount.
  split; [|split; lia].
  unfold patterns_of.
  cbn [byDayOfWeek byHourOfDay byType_income byType_expense]. f_equal.
  - apply list_eq. intros i. rewrite !list_lookup_imap.
    destruct (decide (d = i)) as [<-|Hne].
    + rewrite list_lookup_insert_eq by (rewrite ?length_imap; simpl; lia).
      rewrite Hname. simpl. do 2 f_equal.
      unfold d. rewrite Z2Nat.id by lia.
      unfold on_day. rewrite filter_app, filter_cons, filter_nil.
      rewrite decide_True by done. by rewrite slot_of_snoc.
    + rewrite list_lookup_insert_ne by done. rewrite list_lookup_imap.
      destruct (dayNames !! i); [|done]. simpl. do 3 f_equal.
      unfold on_day. rewrite filter_app, filter_cons, filter_nil.
      rewrite decide_False by (unfold d in Hne; lia). by rewrite app_nil_r.
  - apply list_eq. intros i. rewrite !list_lookup_fmap.
    destruct (decide (h = i)) as [<-|Hne].
    + rewrite list_lookup_insert_eq by (rewrite length_fmap, length_seq; lia).
      rewrite lookup_seq_lt by lia. simpl. f_equal.
      unfold h. rewrite Z2Nat.id by lia.
      unfold at_hour. rewrite filter_app, filter_cons, filter_nil.
      rewrite decide_True by done. by rewrite slot_of_snoc.
    + rewrite list_lookup_insert_ne by done. rewrite list_lookup_fmap.
      destruct (seq 0 24 !! i) as [k|] eqn:Hi; [|done]. simpl. do 2 f_equal.
      unfold at_hour. rewrite filter_app, filter_cons, filter_nil.
      rewrite decide_False; [by rewrite app_nil_r|].
      intros Heq. apply lookup_seq in Hi as [-> _]. unfold h in Hne. lia.
  - rewrite added_up_snoc. by destruct Hkind as [-> | ->].
  - rewrite added_up_snoc. by destruct Hkind as [-> | ->].
Qed.

Lemma initial_adds_up : adds_up initial [].
Proof. by repeat split. Qed.

(** X27. The spending patterns cell by cell: for rows naming a day of the
    week, an hour of the day and one of the two kinds the loop ends without
    throwing; each day keeps its name and the hours stay 24; the income and
    the expense of a day, of an hour and of [byType] are the totals of the
    rows of that day, that hour or all rows, read as doubles and added in
    the order of the rows; the count of a day or an hour is the sum of the
    counts of its rows; and the counts over the days and over the hours both
    add up to the counts of all rows. *)
Theorem spending_patterns_add_up rows :
  Forall pattern_row_ok rows →
  getSpendingPatterns rows = Some (patterns_of rows) ∧
  (byDayOfWeek (patterns_of rows)).*1 = dayNames ∧
  length (byHourOfDay (patterns_of rows)) = 24%nat ∧
  sum_with (fun e => slot_count e.2) (byDayOfWeek (patterns_of rows))
  = sum_with transaction_count rows ∧
  sum_with slot_count (byHourOfDay (patterns_of rows))
  = sum_with transaction_count rows.
Proof.
  intros Hrows.
  assert (∃ p, getSpendingPatterns rows = Some p ∧ adds_up p rows)
    as (p & Hp & Hinv).
  { unfold getSpendingPatterns.
    induction rows as [|row rows IH] using rev_ind.
    - exists initial. split; [done|apply initial_adds_up].
    - apply Forall_app in Hrows as [Hrows Hrow].
      rewrite Forall_singleton in Hrow.
      destruct (IH Hrows) as (p & Hp & Hinv).
      rewrite fold_left_app. simpl. rewrite Hp.
      by apply add_pattern_adds_up. }
  destruct Hinv as (-> & Hdc & Hhc).
  split; [done|]. split; [done|]. split; [done|]. by split.
Qed.

Lemma spending_patterns_add_up_witness :
  let rows :=
    [ {| day_of_week := 1; hour_of_day := 9; pattern_type := "expense";
         transaction_count := 3; total_amount := 30 |};
      {| day_of_week := 5; hour_of_day := 9; pattern_type := "expense";
         transaction_count := 1; total_amount := 40 |} ] in
  ∃ p, getSpendingPatterns rows = Some p ∧
       byType_expense p = parseFloat 70 ∧
       byHourOfDay p !! 9%nat
       = Some {| slot_income := zero; slot_expense := parseFloat 70;
                 slot_count := 4 |} ∧
       sum_with slot_count (byHourOfDay p) = 4.
Proof.
  intros rows.
  assert (Forall pattern_row_ok rows) as Hrows.
  { repeat constructor; simpl; lia || (by left) || (by right). }
  destruct (spending_patterns_add_up _ Hrows) as (Hp & _ & _ & _ & Hhc).
  exists (patterns_of rows).
  split; [exact Hp|]. split; [reflexivity|]. split; [reflexivity|exact Hhc].
Defined.

(** The additions are those of doubles, in the order of the rows: three
    rows of 0.10 and one of 0.40 give 0.7000000000000001 by kind, which is
    not the double nearest to 0.70. *)
Example totals_by_kind_are_added_in_row_order :
  let row h := {| day_of_week := 1; hour_of_day := h; pattern_type := "expense";
                  transaction_count := 1; total_amount := 10 |} in
  let rows := [ row 9; row 10; row 11;
                {| day_of_week := 1; hour_of_day := 12;
                   pattern_type := "expense"; transaction_count := 1;
                   total_amount := 40 |} ] in
  byType_expense (patterns_of rows) ≠ parseFloat 70 ∧
  byType_expense (patterns_of rows)
  = SpecFloat.S754_finite false 6305039478318695 (-53).
Proof. split; by vm_compute. Qed.

End PatternFacts.

(** ** The client's permission check and the server's gates *)

Section ClientPermissions.

Import AuthContext.

(** X28. The client offers an action exactly when the server's role gate
    lets it through: for a signed-in user, [canPerformAction] holds for
    create, update and delete if and only if [requireUserOrAdmin] calls
    [next()] on that user's request, and for read as [requireAnyRole] always
    does; an unknown action and a signed-out client get nothing. *)
Theorem client_permissions_match_server_gates req action :
  let u := Some (req_user req) in
  (action ∈ ["create"; "update"; "delete"] →
   (canPerformAction u action = true ↔ Auth.requireUserOrAdmin req = Next) ∧
   (canPerformAction u action = false ↔
    Auth.requireUserOrAdmin req = Send (fail 403 "Insufficient permissions"))) ∧
  canPerformAction u "read" = true ∧ Auth.requireAnyRole req = Next ∧
  (action ∉ ["create"; "update"; "delete"; "read"] →
   canPerformAction u action = false) ∧
  canPerformAction None action = false.
Proof.
  intros u. split; [|split; [|split; [|split]]].
  - intros Ha. unfold Auth.requireUserOrAdmin, Auth.requireRole. simpl.
    assert (String.eqb action "create" || String.eqb action "update"
            || String.eqb action "delete" = true) as ->.
    { apply elem_of_cons in Ha as [->|Ha]; [done|].
      apply elem_of_cons in Ha as [->|Ha]; [done|].
      apply list_elem_of_singleton in Ha as ->. done. }
    destruct (user_role (req_user req)); simpl; split; split; done.
  - done.
  - unfold Auth.requireAnyRole, Auth.requireRole.
    by destruct (user_role (req_user req)).
  - intros Ha. simpl.
    destruct (String.eqb_spec action "create") as [->|_].
    { exfalso. apply Ha. by left. }
    destruct (String.eqb_spec action "update") as [->|_].
    { exfalso. apply Ha. right. by left. }
    destruct (String.eqb_spec action "delete") as [->|_].
    { exfalso. apply Ha. right. right. by left. }
    destruct (String.eqb_spec action "read") as [->|_]; [|done].
    exfalso. apply Ha. right. right. right. by left.
  - done.
Qed.

Lemma client_permissions_match_server_gates_witness :
  canPerformAction
    (Some {| user_id := 4; user_email := "readonly@financetracker.com";
             user_name := "Read Only User"; user_role := read_only |})
    "delete" = false.
Proof.
  destruct (client_permissions_match_server_gates
              (on_transaction
                 {| user_id := 4; user_email := "readonly@financetracker.com";
                    user_name := "Read Only User"; user_role := read_only |}
                 1 lunch []) "delete") as (Hmut & _).
  assert ("delete" ∈ ["create"; "update"; "delete"]) as Ha
      by (apply (bool_decide_unpack _); reflexivity).
  destruct (Hmut Ha) as [_ [_ Hno]].
  apply Hno. reflexivity.
Defined.

End ClientPermissions.
